(** * Sayna Python SDK: session state machine and message schema

    A shallow embedding of [sayna_client/types.py] (the pydantic message
    schema) and [sayna_client/client.py] (the WebSocket client), followed by
    the properties of the session life cycle, of the dispatch loop and of
    the wire encoding.

    Conventions of the embedding.
    - Python [str] is [string], [int] is [Z], [float] is a binary64 [float],
      [bytes] is [list byte], [Optional[T]] is [option T] with [None] for
      Python's [None].
    - A value produced by [json.loads] is a [json]; a Python [dict] with
      string keys is an association list read with [dict_get].
    - pydantic and [json] are libraries outside the repository: their
      primitive validators and [json.loads] are operations of the classes
      [Pydantic] and [JsonLib].
    - Calls that leave the process (aiohttp, the REST helper, host
      callbacks) are recorded in a list of [event]s; what such a call
      returns or raises is an input of the operation that makes it. *)

From Stdlib Require Import String Ascii List ZArith Bool PrimFloat.
From Stdlib Require Import Strings.Byte.
Import ListNotations.
Open Scope string_scope.
Open Scope list_scope.
Set Warnings "-register-all".

(* ================================================================== *)
(** ** JSON values *)

Inductive json : Type :=
| JNull
| JBool (b : bool)
| JInt (z : Z)
| JFloat (f : float)
| JStr (s : string)
| JList (l : list json)
| JDict (d : list (string * json)).

Definition pydict : Type := list (string * json).

(** [d.get(k)] *)
Fixpoint dict_get (d : pydict) (k : string) : option json :=
  match d with
  | [] => None
  | (k', v) :: rest => if String.eqb k k' then Some v else dict_get rest k
  end.

(** [v == s] for a JSON value [v] and a string literal [s]. *)
Definition py_eq_str (v : option json) (s : string) : bool :=
  match v with
  | Some (JStr s') => String.eqb s' s
  | _ => false
  end.

(** An entry of [model_dump(exclude_none=True)]: a field that is [None]
    contributes nothing. *)
Definition dump_opt {A : Type} (k : string) (enc : A -> json) (o : option A) : pydict :=
  match o with
  | Some a => [(k, enc a)]
  | None => []
  end.

(** No entry of the dictionary is an explicit null. *)
Definition no_null (d : pydict) : Prop :=
  forall k, dict_get d k <> Some JNull.

(* ================================================================== *)
(** ** The libraries the schema rests on *)

(** pydantic's validators of the primitive field types.  Each one accepts a
    value that already has the field's type and returns it unchanged; what
    they do with values of another type (pydantic's coercions) is left
    open. *)
Class Pydantic : Type := {
  str_validate : json -> option string;
  bool_validate : json -> option bool;
  int_validate : json -> option Z;
  float_validate : json -> option float;
  str_validate_str : forall s, str_validate (JStr s) = Some s;
  bool_validate_bool : forall b, bool_validate (JBool b) = Some b;
  int_validate_int : forall z, int_validate (JInt z) = Some z;
  float_validate_float : forall f, float_validate (JFloat f) = Some f
}.

(** [json.loads]: [None] stands for a raised [JSONDecodeError]. *)
Class JsonLib : Type := {
  json_loads : string -> option json
}.

(** An instance of [Pydantic] that accepts exactly the values of the
    field's type. *)
Definition strict_pydantic : Pydantic :=
  {| str_validate := fun j => match j with JStr s => Some s | _ => None end;
     bool_validate := fun j => match j with JBool b => Some b | _ => None end;
     int_validate := fun j => match j with JInt z => Some z | _ => None end;
     float_validate := fun j => match j with JFloat f => Some f | _ => None end;
     str_validate_str := fun _ => eq_refl;
     bool_validate_bool := fun _ => eq_refl;
     int_validate_int := fun _ => eq_refl;
     float_validate_float := fun _ => eq_refl |}.

(** A [json.loads] given by a finite table of texts; every other text is
    rejected. *)
Fixpoint table_lookup (tbl : list (string * json)) (s : string) : option json :=
  match tbl with
  | [] => None
  | (k, v) :: rest => if String.eqb s k then Some v else table_lookup rest s
  end.

Definition table_json (tbl : list (string * json)) : JsonLib :=
  {| json_loads := table_lookup tbl |}.

(* ================================================================== *)
(** ** Field validation, as pydantic does it when a model is built from the keys of a dictionary *)

Section Fields.
Context {A : Type}.

(** A required field ([Field(...)]): the key must be present. *)
Definition required (v : json -> option A) (d : pydict) (k : string) : option A :=
  match dict_get d k with
  | Some j => v j
  | None => None
  end.

(** An [Optional[T]] field with default [dflt]: an absent key gives the
    default, an explicit [None] gives [None]. *)
Definition optional (v : json -> option A) (dflt : option A) (d : pydict) (k : string)
  : option (option A) :=
  match dict_get d k with
  | None => Some dflt
  | Some JNull => Some None
  | Some j => option_map Some (v j)
  end.

(** A field of type [T] with a default (not nullable). *)
Definition defaulted (v : json -> option A) (dflt : A) (d : pydict) (k : string) : option A :=
  match dict_get d k with
  | None => Some dflt
  | Some j => v j
  end.

(** [list[T]] read from a JSON array. *)
Fixpoint all_valid (v : json -> option A) (l : list json) : option (list A) :=
  match l with
  | [] => Some []
  | j :: rest =>
      match v j, all_valid v rest with
      | Some a, Some r => Some (a :: r)
      | _, _ => None
      end
  end.

Definition list_validate (v : json -> option A) (j : json) : option (list A) :=
  match j with
  | JList l => all_valid v l
  | _ => None
  end.
End Fields.

(** A [Literal[lit]] field with default [lit]. *)
Definition literal (lit : string) (d : pydict) : option unit :=
  match dict_get d "type" with
  | None => Some tt
  | Some (JStr s) => if String.eqb s lit then Some tt else None
  | Some _ => None
  end.

(** A nested model, or a [dict[str, Any]], read from a JSON object. *)
Definition model_validate {A : Type} (v : pydict -> option A) (j : json) : option A :=
  match j with
  | JDict d => v d
  | _ => None
  end.

Notation "'let?' x ':=' e 'in' k" :=
  (match e with Some x => k | None => None end)
  (at level 10, x name, e at level 100, k at level 200, only parsing).

(* ================================================================== *)
(** ** types.py: configuration models *)

Module Pronunciation.
Record t : Type := { word : string; pronunciation : string }.

Definition model_dump (p : t) : pydict :=
  [("word", JStr (word p)); ("pronunciation", JStr (pronunciation p))].

Definition validate `{Pydantic} (d : pydict) : option t :=
  let? w := required str_validate d "word" in
  let? p := required str_validate d "pronunciation" in
  Some {| word := w; pronunciation := p |}.
End Pronunciation.

Module STTConfig.
Record t : Type := {
  provider : string;
  language : string;
  sample_rate : Z;
  channels : Z;
  punctuation : bool;
  encoding : string;
  model : string
}.

Definition model_dump (c : t) : pydict :=
  [("provider", JStr (provider c));
   ("language", JStr (language c));
   ("sample_rate", JInt (sample_rate c));
   ("channels", JInt (channels c));
   ("punctuation", JBool (punctuation c));
   ("encoding", JStr (encoding c));
   ("model", JStr (model c))].

Definition validate `{Pydantic} (d : pydict) : option t :=
  let? p := required str_validate d "provider" in
  let? l := required str_validate d "language" in
  let? sr := required int_validate d "sample_rate" in
  let? ch := required int_validate d "channels" in
  let? pu := required bool_validate d "punctuation" in
  let? en := required str_validate d "encoding" in
  let? m := required str_validate d "model" in
  Some {| provider := p; language := l; sample_rate := sr; channels := ch;
          punctuation := pu; encoding := en; model := m |}.
End STTConfig.

Module TTSConfig.
Record t : Type := {
  provider : string;
  voice_id : string;
  speaking_rate : float;
  audio_format : string;
  sample_rate : Z;
  connection_timeout : Z;
  request_timeout : Z;
  model : string;
  pronunciations : list Pronunciation.t
}.

Definition model_dump (c : t) : pydict :=
  [("provider", JStr (provider c));
   ("voice_id", JStr (voice_id c));
   ("speaking_rate", JFloat (speaking_rate c));
   ("audio_format", JStr (audio_format c));
   ("sample_rate", JInt (sample_rate c));
   ("connection_timeout", JInt (connection_timeout c));
   ("request_timeout", JInt (request_timeout c));
   ("model", JStr (model c));
   ("pronunciations",
     JList (map (fun p => JDict (Pronunciation.model_dump p)) (pronunciations c)))].

Definition validate `{Pydantic} (d : pydict) : option t :=
  let? p := required str_validate d "provider" in
  let? v := required str_validate d "voice_id" in
  let? sp := required float_validate d "speaking_rate" in
  let? af := required str_validate d "audio_format" in
  let? sr := required int_validate d "sample_rate" in
  let? ct := required int_validate d "connection_timeout" in
  let? rt := required int_validate d "request_timeout" in
  let? m := required str_validate d "model" in
  let? pr := defaulted (list_validate (model_validate Pronunciation.validate)) []
               d "pronunciations" in
  Some {| provider := p; voice_id := v; speaking_rate := sp; audio_format := af;
          sample_rate := sr; connection_timeout := ct; request_timeout := rt;
          model := m; pronunciations := pr |}.
End TTSConfig.

Module LiveKitConfig.
Record t : Type := {
  room_name : string;
  enable_recording : option bool;
  recording_file_key : option string;
  sayna_participant_identity : option string;
  sayna_participant_name : option string;
  listen_participants : option (list string)
}.

Definition model_dump_exclude_none (c : t) : pydict :=
  [("room_name", JStr (room_name c))]
  ++ dump_opt "enable_recording" JBool (enable_recording c)
  ++ dump_opt "recording_file_key" JStr (recording_file_key c)
  ++ dump_opt "sayna_participant_identity" JStr (sayna_participant_identity c)
  ++ dump_opt "sayna_participant_name" JStr (sayna_participant_name c)
  ++ dump_opt "listen_participants" (fun l => JList (map JStr l)) (listen_participants c).

Definition validate `{Pydantic} (d : pydict) : option t :=
  let? rn := required str_validate d "room_name" in
  let? er := optional bool_validate (Some false) d "enable_recording" in
  let? rk := optional str_validate None d "recording_file_key" in
  let? pi := optional str_validate (Some "sayna-ai") d "sayna_participant_identity" in
  let? pn := optional str_validate (Some "Sayna AI") d "sayna_participant_name" in
  let? lp := optional (list_validate str_validate) (Some []) d "listen_participants" in
  Some {| room_name := rn; enable_recording := er; recording_file_key := rk;
          sayna_participant_identity := pi; sayna_participant_name := pn;
          listen_participants := lp |}.
End LiveKitConfig.

(* ================================================================== *)
(** ** types.py: outgoing messages (client to server)

    The [type] attribute of a message class is a [Literal] with one value:
    it is a constant of the class, written by [model_dump] and checked by
    [validate], and not a field of the record. *)

Module ConfigMessage.
Record t : Type := {
  audio : option bool;
  stt_config : option STTConfig.t;
  tts_config : option TTSConfig.t;
  livekit : option LiveKitConfig.t
}.

Definition model_dump_exclude_none (m : t) : pydict :=
  [("type", JStr "config")]
  ++ dump_opt "audio" JBool (audio m)
  ++ dump_opt "stt_config" (fun c => JDict (STTConfig.model_dump c)) (stt_config m)
  ++ dump_opt "tts_config" (fun c => JDict (TTSConfig.model_dump c)) (tts_config m)
  ++ dump_opt "livekit" (fun c => JDict (LiveKitConfig.model_dump_exclude_none c)) (livekit m).

Definition validate `{Pydantic} (d : pydict) : option t :=
  let? _ := literal "config" d in
  let? a := optional bool_validate (Some true) d "audio" in
  let? s := optional (model_validate STTConfig.validate) None d "stt_config" in
  let? t := optional (model_validate TTSConfig.validate) None d "tts_config" in
  let? l := optional (model_validate LiveKitConfig.validate) None d "livekit" in
  Some {| audio := a; stt_config := s; tts_config := t; livekit := l |}.
End ConfigMessage.

Module SpeakMessage.
Record t : Type := {
  text : string;
  flush : option bool;
  allow_interruption : option bool
}.

Definition model_dump_exclude_none (m : t) : pydict :=
  [("type", JStr "speak"); ("text", JStr (text m))]
  ++ dump_opt "flush" JBool (flush m)
  ++ dump_opt "allow_interruption" JBool (allow_interruption m).

Definition validate `{Pydantic} (d : pydict) : option t :=
  let? _ := literal "speak" d in
  let? tx := required str_validate d "text" in
  let? f := optional bool_validate None d "flush" in
  let? a := optional bool_validate None d "allow_interruption" in
  Some {| text := tx; flush := f; allow_interruption := a |}.
End SpeakMessage.

Module ClearMessage.
Record t : Type := { }.

Definition model_dump_exclude_none (m : t) : pydict := [("type", JStr "clear")].

Definition validate (d : pydict) : option t :=
  let? _ := literal "clear" d in
  Some Build_t.
End ClearMessage.

Module SendMessageMessage.
Record t : Type := {
  message : string;
  role : string;
  topic : option string;
  debug : option pydict
}.

Definition model_dump_exclude_none (m : t) : pydict :=
  [("type", JStr "send_message"); ("message", JStr (message m)); ("role", JStr (role m))]
  ++ dump_opt "topic" JStr (topic m)
  ++ dump_opt "debug" JDict (debug m).

Definition validate `{Pydantic} (d : pydict) : option t :=
  let? _ := literal "send_message" d in
  let? m := required str_validate d "message" in
  let? r := required str_validate d "role" in
  let? tp := optional str_validate None d "topic" in
  let? db := optional (model_validate (fun x => Some x)) None d "debug" in
  Some {| message := m; role := r; topic := tp; debug := db |}.
End SendMessageMessage.

(* ================================================================== *)
(** ** types.py: incoming messages (server to client) *)

Module ReadyMessage.
Record t : Type := {
  livekit_room_name : option string;
  livekit_url : string;
  sayna_participant_identity : option string;
  sayna_participant_name : option string
}.

Definition validate `{Pydantic} (d : pydict) : option t :=
  let? _ := literal "ready" d in
  let? rn := optional str_validate None d "livekit_room_name" in
  let? u := required str_validate d "livekit_url" in
  let? pi := optional str_validate None d "sayna_participant_identity" in
  let? pn := optional str_validate None d "sayna_participant_name" in
  Some {| livekit_room_name := rn; livekit_url := u;
          sayna_participant_identity := pi; sayna_participant_name := pn |}.
End ReadyMessage.

Module STTResultMessage.
Record t : Type := {
  transcript : string;
  is_final : bool;
  is_speech_final : bool;
  confidence : float
}.

Definition validate `{Pydantic} (d : pydict) : option t :=
  let? _ := literal "stt_result" d in
  let? tr := required str_validate d "transcript" in
  let? f := required bool_validate d "is_final" in
  let? sf := required bool_validate d "is_speech_final" in
  let? c := required float_validate d "confidence" in
  Some {| transcript := tr; is_final := f; is_speech_final := sf; confidence := c |}.
End STTResultMessage.

Module ErrorMessage.
Record t : Type := { message : string }.

Definition validate `{Pydantic} (d : pydict) : option t :=
  let? _ := literal "error" d in
  let? m := required str_validate d "message" in
  Some {| message := m |}.
End ErrorMessage.

Module SaynaMessage.
Record t : Type := {
  message : option string;
  data : option string;
  identity : string;
  topic : string;
  room : string;
  timestamp : Z
}.

Definition validate `{Pydantic} (d : pydict) : option t :=
  let? m := optional str_validate None d "message" in
  let? da := optional str_validate None d "data" in
  let? i := required str_validate d "identity" in
  let? tp := required str_validate d "topic" in
  let? r := required str_validate d "room" in
  let? ts := required int_validate d "timestamp" in
  Some {| message := m; data := da; identity := i; topic := tp; room := r;
          timestamp := ts |}.
End SaynaMessage.

Module MessageMessage.
Record t : Type := { message : SaynaMessage.t }.

Definition validate `{Pydantic} (d : pydict) : option t :=
  let? _ := literal "message" d in
  let? m := required (model_validate SaynaMessage.validate) d "message" in
  Some {| message := m |}.
End MessageMessage.

Module Participant.
Record t : Type := {
  identity : string;
  name : option string;
  room : string;
  timestamp : Z
}.

Definition validate `{Pydantic} (d : pydict) : option t :=
  let? i := required str_validate d "identity" in
  let? n := optional str_validate None d "name" in
  let? r := required str_validate d "room" in
  let? ts := required int_validate d "timestamp" in
  Some {| identity := i; name := n; room := r; timestamp := ts |}.
End Participant.

Module ParticipantDisconnectedMessage.
Record t : Type := { participant : Participant.t }.

Definition validate `{Pydantic} (d : pydict) : option t :=
  let? _ := literal "participant_disconnected" d in
  let? p := required (model_validate Participant.validate) d "participant" in
  Some {| participant := p |}.
End ParticipantDisconnectedMessage.

Module TTSPlaybackCompleteMessage.
Record t : Type := { timestamp : Z }.

Definition validate `{Pydantic} (d : pydict) : option t :=
  let? _ := literal "tts_playback_complete" d in
  let? ts := required int_validate d "timestamp" in
  Some {| timestamp := ts |}.
End TTSPlaybackCompleteMessage.

(* ================================================================== *)
(** ** Exceptions, outcomes and events *)

(** Modelled from the spec: [sayna_client/errors.py] is not among the
    sources.  Its four classes used by the client are the first four
    constructors: a validation error, a not-connected error and a not-ready
    error (distinct kinds, so that callers can tell them apart) and a
    connection error that carries the underlying cause.  The other
    constructors are the library exceptions the client's handlers
    distinguish: pydantic's [ValidationError], aiohttp's [ClientError], any
    other subclass of [Exception], asyncio's [CancelledError] and any other
    exception that derives from [BaseException] only. *)
Inductive PyExc : Type :=
| SaynaValidationError (msg : string)
| SaynaNotConnectedError
| SaynaNotReadyError
| SaynaConnectionError (msg : string) (cause : PyExc)
| PydanticValidationError
| ClientError (what : string)
| OtherException (what : string)
| CancelledError
| OtherBaseException (what : string).

(** What [except Exception] catches. *)
Definition is_Exception (e : PyExc) : bool :=
  match e with
  | CancelledError | OtherBaseException _ => false
  | _ => true
  end.

(** What [except aiohttp.ClientError] catches. *)
Definition is_ClientError (e : PyExc) : bool :=
  match e with
  | ClientError _ => true
  | _ => false
  end.

Inductive outcome (A : Type) : Type :=
| Returns (a : A)
| Raises (e : PyExc).
Arguments Returns {A} a.
Arguments Raises {A} e.

(** A host callback: how calling it (and awaiting the coroutine it may
    return) ends, seen from the client.  The calls the callback itself
    makes to the client while it runs are not part of this value: they are
    steps of the session of their own. *)
Definition callback (A : Type) : Type := A -> outcome unit.

Inductive level : Type := DEBUG | INFO | WARNING | ERROR.

(** The argument a callback is invoked with, tagged by the event kind. *)
Inductive payload : Type :=
| OnReady (m : ReadyMessage.t)
| OnSttResult (m : STTResultMessage.t)
| OnMessage (m : MessageMessage.t)
| OnError (m : ErrorMessage.t)
| OnParticipantDisconnected (m : ParticipantDisconnectedMessage.t)
| OnTtsPlaybackComplete (m : TTSPlaybackCompleteMessage.t)
| OnAudio (data : list byte).

(** The calls the client makes to its collaborators, in order; the call of
    a host callback is recorded with what the callback did. *)
Inductive event : Type :=
| Log (lvl : level) (fmt : string)
| NewSession (headers : list (string * string))
| WsConnect (url : string)
| SendJson (data : pydict)
| SendBytes (data : list byte)
| CreateTask
| CancelTask
| WsClose
| SessionClose
| HttpClose
| Call (p : payload) (r : outcome unit).

(** The receive task, as asyncio sees it: created and not yet run, running
    the loop, or finished (with the exception it ended with, if any). *)
Inductive Task : Type :=
| TaskPending
| TaskRunning
| TaskDone (exc : option PyExc).

Definition ClientWebSocketResponse : Type := nat.
Definition ClientSession : Type := list (string * string).

(* ================================================================== *)
(** ** client.py: the client object *)

Record SaynaClient : Type := {
  url : string;
  api_key : option string;
  _ws : option ClientWebSocketResponse;
  _session : option ClientSession;
  _connected : bool;
  _ready : bool;
  _receive_task : option Task;
  _livekit_room_name : option string;
  _livekit_url : option string;
  _sayna_participant_identity : option string;
  _sayna_participant_name : option string;
  _on_ready : option (callback ReadyMessage.t);
  _on_stt_result : option (callback STTResultMessage.t);
  _on_message : option (callback MessageMessage.t);
  _on_error : option (callback ErrorMessage.t);
  _on_participant_disconnected : option (callback ParticipantDisconnectedMessage.t);
  _on_tts_playback_complete : option (callback TTSPlaybackCompleteMessage.t);
  _on_audio : option (callback (list byte))
}.

(** [SaynaClient.__init__] (the REST base URL is not part of the model). *)
Definition init (u : string) (k : option string) : SaynaClient :=
  {| url := u; api_key := k;
     _ws := None; _session := None;
     _connected := false; _ready := false; _receive_task := None;
     _livekit_room_name := None; _livekit_url := None;
     _sayna_participant_identity := None; _sayna_participant_name := None;
     _on_ready := None; _on_stt_result := None; _on_message := None;
     _on_error := None; _on_participant_disconnected := None;
     _on_tts_playback_complete := None; _on_audio := None |}.

(** Attribute assignments [self.x = v]. *)
Definition set_ws (v : option ClientWebSocketResponse) (c : SaynaClient) : SaynaClient :=
  {| url := url c; api_key := api_key c; _ws := v; _session := _session c;
     _connected := _connected c; _ready := _ready c; _receive_task := _receive_task c;
     _livekit_room_name := _livekit_room_name c; _livekit_url := _livekit_url c;
     _sayna_participant_identity := _sayna_participant_identity c;
     _sayna_participant_name := _sayna_participant_name c;
     _on_ready := _on_ready c; _on_stt_result := _on_stt_result c;
     _on_message := _on_message c; _on_error := _on_error c;
     _on_participant_disconnected := _on_participant_disconnected c;
     _on_tts_playback_complete := _on_tts_playback_complete c; _on_audio := _on_audio c |}.

Definition set_session (v : option ClientSession) (c : SaynaClient) : SaynaClient :=
  {| url := url c; api_key := api_key c; _ws := _ws c; _session := v;
     _connected := _connected c; _ready := _ready c; _receive_task := _receive_task c;
     _livekit_room_name := _livekit_room_name c; _livekit_url := _livekit_url c;
     _sayna_participant_identity := _sayna_participant_identity c;
     _sayna_participant_name := _sayna_participant_name c;
     _on_ready := _on_ready c; _on_stt_result := _on_stt_result c;
     _on_message := _on_message c; _on_error := _on_error c;
     _on_participant_disconnected := _on_participant_disconnected c;
     _on_tts_playback_complete := _on_tts_playback_complete c; _on_audio := _on_audio c |}.

Definition set_connected (v : bool) (c : SaynaClient) : SaynaClient :=
  {| url := url c; api_key := api_key c; _ws := _ws c; _session := _session c;
     _connected := v; _ready := _ready c; _receive_task := _receive_task c;
     _livekit_room_name := _livekit_room_name c; _livekit_url := _livekit_url c;
     _sayna_participant_identity := _sayna_participant_identity c;
     _sayna_participant_name := _sayna_participant_name c;
     _on_ready := _on_ready c; _on_stt_result := _on_stt_result c;
     _on_message := _on_message c; _on_error := _on_error c;
     _on_participant_disconnected := _on_participant_disconnected c;
     _on_tts_playback_complete := _on_tts_playback_complete c; _on_audio := _on_audio c |}.

Definition set_ready (v : bool) (c : SaynaClient) : SaynaClient :=
  {| url := url c; api_key := api_key c; _ws := _ws c; _session := _session c;
     _connected := _connected c; _ready := v; _receive_task := _receive_task c;
     _livekit_room_name := _livekit_room_name c; _livekit_url := _livekit_url c;
     _sayna_participant_identity := _sayna_participant_identity c;
     _sayna_participant_name := _sayna_participant_name c;
     _on_ready := _on_ready c; _on_stt_result := _on_stt_result c;
     _on_message := _on_message c; _on_error := _on_error c;
     _on_participant_disconnected := _on_participant_disconnected c;
     _on_tts_playback_complete := _on_tts_playback_complete c; _on_audio := _on_audio c |}.

Definition set_receive_task (v : option Task) (c : SaynaClient) : SaynaClient :=
  {| url := url c; api_key := api_key c; _ws := _ws c; _session := _session c;
     _connected := _connected c; _ready := _ready c; _receive_task := v;
     _livekit_room_name := _livekit_room_name c; _livekit_url := _livekit_url c;
     _sayna_participant_identity := _sayna_participant_identity c;
     _sayna_participant_name := _sayna_participant_name c;
     _on_ready := _on_ready c; _on_stt_result := _on_stt_result c;
     _on_message := _on_message c; _on_error := _on_error c;
     _on_participant_disconnected := _on_participant_disconnected c;
     _on_tts_playback_complete := _on_tts_playback_complete c; _on_audio := _on_audio c |}.

Definition set_livekit_room_name (v : option string) (c : SaynaClient) : SaynaClient :=
  {| url := url c; api_key := api_key c; _ws := _ws c; _session := _session c;
     _connected := _connected c; _ready := _ready c; _receive_task := _receive_task c;
     _livekit_room_name := v; _livekit_url := _livekit_url c;
     _sayna_participant_identity := _sayna_participant_identity c;
     _sayna_participant_name := _sayna_participant_name c;
     _on_ready := _on_ready c; _on_stt_result := _on_stt_result c;
     _on_message := _on_message c; _on_error := _on_error c;
     _on_participant_disconnected := _on_participant_disconnected c;
     _on_tts_playback_complete := _on_tts_playback_complete c; _on_audio := _on_audio c |}.

Definition set_livekit_url (v : option string) (c : SaynaClient) : SaynaClient :=
  {| url := url c; api_key := api_key c; _ws := _ws c; _session := _session c;
     _connected := _connected c; _ready := _ready c; _receive_task := _receive_task c;
     _livekit_room_name := _livekit_room_name c; _livekit_url := v;
     _sayna_participant_identity := _sayna_participant_identity c;
     _sayna_participant_name := _sayna_participant_name c;
     _on_ready := _on_ready c; _on_stt_result := _on_stt_result c;
     _on_message := _on_message c; _on_error := _on_error c;
     _on_participant_disconnected := _on_participant_disconnected c;
     _on_tts_playback_complete := _on_tts_playback_complete c; _on_audio := _on_audio c |}.

Definition set_sayna_participant_identity (v : option string) (c : SaynaClient) : SaynaClient :=
  {| url := url c; api_key := api_key c; _ws := _ws c; _session := _session c;
     _connected := _connected c; _ready := _ready c; _receive_task := _receive_task c;
     _livekit_room_name := _livekit_room_name c; _livekit_url := _livekit_url c;
     _sayna_participant_identity := v;
     _sayna_participant_name := _sayna_participant_name c;
     _on_ready := _on_ready c; _on_stt_result := _on_stt_result c;
     _on_message := _on_message c; _on_error := _on_error c;
     _on_participant_disconnected := _on_participant_disconnected c;
     _on_tts_playback_complete := _on_tts_playback_complete c; _on_audio := _on_audio c |}.

Definition set_sayna_participant_name (v : option string) (c : SaynaClient) : SaynaClient :=
  {| url := url c; api_key := api_key c; _ws := _ws c; _session := _session c;
     _connected := _connected c; _ready := _ready c; _receive_task := _receive_task c;
     _livekit_room_name := _livekit_room_name c; _livekit_url := _livekit_url c;
     _sayna_participant_identity := _sayna_participant_identity c;
     _sayna_participant_name := v;
     _on_ready := _on_ready c; _on_stt_result := _on_stt_result c;
     _on_message := _on_message c; _on_error := _on_error c;
     _on_participant_disconnected := _on_participant_disconnected c;
     _on_tts_playback_complete := _on_tts_playback_complete c; _on_audio := _on_audio c |}.

Definition set_on_ready (v : option (callback ReadyMessage.t)) (c : SaynaClient) : SaynaClient :=
  {| url := url c; api_key := api_key c; _ws := _ws c; _session := _session c;
     _connected := _connected c; _ready := _ready c; _receive_task := _receive_task c;
     _livekit_room_name := _livekit_room_name c; _livekit_url := _livekit_url c;
     _sayna_participant_identity := _sayna_participant_identity c;
     _sayna_participant_name := _sayna_participant_name c; _on_ready := v;
     _on_stt_result := _on_stt_result c; _on_message := _on_message c;
     _on_error := _on_error c;
     _on_participant_disconnected := _on_participant_disconnected c;
     _on_tts_playback_complete := _on_tts_playback_complete c; _on_audio := _on_audio c |}.

Definition set_on_stt_result (v : option (callback STTResultMessage.t)) (c : SaynaClient) : SaynaClient :=
  {| url := url c; api_key := api_key c; _ws := _ws c; _session := _session c;
     _connected := _connected c; _ready := _ready c; _receive_task := _receive_task c;
     _livekit_room_name := _livekit_room_name c; _livekit_url := _livekit_url c;
     _sayna_participant_identity := _sayna_participant_identity c;
     _sayna_participant_name := _sayna_participant_name c; _on_ready := _on_ready c;
     _on_stt_result := v; _on_message := _on_message c; _on_error := _on_error c;
     _on_participant_disconnected := _on_participant_disconnected c;
     _on_tts_playback_complete := _on_tts_playback_complete c; _on_audio := _on_audio c |}.

Definition set_on_message (v : option (callback MessageMessage.t)) (c : SaynaClient) : SaynaClient :=
  {| url := url c; api_key := api_key c; _ws := _ws c; _session := _session c;
     _connected := _connected c; _ready := _ready c; _receive_task := _receive_task c;
     _livekit_room_name := _livekit_room_name c; _livekit_url := _livekit_url c;
     _sayna_participant_identity := _sayna_participant_identity c;
     _sayna_participant_name := _sayna_participant_name c; _on_ready := _on_ready c;
     _on_stt_result := _on_stt_result c; _on_message := v; _on_error := _on_error c;
     _on_participant_disconnected := _on_participant_disconnected c;
     _on_tts_playback_complete := _on_tts_playback_complete c; _on_audio := _on_audio c |}.

Definition set_on_error (v : option (callback ErrorMessage.t)) (c : SaynaClient) : SaynaClient :=
  {| url := url c; api_key := api_key c; _ws := _ws c; _session := _session c;
     _connected := _connected c; _ready := _ready c; _receive_task := _receive_task c;
     _livekit_room_name := _livekit_room_name c; _livekit_url := _livekit_url c;
     _sayna_participant_identity := _sayna_participant_identity c;
     _sayna_participant_name := _sayna_participant_name c; _on_ready := _on_ready c;
     _on_stt_result := _on_stt_result c; _on_message := _on_message c; _on_error := v;
     _on_participant_disconnected := _on_participant_disconnected c;
     _on_tts_playback_complete := _on_tts_playback_complete c; _on_audio := _on_audio c |}.

Definition set_on_participant_disconnected (v : option (callback ParticipantDisconnectedMessage.t)) (c : SaynaClient) : SaynaClient :=
  {| url := url c; api_key := api_key c; _ws := _ws c; _session := _session c;
     _connected := _connected c; _ready := _ready c; _receive_task := _receive_task c;
     _livekit_room_name := _livekit_room_name c; _livekit_url := _livekit_url c;
     _sayna_participant_identity := _sayna_participant_identity c;
     _sayna_participant_name := _sayna_participant_name c; _on_ready := _on_ready c;
     _on_stt_result := _on_stt_result c; _on_message := _on_message c;
     _on_error := _on_error c; _on_participant_disconnected := v;
     _on_tts_playback_complete := _on_tts_playback_complete c; _on_audio := _on_audio c |}.

Definition set_on_tts_playback_complete (v : option (callback TTSPlaybackCompleteMessage.t)) (c : SaynaClient) : SaynaClient :=
  {| url := url c; api_key := api_key c; _ws := _ws c; _session := _session c;
     _connected := _connected c; _ready := _ready c; _receive_task := _receive_task c;
     _livekit_room_name := _livekit_room_name c; _livekit_url := _livekit_url c;
     _sayna_participant_identity := _sayna_participant_identity c;
     _sayna_participant_name := _sayna_participant_name c; _on_ready := _on_ready c;
     _on_stt_result := _on_stt_result c; _on_message := _on_message c;
     _on_error := _on_error c;
     _on_participant_disconnected := _on_participant_disconnected c;
     _on_tts_playback_complete := v; _on_audio := _on_audio c |}.

Definition set_on_audio (v : option (callback (list byte))) (c : SaynaClient) : SaynaClient :=
  {| url := url c; api_key := api_key c; _ws := _ws c; _session := _session c;
     _connected := _connected c; _ready := _ready c; _receive_task := _receive_task c;
     _livekit_room_name := _livekit_room_name c; _livekit_url := _livekit_url c;
     _sayna_participant_identity := _sayna_participant_identity c;
     _sayna_participant_name := _sayna_participant_name c; _on_ready := _on_ready c;
     _on_stt_result := _on_stt_result c; _on_message := _on_message c;
     _on_error := _on_error c;
     _on_participant_disconnected := _on_participant_disconnected c;
     _on_tts_playback_complete := _on_tts_playback_complete c; _on_audio := v |}.

(* ================================================================== *)
(** ** Methods as state transformers

    A method body is a function from the client object to the outcome of
    the call, the client object afterwards and the calls made on the
    way. *)

Definition M (A : Type) : Type := SaynaClient -> outcome A * SaynaClient * list event.

Definition ret {A : Type} (a : A) : M A := fun c => (Returns a, c, []).

Definition bind {A B : Type} (m : M A) (k : A -> M B) : M B :=
  fun c =>
    match m c with
    | (Returns a, c1, ev1) =>
        match k a c1 with
        | (r, c2, ev2) => (r, c2, ev1 ++ ev2)
        end
    | (Raises e, c1, ev1) => (Raises e, c1, ev1)
    end.

Declare Scope py_scope.
Delimit Scope py_scope with py.
Notation "x <- m ;; k" := (bind m (fun x => k))
  (at level 61, m at next level, right associativity) : py_scope.
Notation "m ;; k" := (bind m (fun _ => k))
  (at level 61, right associativity) : py_scope.
Open Scope py_scope.

(** [raise e] *)
Definition raise {A : Type} (e : PyExc) : M A := fun c => (Raises e, c, []).

(** The object [self]. *)
Definition self : M SaynaClient := fun c => (Returns c, c, []).

(** An attribute assignment. *)
Definition assign (f : SaynaClient -> SaynaClient) : M unit := fun c => (Returns tt, f c, []).

(** A call that cannot fail (logging, object creation). *)
Definition emit (ev : event) : M unit := fun c => (Returns tt, c, [ev]).

(** A call to a collaborator: the call is made, and it returns or raises
    as the collaborator decides. *)
Definition external {A : Type} (ev : event) (o : outcome A) : M A := fun c => (o, c, [ev]).

(** [try: m  except ...: h]: the handler [h e] is [None] when no [except]
    clause matches [e]. *)
Definition try_except {A : Type} (m : M A) (h : PyExc -> option (M A)) : M A :=
  fun c =>
    match m c with
    | (Raises e, c1, ev1) =>
        match h e with
        | Some k =>
            match k c1 with
            | (r, c2, ev2) => (r, c2, ev1 ++ ev2)
            end
        | None => (Raises e, c1, ev1)
        end
    | r => r
    end.

(** [try: m  finally: f]: [f] runs however [m] ends; an exception of [f]
    replaces the outcome of [m]. *)
Definition try_finally {A : Type} (m : M A) (f : M unit) : M A :=
  fun c =>
    match m c with
    | (r, c1, ev1) =>
        match f c1 with
        | (Returns _, c2, ev2) => (r, c2, ev1 ++ ev2)
        | (Raises e, c2, ev2) => (Raises e, c2, ev1 ++ ev2)
        end
    end.

(** [except Exception] *)
Definition except_Exception {A : Type} (k : PyExc -> M A) (e : PyExc) : option (M A) :=
  if is_Exception e then Some (k e) else None.

(** [contextlib.suppress(asyncio.CancelledError)] *)
Definition suppress_CancelledError (m : M unit) : M unit :=
  try_except m (fun e => match e with CancelledError => Some (ret tt) | _ => None end).

(* ================================================================== *)
(** ** client.py: internal methods *)

Definition _check_connected : M unit :=
  c <- self ;;
  if negb (_connected c) then raise SaynaNotConnectedError else ret tt.

Definition _check_ready : M unit :=
  _check_connected ;;
  c <- self ;;
  if negb (_ready c) then raise SaynaNotReadyError else ret tt.

(** [sent] is what [ws.send_json] does with the frame. *)
Definition _send_json (data : pydict) (sent : outcome unit) : M unit :=
  _check_connected ;;
  c <- self ;;
  match _ws c with
  | Some _ => external (SendJson data) sent ;; emit (Log DEBUG "Sent: %s")
  | None => ret tt
  end.

(** The pattern shared by the seven handlers: if a callback is registered,
    call it (awaiting a coroutine result) and log an [Exception] it
    raises.  This is what the handler itself does to the client; the calls
    the callback makes to the client while it runs are steps of the
    session ([step]). *)
Definition invoke {A : Type} (cb : option (callback A)) (wrap : A -> payload) (a : A)
    (errfmt : string) : M unit :=
  match cb with
  | Some f =>
      try_except (external (Call (wrap a) (f a)) (f a))
        (except_Exception (fun _ => emit (Log ERROR errfmt)))
  | None => ret tt
  end.

Definition _handle_binary_message (data : list byte) : M unit :=
  emit (Log DEBUG "Received audio data: %d bytes") ;;
  c <- self ;;
  invoke (_on_audio c) OnAudio data "Error in audio callback: %s".

Definition _handle_ready (message : ReadyMessage.t) : M unit :=
  assign (set_ready true) ;;
  assign (set_livekit_room_name (ReadyMessage.livekit_room_name message)) ;;
  assign (set_livekit_url (Some (ReadyMessage.livekit_url message))) ;;
  assign (set_sayna_participant_identity (ReadyMessage.sayna_participant_identity message)) ;;
  assign (set_sayna_participant_name (ReadyMessage.sayna_participant_name message)) ;;
  emit (Log INFO "Ready - LiveKit room: %s") ;;
  c <- self ;;
  invoke (_on_ready c) OnReady message "Error in ready callback: %s".

Definition _handle_stt_result (message : STTResultMessage.t) : M unit :=
  c <- self ;;
  invoke (_on_stt_result c) OnSttResult message "Error in STT result callback: %s".

Definition _handle_message (message : MessageMessage.t) : M unit :=
  c <- self ;;
  invoke (_on_message c) OnMessage message "Error in message callback: %s".

Definition _handle_error (message : ErrorMessage.t) : M unit :=
  emit (Log ERROR "Server error: %s") ;;
  c <- self ;;
  invoke (_on_error c) OnError message "Error in error callback: %s".

Definition _handle_participant_disconnected (message : ParticipantDisconnectedMessage.t)
  : M unit :=
  emit (Log INFO "Participant disconnected: %s") ;;
  c <- self ;;
  invoke (_on_participant_disconnected c) OnParticipantDisconnected message
    "Error in participant disconnected callback: %s".

Definition _handle_tts_playback_complete (message : TTSPlaybackCompleteMessage.t) : M unit :=
  emit (Log DEBUG "TTS playback complete at timestamp: %d") ;;
  c <- self ;;
  invoke (_on_tts_playback_complete c) OnTtsPlaybackComplete message
    "Error in TTS playback complete callback: %s".

(** [Model(...)] : pydantic raises its [ValidationError] when the input
    does not validate. *)
Definition construct {A : Type} (o : option A) : M A :=
  match o with
  | Some a => ret a
  | None => raise PydanticValidationError
  end.

Section Dispatch.
Context `{Pydantic} `{JsonLib}.

Definition _handle_text_message (data : string) : M unit :=
  try_except
    (match json_loads data with
     | None => raise (OtherException "JSONDecodeError")
     | Some (JDict parsed) =>
         let msg_type := dict_get parsed "type" in
         emit (Log DEBUG "Received: %s") ;;
         if py_eq_str msg_type "ready" then
           m <- construct (ReadyMessage.validate parsed) ;; _handle_ready m
         else if py_eq_str msg_type "stt_result" then
           m <- construct (STTResultMessage.validate parsed) ;; _handle_stt_result m
         else if py_eq_str msg_type "message" then
           m <- construct (MessageMessage.validate parsed) ;; _handle_message m
         else if py_eq_str msg_type "error" then
           m <- construct (ErrorMessage.validate parsed) ;; _handle_error m
         else if py_eq_str msg_type "participant_disconnected" then
           m <- construct (ParticipantDisconnectedMessage.validate parsed) ;;
           _handle_participant_disconnected m
         else if py_eq_str msg_type "tts_playback_complete" then
           m <- construct (TTSPlaybackCompleteMessage.validate parsed) ;;
           _handle_tts_playback_complete m
         else emit (Log WARNING "Unknown message type: %s")
     | Some _ =>
         (* [parsed.get] on a value that is not a dict *)
         raise (OtherException "AttributeError")
     end)
    (fun e =>
       match e with
       | PydanticValidationError => Some (emit (Log ERROR "Failed to parse message: %s"))
       | _ => except_Exception (fun _ => emit (Log ERROR "Error handling message: %s")) e
       end).
End Dispatch.

(* ================================================================== *)
(** ** client.py: the receive loop *)

(** A message of the socket, by its [aiohttp.WSMsgType]; [OTHER] is any
    type the loop has no branch for (ping, pong, ...). *)
Inductive WSMsg : Type :=
| TEXT (data : string)
| BINARY (data : list byte)
| WS_ERROR
| CLOSED
| OTHER.

(** What one step of [async for msg in self._ws] yields: a message, or an
    exception raised while waiting for one. *)
Inductive stream_item : Type :=
| Msg (m : WSMsg)
| ReceiveRaises (e : PyExc).

Inductive flow : Type := Next | Break.

(** The [except] and [finally] clauses of [_receive_loop] around its
    [try] body. *)
Definition receive_guard (body : M unit) : M unit :=
  try_finally
    (try_except body
       (fun e =>
          match e with
          | CancelledError => Some (emit (Log DEBUG "Receive loop cancelled"))
          | _ => except_Exception (fun _ => emit (Log ERROR "Error in receive loop: %s")) e
          end))
    (assign (set_connected false) ;; assign (set_ready false)).

Section ReceiveLoop.
Context `{Pydantic} `{JsonLib}.

(** The body of the [async for]. *)
Definition loop_body (msg : WSMsg) : M flow :=
  match msg with
  | TEXT data => _handle_text_message data ;; ret Next
  | BINARY data => _handle_binary_message data ;; ret Next
  | WS_ERROR => emit (Log ERROR "WebSocket error: %s") ;; ret Break
  | CLOSED => emit (Log INFO "WebSocket closed") ;; ret Break
  | OTHER => ret Next
  end.

(** [async for msg in self._ws: ...] over what the socket yields; the end
    of the list is the end of the iteration. *)
Fixpoint async_for (s : list stream_item) : M unit :=
  match s with
  | [] => ret tt
  | Msg m :: rest =>
      f <- loop_body m ;;
      match f with
      | Next => async_for rest
      | Break => ret tt
      end
  | ReceiveRaises e :: _ => raise e
  end.

Definition _receive_loop (s : list stream_item) : M unit :=
  receive_guard
    (c <- self ;;
     match _ws c with
     | None => ret tt
     | Some _ => async_for s
     end).
End ReceiveLoop.

(* ================================================================== *)
(** ** client.py: connection management *)

(** What the transport does during [connect]. *)
Record ConnectEnv : Type := {
  ws_connect_result : outcome ClientWebSocketResponse;
  config_sent : outcome unit
}.

Definition is_none {A : Type} (o : option A) : bool :=
  match o with
  | None => true
  | Some _ => false
  end.

(** [if self.api_key: headers[...] = ...] *)
Definition auth_headers (k : option string) : list (string * string) :=
  match k with
  | None => []
  | Some EmptyString => []
  | Some key => [("Authorization", ("Bearer " ++ key)%string)]
  end.

Definition connect (stt_config : option STTConfig.t) (tts_config : option TTSConfig.t)
    (livekit_config : option LiveKitConfig.t) (audio : bool) (env : ConnectEnv) : M unit :=
  c <- self ;;
  if _connected c then emit (Log WARNING "Already connected to Sayna WebSocket")
  else if audio && (is_none stt_config || is_none tts_config) then
    raise (SaynaValidationError "stt_config and tts_config are required when audio=True")
  else
    try_except
      (let headers := auth_headers (api_key c) in
       emit (NewSession headers) ;;
       assign (set_session (Some headers)) ;;
       ws <- external (WsConnect (url c)) (ws_connect_result env) ;;
       assign (set_ws (Some ws)) ;;
       assign (set_connected true) ;;
       emit (Log INFO "Connected to Sayna WebSocket: %s") ;;
       let config :=
         {| ConfigMessage.audio := Some audio;
            ConfigMessage.stt_config := stt_config;
            ConfigMessage.tts_config := tts_config;
            ConfigMessage.livekit := livekit_config |} in
       _send_json (ConfigMessage.model_dump_exclude_none config) (config_sent env) ;;
       emit CreateTask ;;
       assign (set_receive_task (Some TaskPending)))
      (fun e =>
         if is_ClientError e then
           Some (assign (set_connected false) ;;
                 raise (SaynaConnectionError "Failed to connect to WebSocket: " e))
         else
           except_Exception
             (fun e =>
                assign (set_connected false) ;;
                raise (SaynaConnectionError "Unexpected error during connection: " e)) e).

(** What the collaborators do during [disconnect]: the [closed] flags of
    the socket and of the session when they are read, and the outcomes of
    the three [close] calls. *)
Record DisconnectEnv : Type := {
  ws_closed : bool;
  ws_close_result : outcome unit;
  session_closed : bool;
  session_close_result : outcome unit;
  http_close_result : outcome unit
}.

(** The task in which [disconnect] is awaited: the receive task itself,
    when a callback awaits it while a frame is handled (server.py,
    [on_participant_disconnected]), or any other task (the host's). *)
Inductive caller : Type := OtherTask | ReceiveTask.

(** [task.cancel()] followed by [await task] in another task than the
    receive task, by the state of the receive task: a task that never ran
    is cancelled without entering the coroutine; a running loop receives
    [CancelledError] at its suspension point and goes through its own
    [except] and [finally]; a finished task gives back how it ended. *)
Definition cancel_and_await (t : Task) : M unit :=
  emit CancelTask ;;
  match t with
  | TaskPending => raise CancelledError
  | TaskRunning => receive_guard (raise CancelledError)
  | TaskDone None => ret tt
  | TaskDone (Some e) => raise e
  end.

(** The same two statements by the caller.  In the receive task itself
    [cancel()] only requests the cancellation of the running task, and the
    task that then awaits itself gets that [CancelledError] at the
    [await]: the loop is not left and its [finally] does not run. *)
Definition cancel_and_await_by (who : caller) (t : Task) : M unit :=
  match who with
  | OtherTask => cancel_and_await t
  | ReceiveTask => emit CancelTask ;; raise CancelledError
  end.

(** [disconnect], awaited by [who]. *)
Definition disconnect_by (who : caller) (env : DisconnectEnv) : M unit :=
  c <- self ;;
  if negb (_connected c) then emit (Log WARNING "Not connected to Sayna WebSocket")
  else
    try_finally
      (try_except
         (match _receive_task c with
          | Some t =>
              suppress_CancelledError (cancel_and_await_by who t) ;;
              assign (set_receive_task None)
          | None => ret tt
          end ;;
          c <- self ;;
          match _ws c with
          | Some _ =>
              if negb (ws_closed env) then external WsClose (ws_close_result env) else ret tt
          | None => ret tt
          end ;;
          assign (set_ws None) ;;
          c <- self ;;
          match _session c with
          | Some _ =>
              if negb (session_closed env)
              then external SessionClose (session_close_result env) else ret tt
          | None => ret tt
          end ;;
          assign (set_session None) ;;
          assign (set_connected false) ;;
          assign (set_ready false) ;;
          emit (Log INFO "Disconnected from Sayna WebSocket"))
         (except_Exception
            (fun e =>
               emit (Log ERROR "Error during disconnect: %s") ;;
               raise (SaynaConnectionError "Error during disconnect: " e))))
      (external HttpClose (http_close_result env)).

(** [disconnect] awaited by the host, or by any task but the receive task
    the client refers to. *)
Definition disconnect (env : DisconnectEnv) : M unit := disconnect_by OtherTask env.

(* ================================================================== *)
(** ** client.py: sending methods and event registration *)

Definition send_speak (text : string) (flush allow_interruption : bool) (sent : outcome unit)
  : M unit :=
  _check_ready ;;
  let message :=
    {| SpeakMessage.text := text;
       SpeakMessage.flush := Some flush;
       SpeakMessage.allow_interruption := Some allow_interruption |} in
  _send_json (SpeakMessage.model_dump_exclude_none message) sent.

Definition send_clear (sent : outcome unit) : M unit :=
  _check_ready ;;
  let message := ClearMessage.Build_t in
  _send_json (ClearMessage.model_dump_exclude_none message) sent.

Definition send_message (message role : string) (topic : string) (debug : option pydict)
    (sent : outcome unit) : M unit :=
  _check_ready ;;
  let msg :=
    {| SendMessageMessage.message := message;
       SendMessageMessage.role := role;
       SendMessageMessage.topic := Some topic;
       SendMessageMessage.debug := debug |} in
  _send_json (SendMessageMessage.model_dump_exclude_none msg) sent.

Definition send_audio (audio_data : list byte) (sent : outcome unit) : M unit :=
  _check_ready ;;
  c <- self ;;
  match _ws c with
  | Some _ => external (SendBytes audio_data) sent
  | None => ret tt
  end.

(** A call of one of the four sending methods, with what the socket does
    with the frame. *)
Inductive send_call : Type :=
| SendSpeak (text : string) (flush allow_interruption : bool)
| SendClear
| SendMessage (message role topic : string) (debug : option pydict)
| SendAudio (audio_data : list byte).

Definition send (s : send_call) (sent : outcome unit) : M unit :=
  match s with
  | SendSpeak t f a => send_speak t f a sent
  | SendClear => send_clear sent
  | SendMessage m r t d => send_message m r t d sent
  | SendAudio d => send_audio d sent
  end.

Definition register_on_ready (cb : callback ReadyMessage.t) : M unit :=
  assign (set_on_ready (Some cb)).
Definition register_on_stt_result (cb : callback STTResultMessage.t) : M unit :=
  assign (set_on_stt_result (Some cb)).
Definition register_on_message (cb : callback MessageMessage.t) : M unit :=
  assign (set_on_message (Some cb)).
Definition register_on_error (cb : callback ErrorMessage.t) : M unit :=
  assign (set_on_error (Some cb)).
Definition register_on_participant_disconnected
    (cb : callback ParticipantDisconnectedMessage.t) : M unit :=
  assign (set_on_participant_disconnected (Some cb)).
Definition register_on_tts_playback_complete (cb : callback TTSPlaybackCompleteMessage.t)
  : M unit :=
  assign (set_on_tts_playback_complete (Some cb)).
Definition register_on_audio (cb : callback (list byte)) : M unit :=
  assign (set_on_audio (Some cb)).

(* ================================================================== *)
(** ** The session as a transition system

    The host and the event loop drive the client one operation at a time:
    a public method, or one step of the receive task.  The receive task
    runs only between its creation by [connect] and its end; a callback's
    own calls into the client are operations of their own.  The operation
    [Disconnect] is the call awaited by another task than the receive
    task; a [disconnect] awaited by a callback of the receive task is a
    step of the session with callbacks that call the client, below. *)

Definition result_of {A : Type} (x : outcome A * SaynaClient * list event) : outcome A :=
  fst (fst x).
Definition client_of {A : Type} (x : outcome A * SaynaClient * list event) : SaynaClient :=
  snd (fst x).
Definition events_of {A : Type} (x : outcome A * SaynaClient * list event) : list event :=
  snd x.

(** The exception a run ended with, if any. *)
Definition how_ended {A : Type} (r : outcome A) : option PyExc :=
  match r with
  | Returns _ => None
  | Raises e => Some e
  end.

(** The task ends: its state records how. *)
Definition finish (m : M unit) : M unit :=
  fun c =>
    match m c with
    | (Returns _, c1, ev) => (Returns tt, set_receive_task (Some (TaskDone None)) c1, ev)
    | (Raises e, c1, ev) => (Returns tt, set_receive_task (Some (TaskDone (Some e))) c1, ev)
    end.

Section Session.
Context `{Pydantic} `{JsonLib}.

(** The task runs for the first time, up to its first wait for a
    message. *)
Definition task_start : M unit :=
  c <- self ;;
  match _ws c with
  | None => finish (receive_guard (ret tt))
  | Some _ => assign (set_receive_task (Some TaskRunning))
  end.

(** The task is given the next item of the socket. *)
Definition task_receive (i : stream_item) : M unit :=
  match i with
  | Msg m =>
      try_except
        (f <- loop_body m ;;
         match f with
         | Next => ret tt
         | Break => finish (receive_guard (ret tt))
         end)
        (fun e => Some (finish (receive_guard (raise e))))
  | ReceiveRaises e => finish (receive_guard (raise e))
  end.

(** The socket has nothing more to yield. *)
Definition task_stream_end : M unit := finish (receive_guard (ret tt)).

(** The task driven to its end by the event loop: one step per item of
    the socket as long as the task is in its loop, then the end of the
    stream. *)
Fixpoint task_feed (s : list stream_item) : M unit :=
  match s with
  | [] => task_stream_end
  | i :: rest =>
      task_receive i ;;
      c <- self ;;
      match _receive_task c with
      | Some TaskRunning => task_feed rest
      | _ => ret tt
      end
  end.

Definition task_run (s : list stream_item) : M unit :=
  task_start ;;
  c <- self ;;
  match _receive_task c with
  | Some TaskRunning => task_feed s
  | _ => ret tt
  end.

Inductive op : Type :=
| Connect (stt_config : option STTConfig.t) (tts_config : option TTSConfig.t)
    (livekit_config : option LiveKitConfig.t) (audio : bool) (env : ConnectEnv)
| Disconnect (env : DisconnectEnv)
| Send (s : send_call) (sent : outcome unit)
| RegisterOnReady (cb : callback ReadyMessage.t)
| RegisterOnSttResult (cb : callback STTResultMessage.t)
| RegisterOnMessage (cb : callback MessageMessage.t)
| RegisterOnError (cb : callback ErrorMessage.t)
| RegisterOnParticipantDisconnected (cb : callback ParticipantDisconnectedMessage.t)
| RegisterOnTtsPlaybackComplete (cb : callback TTSPlaybackCompleteMessage.t)
| RegisterOnAudio (cb : callback (list byte))
| TaskStart
| TaskReceive (i : stream_item)
| TaskStreamEnd.

Definition run (o : op) : M unit :=
  match o with
  | Connect s t l a env => connect s t l a env
  | Disconnect env => disconnect env
  | Send s sent => send s sent
  | RegisterOnReady cb => register_on_ready cb
  | RegisterOnSttResult cb => register_on_stt_result cb
  | RegisterOnMessage cb => register_on_message cb
  | RegisterOnError cb => register_on_error cb
  | RegisterOnParticipantDisconnected cb => register_on_participant_disconnected cb
  | RegisterOnTtsPlaybackComplete cb => register_on_tts_playback_complete cb
  | RegisterOnAudio cb => register_on_audio cb
  | TaskStart => task_start
  | TaskReceive i => task_receive i
  | TaskStreamEnd => task_stream_end
  end.

(** A step of the task needs the task in the matching state. *)
Definition enabled (o : op) (c : SaynaClient) : bool :=
  match o, _receive_task c with
  | TaskStart, Some TaskPending => true
  | TaskStart, _ => false
  | (TaskReceive _ | TaskStreamEnd), Some TaskRunning => true
  | (TaskReceive _ | TaskStreamEnd), _ => false
  | _, _ => true
  end.

(** The states of a client on which no callback awaits [disconnect]. *)
Inductive reachable : SaynaClient -> Prop :=
| reachable_init (u : string) (k : option string) : reachable (init u k)
| reachable_step (o : op) (c : SaynaClient) :
    reachable c -> enabled o c = true -> reachable (client_of (run o c)).

(** The client after a list of operations, each enabled when its turn
    comes. *)
Fixpoint run_all (os : list op) (c : SaynaClient) : option SaynaClient :=
  match os with
  | [] => Some c
  | o :: rest => if enabled o c then run_all rest (client_of (run o c)) else None
  end.
End Session.

(** The four attributes filled in by the ready message. *)
Definition session_fields (c : SaynaClient)
  : option string * option string * option string * option string :=
  (_livekit_room_name c, _livekit_url c,
   _sayna_participant_identity c, _sayna_participant_name c).

(** The frames written to the socket among the calls made. *)
Fixpoint outbound (evs : list event) : list event :=
  match evs with
  | [] => []
  | SendJson d :: rest => SendJson d :: outbound rest
  | SendBytes b :: rest => SendBytes b :: outbound rest
  | _ :: rest => outbound rest
  end.

(** The callback invocations among the calls made. *)
Fixpoint calls (evs : list event) : list payload :=
  match evs with
  | [] => []
  | Call p _ :: rest => p :: calls rest
  | _ :: rest => calls rest
  end.

(** [evs] in front of the calls of a run. *)
Definition prepend {A : Type} (evs : list event) (x : outcome A * SaynaClient * list event)
  : outcome A * SaynaClient * list event :=
  match x with
  | (r, c, evs') => (r, c, evs ++ evs')
  end.

(* ================================================================== *)
(** ** Scenario data *)

(** The ready frame of the scenario, as [json.loads] returns it. *)
Definition ready_room_1 : pydict :=
  [("type", JStr "ready"); ("livekit_room_name", JStr "room-1");
   ("livekit_url", JStr "wss://x")].

(** The frame [send_speak("hi")] writes. *)
Definition speak_hi : pydict :=
  [("type", JStr "speak"); ("text", JStr "hi"); ("flush", JBool true);
   ("allow_interruption", JBool true)].

(** The configurations of the example server. *)
Definition STT_CONFIG : STTConfig.t :=
  {| STTConfig.provider := "deepgram"; STTConfig.language := "en-US";
     STTConfig.sample_rate := 16000; STTConfig.channels := 1;
     STTConfig.punctuation := true; STTConfig.encoding := "linear16";
     STTConfig.model := "nova-3" |}.

Definition TTS_CONFIG : TTSConfig.t :=
  {| TTSConfig.provider := "elevenlabs"; TTSConfig.voice_id := "21m00Tcm4TlvDq8ikWAM";
     TTSConfig.speaking_rate := 1%float; TTSConfig.audio_format := "linear16";
     TTSConfig.sample_rate := 16000; TTSConfig.connection_timeout := 30;
     TTSConfig.request_timeout := 60; TTSConfig.model := "eleven_turbo_v2_5";
     TTSConfig.pronunciations := [] |}.

(** A transport on which every call succeeds. *)
Definition connect_ok : ConnectEnv :=
  {| ws_connect_result := Returns 1%nat; config_sent := Returns tt |}.

Definition disconnect_ok : DisconnectEnv :=
  {| ws_closed := false; ws_close_result := Returns tt;
     session_closed := false; session_close_result := Returns tt;
     http_close_result := Returns tt |}.

(** Frame texts, standing for the JSON text of the value they are mapped
    to, and the [json.loads] that reads them. *)
Definition frames_table : list (string * json) :=
  [("ready room-1", JDict ready_room_1);
   ("ready room-2",
    JDict [("type", JStr "ready"); ("livekit_room_name", JStr "room-2");
           ("livekit_url", JStr "wss://y")]);
   ("ready without url", JDict [("type", JStr "ready")]);
   ("unknown kind", JDict [("type", JStr "unknown_kind")]);
   ("error frame", JDict [("type", JStr "error"); ("message", JStr "boom")]);
   ("a list", JList [])].

Definition frames_json : JsonLib := table_json frames_table.

(* ================================================================== *)
(** ** Reading an encoding back *)

(** A field that was set reads back with the value it was set to. *)
Definition kept {A : Type} (o o' : option A) : Prop :=
  forall v, o = Some v -> o' = Some v.

(** A field left unset has no key in the encoding. *)
Definition unset_absent {A : Type} (o : option A) (k : string) (d : pydict) : Prop :=
  o = None -> dict_get d k = None.

Definition LiveKitConfig_kept (a b : LiveKitConfig.t) : Prop :=
  LiveKitConfig.room_name b = LiveKitConfig.room_name a
  /\ kept (LiveKitConfig.enable_recording a) (LiveKitConfig.enable_recording b)
  /\ kept (LiveKitConfig.recording_file_key a) (LiveKitConfig.recording_file_key b)
  /\ kept (LiveKitConfig.sayna_participant_identity a)
       (LiveKitConfig.sayna_participant_identity b)
  /\ kept (LiveKitConfig.sayna_participant_name a) (LiveKitConfig.sayna_participant_name b)
  /\ kept (LiveKitConfig.listen_participants a) (LiveKitConfig.listen_participants b).

Definition LiveKitConfig_omits_unset (a : LiveKitConfig.t) : Prop :=
  let d := LiveKitConfig.model_dump_exclude_none a in
  unset_absent (LiveKitConfig.enable_recording a) "enable_recording" d
  /\ unset_absent (LiveKitConfig.recording_file_key a) "recording_file_key" d
  /\ unset_absent (LiveKitConfig.sayna_participant_identity a) "sayna_participant_identity" d
  /\ unset_absent (LiveKitConfig.sayna_participant_name a) "sayna_participant_name" d
  /\ unset_absent (LiveKitConfig.listen_participants a) "listen_participants" d
  /\ no_null d.

Definition ConfigMessage_kept (a b : ConfigMessage.t) : Prop :=
  kept (ConfigMessage.audio a) (ConfigMessage.audio b)
  /\ kept (ConfigMessage.stt_config a) (ConfigMessage.stt_config b)
  /\ kept (ConfigMessage.tts_config a) (ConfigMessage.tts_config b)
  /\ (forall lk, ConfigMessage.livekit a = Some lk ->
      exists lk', ConfigMessage.livekit b = Some lk' /\ LiveKitConfig_kept lk lk').

Definition ConfigMessage_omits_unset (a : ConfigMessage.t) : Prop :=
  let d := ConfigMessage.model_dump_exclude_none a in
  unset_absent (ConfigMessage.audio a) "audio" d
  /\ unset_absent (ConfigMessage.stt_config a) "stt_config" d
  /\ unset_absent (ConfigMessage.tts_config a) "tts_config" d
  /\ unset_absent (ConfigMessage.livekit a) "livekit" d
  /\ no_null d
  /\ (forall lk, ConfigMessage.livekit a = Some lk ->
      dict_get d "livekit" = Some (JDict (LiveKitConfig.model_dump_exclude_none lk))
      /\ LiveKitConfig_omits_unset lk).

Definition SpeakMessage_omits_unset (a : SpeakMessage.t) : Prop :=
  let d := SpeakMessage.model_dump_exclude_none a in
  unset_absent (SpeakMessage.flush a) "flush" d
  /\ unset_absent (SpeakMessage.allow_interruption a) "allow_interruption" d
  /\ no_null d.

Definition SendMessageMessage_omits_unset (a : SendMessageMessage.t) : Prop :=
  let d := SendMessageMessage.model_dump_exclude_none a in
  unset_absent (SendMessageMessage.topic a) "topic" d
  /\ unset_absent (SendMessageMessage.debug a) "debug" d
  /\ no_null d.

(* ================================================================== *)
(** ** Vocabulary of the dispatch properties *)

(** The seven callback slots. *)
Definition registry (c : SaynaClient) :=
  (_on_ready c, _on_stt_result c, _on_message c, _on_error c,
   _on_participant_disconnected c, _on_tts_playback_complete c, _on_audio c).

(** The five assignments at the head of [_handle_ready]. *)
Definition ready_update (m : ReadyMessage.t) (c : SaynaClient) : SaynaClient :=
  set_sayna_participant_name (ReadyMessage.sayna_participant_name m)
    (set_sayna_participant_identity (ReadyMessage.sayna_participant_identity m)
       (set_livekit_url (Some (ReadyMessage.livekit_url m))
          (set_livekit_room_name (ReadyMessage.livekit_room_name m)
             (set_ready true c)))).

(** Every call of a callback that raised is followed at once by an error
    log. *)
Fixpoint contained (evs : list event) : bool :=
  match evs with
  | [] => true
  | Call _ (Raises _) :: rest =>
      match rest with
      | Log ERROR _ :: rest' => contained rest'
      | _ => false
      end
  | _ :: rest => contained rest
  end.

(** The callback in a slot raises nothing but instances of [Exception]
    (errors, as opposed to [CancelledError], [KeyboardInterrupt],
    [SystemExit] and the like). *)
Definition raises_only_Exception {A : Type} (cb : option (callback A)) : Prop :=
  forall f a e, cb = Some f -> f a = Raises e -> is_Exception e = true.

Definition callbacks_raise_Exception (c : SaynaClient) : Prop :=
  raises_only_Exception (_on_ready c)
  /\ raises_only_Exception (_on_stt_result c)
  /\ raises_only_Exception (_on_message c)
  /\ raises_only_Exception (_on_error c)
  /\ raises_only_Exception (_on_participant_disconnected c)
  /\ raises_only_Exception (_on_tts_playback_complete c)
  /\ raises_only_Exception (_on_audio c).


(** The discriminator is one of the six the dispatch knows. *)
Definition known_kind (msg_type : option json) : bool :=
  py_eq_str msg_type "ready"
  || py_eq_str msg_type "stt_result"
  || py_eq_str msg_type "message"
  || py_eq_str msg_type "error"
  || py_eq_str msg_type "participant_disconnected"
  || py_eq_str msg_type "tts_playback_complete".

(** The fields declared with [Field(...)] (no default) in the class of
    each incoming message. *)
Definition required_fields (kind : string) : list string :=
  if String.eqb kind "ready" then ["livekit_url"]
  else if String.eqb kind "stt_result" then
    ["transcript"; "is_final"; "is_speech_final"; "confidence"]
  else if String.eqb kind "message" then ["message"]
  else if String.eqb kind "error" then ["message"]
  else if String.eqb kind "participant_disconnected" then ["participant"]
  else if String.eqb kind "tts_playback_complete" then ["timestamp"]
  else [].

(** The class of an incoming message rejects the dictionary. *)
Definition schema_rejects `{Pydantic} (kind : string) (d : pydict) : Prop :=
  (kind = "ready" /\ ReadyMessage.validate d = None)
  \/ (kind = "stt_result" /\ STTResultMessage.validate d = None)
  \/ (kind = "message" /\ MessageMessage.validate d = None)
  \/ (kind = "error" /\ ErrorMessage.validate d = None)
  \/ (kind = "participant_disconnected" /\ ParticipantDisconnectedMessage.validate d = None)
  \/ (kind = "tts_playback_complete" /\ TTSPlaybackCompleteMessage.validate d = None).

(** The text frames that do not decode to a message of a known kind. *)
Inductive undecodable `{Pydantic} `{JsonLib} (data : string) : Prop :=
| malformed_json :
    json_loads data = None -> undecodable data
| not_an_object (v : json) :
    json_loads data = Some v -> (forall d, v <> JDict d) -> undecodable data
| unknown_kind (d : pydict) :
    json_loads data = Some (JDict d) -> known_kind (dict_get d "type") = false ->
    undecodable data
| missing_required (d : pydict) (kind field : string) :
    json_loads data = Some (JDict d) -> dict_get d "type" = Some (JStr kind) ->
    In field (required_fields kind) -> dict_get d field = None ->
    undecodable data
| invalid_fields (d : pydict) (kind : string) :
    json_loads data = Some (JDict d) -> dict_get d "type" = Some (JStr kind) ->
    schema_rejects kind d ->
    undecodable data.


(** Only log entries. *)
Definition only_logs (evs : list event) : Prop :=
  forall ev, In ev evs -> exists lvl fmt, ev = Log lvl fmt.

(* ================================================================== *)
(** ** Vocabulary of the life-cycle properties *)

(** The receive task exists and has not finished. *)
Definition task_active (c : SaynaClient) : bool :=
  match _receive_task c with
  | Some TaskPending | Some TaskRunning => true
  | _ => false
  end.

(** The invariant of the session: a ready client is connected, and so is
    a client whose receive task is alive. *)
Definition session_inv (c : SaynaClient) : Prop :=
  (_ready c = true -> _connected c = true)
  /\ (task_active c = true -> _connected c = true).

(** The client after the end of the task, from the client [c1] at that
    point. *)
Definition ended (c1 c' : SaynaClient) : Prop :=
  exists x, c' = set_receive_task (Some (TaskDone x)) (set_ready false (set_connected false c1)).

Definition unset_fields : option string * option string * option string * option string :=
  (None, None, None, None).

(** A client whose error and audio callbacks always raise. *)
Definition raising_client : SaynaClient :=
  set_on_audio (Some (fun _ => Raises (OtherException "audio handler failed")))
    (set_on_error (Some (fun _ => Raises (OtherException "error handler failed")))
       (set_receive_task (Some TaskRunning)
          (set_connected true
             (set_ws (Some 1%nat) (init "wss://api.example.com/ws" None))))).

(** The client of the scenario: connected, its task started, the ready
    frame of room ["room-1"] handled. *)
Definition connected_client : SaynaClient :=
  client_of
    (@run strict_pydantic frames_json
       (Connect (Some STT_CONFIG) (Some TTS_CONFIG) None true connect_ok)
       (init "wss://api.example.com/ws" (Some "test-key"))).

Definition ready_client : SaynaClient :=
  client_of
    (@run strict_pydantic frames_json (TaskReceive (Msg (TEXT "ready room-1")))
       (client_of (@run strict_pydantic frames_json TaskStart connected_client))).

(** A transport whose socket fails to close. *)
Definition ws_close_fails : DisconnectEnv :=
  {| ws_closed := false; ws_close_result := Raises (OtherException "close failed");
     session_closed := false; session_close_result := Returns tt;
     http_close_result := Returns tt |}.

(* ================================================================== *)
(** ** The session with callbacks that call the client

    A callback runs in the receive task, while a frame is handled, and it
    may call methods of the client: in server.py [on_stt_result] awaits
    [send_speak] and [on_participant_disconnected] awaits [disconnect].
    Such a call is a step of its own, which follows the assignments of the
    handler.  Every method but [disconnect] does in a callback what it does
    for the host.  [disconnect] awaited by the receive task the client
    refers to is [disconnect_by ReceiveTask]: the client forgets the task,
    but the loop goes on and handles what the socket still yields.

    A [world] is the client together with the number of receive loops that
    are alive and that the client does not refer to any more. *)

Record world : Type := {
  w_client : SaynaClient;
  w_loops : nat
}.

Definition new_world (u : string) (k : option string) : world :=
  {| w_client := init u k; w_loops := 0 |}.

Inductive step : Type :=
| Plain (o : op)
    (* a method awaited by the host, or by a callback if it is not a
       [disconnect] awaited by the task the client refers to; or a step of
       that task *)
| CallbackDisconnect (env : DisconnectEnv)
    (* [disconnect] awaited by a callback of the task the client refers to *)
| LoopReceive (i : stream_item)
    (* a loop the client does not refer to is given the next item of its
       socket *)
| LoopStreamEnd.
    (* the socket of such a loop has nothing more to yield *)

Section Steps.
Context `{Pydantic} `{JsonLib}.

(** A loop the client does not refer to handles the next item: as
    [task_receive], except that the end of the loop is not recorded in the
    client, whose [_receive_task] is another task or none. *)
Definition loop_receive (i : stream_item) : M unit :=
  match i with
  | Msg m =>
      try_except
        (f <- loop_body m ;;
         match f with
         | Next => ret tt
         | Break => receive_guard (ret tt)
         end)
        (fun e => Some (receive_guard (raise e)))
  | ReceiveRaises e => receive_guard (raise e)
  end.

(** The loop is still in its [async for] after the item. *)
Definition loop_goes_on (i : stream_item) (c : SaynaClient) : bool :=
  match i with
  | Msg m =>
      match result_of (loop_body m c) with
      | Returns Next => true
      | _ => false
      end
  | ReceiveRaises _ => false
  end.

(** [connect] assigns a new task to [_receive_task] while the task it
    referred to is alive: that task is not ended, the client only stops
    referring to it. *)
Definition replaces_live_task (o : op) (c : SaynaClient) : bool :=
  match o with
  | Connect stt tts lk audio env =>
      task_active c && negb (_connected c)
      && match result_of (connect stt tts lk audio env c) with
         | Returns _ => true
         | Raises _ => false
         end
  | _ => false
  end.

Definition step_enabled (s : step) (w : world) : bool :=
  match s with
  | Plain o => enabled o (w_client w)
  | CallbackDisconnect _ =>
      match _receive_task (w_client w) with
      | Some TaskRunning => true
      | _ => false
      end
  | LoopReceive _ | LoopStreamEnd => negb (Nat.eqb (w_loops w) 0)
  end.

Definition step_run (s : step) (w : world) : world :=
  let c := w_client w in
  match s with
  | Plain o =>
      {| w_client := client_of (run o c);
         w_loops := if replaces_live_task o c then S (w_loops w) else w_loops w |}
  | CallbackDisconnect env =>
      (* on a connected client the task is forgotten whatever the close
         calls do; it is still running *)
      {| w_client := client_of (disconnect_by ReceiveTask env c);
         w_loops := if _connected c then S (w_loops w) else w_loops w |}
  | LoopReceive i =>
      {| w_client := client_of (loop_receive i c);
         w_loops := if loop_goes_on i c then w_loops w else pred (w_loops w) |}
  | LoopStreamEnd =>
      {| w_client := client_of (receive_guard (ret tt) c);
         w_loops := pred (w_loops w) |}
  end.

(** The world after a list of steps, each enabled when its turn comes. *)
Fixpoint steps (tr : list step) (w : world) : option world :=
  match tr with
  | [] => Some w
  | s :: rest => if step_enabled s w then steps rest (step_run s w) else None
  end.
End Steps.

(** The step is not a [disconnect] awaited by a callback of the task the
    client refers to. *)
Definition no_callback_disconnect (s : step) : bool :=
  match s with
  | CallbackDisconnect _ => false
  | _ => true
  end.





(* ================================================================== *)
(** ** Vocabulary of the further properties *)

(** What a client on which no callback awaits [disconnect] satisfies
    beyond [session_inv]: a ready
    client has its receive task in the loop, and a client whose receive
    task is alive is connected and holds a socket and a session. *)
Definition session_wf (c : SaynaClient) : Prop :=
  (_ready c = true -> _receive_task c = Some TaskRunning)
  /\ (task_active c = true ->
      _connected c = true /\ _ws c <> None /\ _session c <> None).

(** The frame a sending method hands to the socket. *)
Definition frame_of (s : send_call) : event :=
  match s with
  | SendSpeak text flush allow_interruption =>
      SendJson
        (SpeakMessage.model_dump_exclude_none
           {| SpeakMessage.text := text;
              SpeakMessage.flush := Some flush;
              SpeakMessage.allow_interruption := Some allow_interruption |})
  | SendClear => SendJson (ClearMessage.model_dump_exclude_none ClearMessage.Build_t)
  | SendMessage message role topic debug =>
      SendJson
        (SendMessageMessage.model_dump_exclude_none
           {| SendMessageMessage.message := message;
              SendMessageMessage.role := role;
              SendMessageMessage.topic := Some topic;
              SendMessageMessage.debug := debug |})
  | SendAudio audio_data => SendBytes audio_data
  end.

(** The attributes the handlers of the receive loop never assign. *)
Definition same_transport (c c' : SaynaClient) : Prop :=
  url c' = url c /\ api_key c' = api_key c
  /\ _ws c' = _ws c /\ _session c' = _session c
  /\ _connected c' = _connected c /\ _receive_task c' = _receive_task c
  /\ registry c' = registry c.

(** A call to the logger or to a host callback. *)
Definition log_or_call (ev : event) : bool :=
  match ev with
  | Log _ _ | Call _ _ => true
  | _ => false
  end.

(** The item is a message the loop goes on after: text, binary, or of a
    type the loop has no branch for. *)
Definition keeps_looping (i : stream_item) : bool :=
  match i with
  | Msg (TEXT _) | Msg (BINARY _) | Msg OTHER => true
  | _ => false
  end.

(** The item ends the loop: an error or close message, or an exception
    raised while waiting. *)
Definition ends_loop (i : stream_item) : bool := negb (keeps_looping i).

(** The item is a message (waiting for it did not raise). *)
Definition is_message (i : stream_item) : bool :=
  match i with
  | Msg _ => true
  | ReceiveRaises _ => false
  end.

(** The bundle passes the check of [connect]. *)
Definition bundle_ok (stt : option STTConfig.t) (tts : option TTSConfig.t) (audio : bool)
  : bool :=
  negb (audio && (is_none stt || is_none tts)).

(** The calls by which [disconnect] cancels and awaits the receive task:
    a running loop that another task cancels logs its cancellation. *)
Definition cancel_events (who : caller) (c : SaynaClient) : list event :=
  match _receive_task c with
  | None => []
  | Some t =>
      CancelTask
      :: match who, t with
         | OtherTask, TaskRunning => [Log DEBUG "Receive loop cancelled"]
         | _, _ => []
         end
  end.

(** The exception that awaiting the cancelled receive task raises into
    [disconnect], if any: the one a finished task ended with, unless it is
    a cancellation, which [disconnect] suppresses.  The receive task that
    awaits itself gets the cancellation it has just requested. *)
Definition task_failure (who : caller) (c : SaynaClient) : option PyExc :=
  match who, _receive_task c with
  | OtherTask, Some (TaskDone (Some CancelledError)) => None
  | OtherTask, Some (TaskDone (Some e)) => Some e
  | _, _ => None
  end.

(** The client once its receive task has been cancelled and awaited: it
    does not refer to the task any more, and a loop that was running and
    was cancelled by another task has gone through its [finally]. *)
Definition task_awaited (who : caller) (c : SaynaClient) : SaynaClient :=
  match _receive_task c with
  | None => c
  | Some t =>
      set_receive_task None
        match who, t with
        | OtherTask, TaskRunning => set_ready false (set_connected false c)
        | _, _ => c
        end
  end.

(** The exception a [close] call raises, if the call is made and
    raises. *)
Definition close_failure {A : Type} (obj : option A) (closed : bool) (r : outcome unit)
  : option PyExc :=
  match obj, closed, r with
  | Some _, false, Raises e => Some e
  | _, _, _ => None
  end.

(** How the exception of a cleanup step reaches the caller of
    [disconnect]: an [Exception] inside a connection error, any other
    exception as it is. *)
Definition reraised (e : PyExc) : PyExc :=
  if is_Exception e then SaynaConnectionError "Error during disconnect: " e else e.

(** The outcome of [disconnect] when its guarded block ends with [r] and
    the close of the REST helper with [hr]. *)
Definition after_http_close (r hr : outcome unit) : outcome unit :=
  match hr with
  | Raises e => Raises e
  | Returns _ => r
  end.

(** The calls that follow a cleanup step that raised [e]. *)
Definition failure_events (e : PyExc) : list event :=
  (if is_Exception e then [Log ERROR "Error during disconnect: %s"] else [])
  ++ [HttpClose].

(** The operation is the receipt by the task of a ready frame that
    validates. *)
Definition is_valid_ready_frame `{Pydantic} `{JsonLib} (o : op) : bool :=
  match o with
  | TaskReceive (Msg (TEXT data)) =>
      match json_loads data with
      | Some (JDict d) =>
          py_eq_str (dict_get d "type") "ready"
          && match ReadyMessage.validate d with
             | Some _ => true
             | None => false
             end
      | _ => false
      end
  | _ => false
  end.

(** A [close] call, made only on an object that is set and does not report
    itself closed. *)
Definition close_events {A : Type} (obj : option A) (closed : bool) (ev : event) : list event :=
  match obj with
  | Some _ => if closed then [] else [ev]
  | None => []
  end.

(* ================================================================== *)
(** ** Vocabulary of the registrations *)

(** A callback together with the event kind it is registered for. *)
Inductive registration : Type :=
| ForReady (cb : callback ReadyMessage.t)
| ForSttResult (cb : callback STTResultMessage.t)
| ForMessage (cb : callback MessageMessage.t)
| ForError (cb : callback ErrorMessage.t)
| ForParticipantDisconnected (cb : callback ParticipantDisconnectedMessage.t)
| ForTtsPlaybackComplete (cb : callback TTSPlaybackCompleteMessage.t)
| ForAudio (cb : callback (list byte)).

(** The [register_on_*] method of the kind. *)
Definition register (r : registration) : M unit :=
  match r with
  | ForReady cb => register_on_ready cb
  | ForSttResult cb => register_on_stt_result cb
  | ForMessage cb => register_on_message cb
  | ForError cb => register_on_error cb
  | ForParticipantDisconnected cb => register_on_participant_disconnected cb
  | ForTtsPlaybackComplete cb => register_on_tts_playback_complete cb
  | ForAudio cb => register_on_audio cb
  end.

(** The call of the callback with a payload, if the payload is of the kind
    the callback is registered for. *)
Definition call_of (r : registration) (p : payload) : option event :=
  match r, p with
  | ForReady cb, OnReady m => Some (Call p (cb m))
  | ForSttResult cb, OnSttResult m => Some (Call p (cb m))
  | ForMessage cb, OnMessage m => Some (Call p (cb m))
  | ForError cb, OnError m => Some (Call p (cb m))
  | ForParticipantDisconnected cb, OnParticipantDisconnected m => Some (Call p (cb m))
  | ForTtsPlaybackComplete cb, OnTtsPlaybackComplete m => Some (Call p (cb m))
  | ForAudio cb, OnAudio data => Some (Call p (cb data))
  | _, _ => None
  end.

(** The message of the socket carries the payload: a binary message its
    bytes; a text message the model its dictionary validates as, under the
    discriminator of that model. *)
Definition carries `{Pydantic} `{JsonLib} (m : WSMsg) (p : payload) : Prop :=
  match m with
  | BINARY data => p = OnAudio data
  | TEXT data =>
      exists d,
        json_loads data = Some (JDict d)
        /\ match p with
           | OnReady msg =>
               dict_get d "type" = Some (JStr "ready")
               /\ ReadyMessage.validate d = Some msg
           | OnSttResult msg =>
               dict_get d "type" = Some (JStr "stt_result")
               /\ STTResultMessage.validate d = Some msg
           | OnMessage msg =>
               dict_get d "type" = Some (JStr "message")
               /\ MessageMessage.validate d = Some msg
           | OnError msg =>
               dict_get d "type" = Some (JStr "error")
               /\ ErrorMessage.validate d = Some msg
           | OnParticipantDisconnected msg =>
               dict_get d "type" = Some (JStr "participant_disconnected")
               /\ ParticipantDisconnectedMessage.validate d = Some msg
           | OnTtsPlaybackComplete msg =>
               dict_get d "type" = Some (JStr "tts_playback_complete")
               /\ TTSPlaybackCompleteMessage.validate d = Some msg
           | OnAudio _ => False
           end
  | _ => False
  end.

(** The calls of callbacks among the calls made, with what each did. *)
Definition call_events (evs : list event) : list event :=
  filter (fun ev => match ev with Call _ _ => true | _ => false end) evs.


(* ================================================================== *)
(** ** client.py: the REST base URL of [__init__] *)

(** [s.startswith(p)] *)
Definition startswith (s p : string) : bool := String.prefix p s.

(** [s.endswith(suf)] *)
Definition endswith (s suf : string) : bool :=
  (String.length suf <=? String.length s)%nat
  && String.eqb (substring (String.length s - String.length suf) (String.length suf) s) suf.

(** [s[:-n]] for a positive [n]. *)
Definition drop_last (n : nat) (s : string) : string :=
  substring 0 (String.length s - n) s.

(** [s.replace(old, new)] for a non-empty [old]: the occurrences of [old]
    are found from left to right and do not overlap; [skip] counts the
    characters of an occurrence still to pass over. *)
Fixpoint replace_from (skip : nat) (old new s : string) : string :=
  match s with
  | EmptyString => EmptyString
  | String ch rest =>
      match skip with
      | S k => replace_from k old new rest
      | O =>
          if String.prefix old s
          then (new ++ replace_from (String.length old - 1) old new rest)%string
          else String ch (replace_from 0 old new rest)
      end
  end.

Definition replace (old new s : string) : string := replace_from 0 old new s.

(** [SaynaClient.__init__]: the value assigned to [self.base_url], the
    address the REST helper is built with; it is a function of the [url]
    argument alone. *)
Definition base_url (url : string) : string :=
  if startswith url "ws://" || startswith url "wss://" then
    let base_url := replace "ws://" "http://" (replace "wss://" "https://" url) in
    if endswith base_url "/ws" then drop_last 3 base_url else base_url
  else url.

(** [old] occurs somewhere in [s]. *)
Fixpoint occurs (old s : string) : bool :=
  String.prefix old s
  || match s with
     | EmptyString => false
     | String _ rest => occurs old rest
     end.

(* ================================================================== *)
(** ** client.py: context manager support *)

(** [__aenter__]: gives back the client; it does not connect. *)
Definition __aenter__ : M unit := ret tt.

(** [__aexit__]: awaits [disconnect] and returns [None], so an exception of
    the block is not suppressed. *)
Definition __aexit__ (env : DisconnectEnv) : M unit := disconnect env.

(** [async with client: body], as Python runs it with these two methods:
    [__aexit__] is awaited however the body ends, the exception of the body
    is raised again after it, and an exception of [__aexit__] itself takes
    its place. *)
Definition async_with {A : Type} (env : DisconnectEnv) (body : M A) : M A :=
  __aenter__ ;; try_finally body (__aexit__ env).

(* ================================================================== *)
(** ** server.py: the session of the example server *)

(** server.py, [create_sayna_session]: the client is created, the four
    callbacks of the server are registered, the client connects with the
    configurations of the server, and its [ready] attribute is read.  The
    callbacks are given as what calling them does; [Returns tt] stands for
    the last two statements, which store the client in [sessions] and
    return it. *)
Definition create_sayna_session (sayna_url room_name participant_identity : string)
    (on_stt_result : callback STTResultMessage.t)
    (on_participant_disconnected : callback ParticipantDisconnectedMessage.t)
    (on_tts_playback_complete : callback TTSPlaybackCompleteMessage.t)
    (on_error : callback ErrorMessage.t)
    (cenv : ConnectEnv) (denv : DisconnectEnv)
  : outcome unit * SaynaClient * list event :=
  let livekit_config :=
    {| LiveKitConfig.room_name := room_name;
       LiveKitConfig.enable_recording := Some false;
       LiveKitConfig.recording_file_key := None;
       LiveKitConfig.sayna_participant_identity := Some participant_identity;
       LiveKitConfig.sayna_participant_name := Some "Sayna AI Assistant";
       LiveKitConfig.listen_participants := Some [] |} in
  (emit (Log INFO "[Sayna] Creating session for: %s, room: %s") ;;
   register_on_stt_result on_stt_result ;;
   register_on_participant_disconnected on_participant_disconnected ;;
   register_on_tts_playback_complete on_tts_playback_complete ;;
   register_on_error on_error ;;
   connect (Some STT_CONFIG) (Some TTS_CONFIG) (Some livekit_config) true cenv ;;
   client <- self ;;
   if negb (_ready client) then
     disconnect denv ;;
     raise (OtherException "RuntimeError: Sayna connection failed to become ready")
   else
     emit (Log INFO "[Sayna] Connected to room: %s") ;;
     emit (Log INFO "[Sayna] Sayna participant: %s"))
    (init sayna_url None).

(* ================================================================== *)
(** * Properties *)

(** ** Gating of the sending methods *)

Lemma check_ready_not_connected (c : SaynaClient) :
  _connected c = false -> _check_ready c = (Raises SaynaNotConnectedError, c, []).
Proof.
  intros Hc. unfold _check_ready, _check_connected, bind, self. simpl.
  rewrite Hc. reflexivity.
Qed.

Lemma check_ready_not_ready (c : SaynaClient) :
  _connected c = true -> _ready c = false ->
  _check_ready c = (Raises SaynaNotReadyError, c, []).
Proof.
  intros Hc Hr. unfold _check_ready, _check_connected, bind, self. simpl.
  rewrite Hc. simpl. rewrite Hr. reflexivity.
Qed.

Lemma check_ready_ready (c : SaynaClient) :
  _connected c = true -> _ready c = true -> _check_ready c = (Returns tt, c, []).
Proof.
  intros Hc Hr. unfold _check_ready, _check_connected, bind, self. simpl.
  rewrite Hc. simpl. rewrite Hr. reflexivity.
Qed.

(** A method that starts with a failing [_check_ready] fails the same way
    and does nothing else. *)
Lemma bind_raises {A B : Type} (m : M A) (k : A -> M B) (c : SaynaClient) (e : PyExc)
    (c' : SaynaClient) (ev : list event) :
  m c = (Raises e, c', ev) -> bind m k c = (Raises e, c', ev).
Proof. intros Hm. unfold bind. rewrite Hm. reflexivity. Qed.

Lemma send_check_fails (s : send_call) (sent : outcome unit) (c : SaynaClient) (e : PyExc) :
  _check_ready c = (Raises e, c, []) -> send s sent c = (Raises e, c, []).
Proof.
  intros Hk. destruct s; simpl;
    unfold send_speak, send_clear, send_message, send_audio;
    apply bind_raises; exact Hk.
Qed.

(** C1. Every sending method called on a client that is not connected
    raises the not-connected error, and called on a client that is
    connected but not ready raises the not-ready error; the two errors are
    distinct; in both cases the client is unchanged and no call is made, so
    no frame is written, whatever the socket would have done with it. *)
Theorem send_requires_ready (c : SaynaClient) (s : send_call) (sent : outcome unit) :
  (_connected c = false -> send s sent c = (Raises SaynaNotConnectedError, c, []))
  /\ (_connected c = true -> _ready c = false ->
      send s sent c = (Raises SaynaNotReadyError, c, []))
  /\ SaynaNotConnectedError <> SaynaNotReadyError.
Proof.
  split; [| split].
  - intros Hc. apply send_check_fails, check_ready_not_connected, Hc.
  - intros Hc Hr. apply send_check_fails, check_ready_not_ready; assumption.
  - discriminate.
Qed.

Lemma send_requires_ready_witness :
  send (SendSpeak "hi" true true) (Returns tt) (init "wss://api.example.com" None)
    = (Raises SaynaNotConnectedError, init "wss://api.example.com" None, [])
  /\ send (SendAudio []) (Returns tt) connected_client
    = (Raises SaynaNotReadyError, connected_client, []).
Proof.
  split.
  - apply (proj1 (send_requires_ready (init "wss://api.example.com" None)
                    (SendSpeak "hi" true true) (Returns tt))).
    reflexivity.
  - apply (proj1 (proj2 (send_requires_ready connected_client (SendAudio []) (Returns tt))));
      vm_compute; reflexivity.
Defined.

(** ** Validation and idempotence of [connect] *)

(** C2. On a client that is not connected, [connect] with [audio=True] and
    a missing speech-to-text or text-to-speech configuration raises the
    validation error at once: the client is unchanged and no call is made
    (no session is created, no socket is opened). *)
Theorem connect_validates_first (c : SaynaClient) (stt_config : option STTConfig.t)
    (tts_config : option TTSConfig.t) (livekit_config : option LiveKitConfig.t)
    (env : ConnectEnv) :
  _connected c = false ->
  stt_config = None \/ tts_config = None ->
  connect stt_config tts_config livekit_config true env c
  = (Raises (SaynaValidationError "stt_config and tts_config are required when audio=True"),
     c, []).
Proof.
  intros Hc Hmiss. unfold connect, bind, self. simpl. rewrite Hc.
  destruct Hmiss as [-> | ->]; simpl.
  - reflexivity.
  - rewrite orb_true_r. reflexivity.
Qed.

Lemma connect_validates_first_witness :
  connect None None None true
    {| ws_connect_result := Returns 1%nat; config_sent := Returns tt |}
    (init "wss://api.example.com" (Some "test-key"))
  = (Raises (SaynaValidationError "stt_config and tts_config are required when audio=True"),
     init "wss://api.example.com" (Some "test-key"), []).
Proof.
  apply connect_validates_first.
  - reflexivity.
  - left. reflexivity.
Defined.

(** C10. On a client that is already connected, [connect] returns normally
    for all arguments, the invalid bundle included: it logs a warning,
    leaves the client unchanged and makes no other call. *)
Theorem connect_when_connected (c : SaynaClient) (stt_config : option STTConfig.t)
    (tts_config : option TTSConfig.t) (livekit_config : option LiveKitConfig.t)
    (audio : bool) (env : ConnectEnv) :
  _connected c = true ->
  connect stt_config tts_config livekit_config audio env c
  = (Returns tt, c, [Log WARNING "Already connected to Sayna WebSocket"]).
Proof.
  intros Hc. unfold connect, bind, self. simpl. rewrite Hc. reflexivity.
Qed.

Lemma connect_when_connected_witness :
  connect None None None true
    {| ws_connect_result := Raises (ClientError "refused"); config_sent := Returns tt |}
    connected_client
  = (Returns tt, connected_client, [Log WARNING "Already connected to Sayna WebSocket"]).
Proof.
  apply connect_when_connected. vm_compute. reflexivity.
Defined.

(** ** The ready scenario *)

Lemma ready_room_1_validates `{Pydantic} :
  ReadyMessage.validate ready_room_1
  = Some {| ReadyMessage.livekit_room_name := Some "room-1";
            ReadyMessage.livekit_url := "wss://x";
            ReadyMessage.sayna_participant_identity := None;
            ReadyMessage.sayna_participant_name := None |}.
Proof.
  unfold ReadyMessage.validate, literal, optional, required, ready_room_1. simpl.
  rewrite !str_validate_str. reflexivity.
Qed.

(** C3. From a new client, a [connect] with both configurations on a
    transport that accepts it succeeds; once the receive task has started
    and handled the ready frame with room ["room-1"] and URL ["wss://x"],
    the client is connected and ready and reports that room;
    [send_speak("hi")] then returns normally, leaves the client unchanged
    and writes exactly one frame, the speak message with text ["hi"]. *)
Theorem ready_then_speak `{Pydantic} `{JsonLib} (u : string) (k : option string)
    (stt : STTConfig.t) (tts : TTSConfig.t) (livekit : option LiveKitConfig.t)
    (ws : ClientWebSocketResponse) (data : string) :
  json_loads data = Some (JDict ready_room_1) ->
  let env := {| ws_connect_result := Returns ws; config_sent := Returns tt |} in
  let c1 := client_of (connect (Some stt) (Some tts) livekit true env (init u k)) in
  let c2 := client_of ((task_start ;; task_receive (Msg (TEXT data))) c1) in
  result_of (connect (Some stt) (Some tts) livekit true env (init u k)) = Returns tt
  /\ run_all [TaskStart; TaskReceive (Msg (TEXT data))] c1 = Some c2
  /\ result_of ((task_start ;; task_receive (Msg (TEXT data))) c1) = Returns tt
  /\ _connected c2 = true
  /\ _ready c2 = true
  /\ _livekit_room_name c2 = Some "room-1"
  /\ _livekit_url c2 = Some "wss://x"
  /\ send_speak "hi" true true (Returns tt) c2
     = (Returns tt, c2, [SendJson speak_hi; Log DEBUG "Sent: %s"])
  /\ outbound (events_of (send_speak "hi" true true (Returns tt) c2)) = [SendJson speak_hi].
Proof.
  intros Hdata.
  cbv -[json_loads str_validate].
  rewrite Hdata.
  cbv -[str_validate].
  rewrite !str_validate_str.
  cbv.
  repeat split.
Qed.


Lemma ready_then_speak_witness :
  let env := {| ws_connect_result := Returns 1%nat; config_sent := Returns tt |} in
  let c1 :=
    client_of (connect (Some STT_CONFIG) (Some TTS_CONFIG) None true env
                 (init "wss://api.example.com/ws" (Some "test-key"))) in
  let c2 :=
    client_of ((@task_start ;;
                @task_receive strict_pydantic frames_json (Msg (TEXT "ready room-1"))) c1) in
  result_of (connect (Some STT_CONFIG) (Some TTS_CONFIG) None true env
               (init "wss://api.example.com/ws" (Some "test-key"))) = Returns tt
  /\ @run_all strict_pydantic frames_json
       [TaskStart; TaskReceive (Msg (TEXT "ready room-1"))] c1 = Some c2
  /\ result_of ((@task_start ;;
                 @task_receive strict_pydantic frames_json (Msg (TEXT "ready room-1"))) c1)
     = Returns tt
  /\ _connected c2 = true
  /\ _ready c2 = true
  /\ _livekit_room_name c2 = Some "room-1"
  /\ _livekit_url c2 = Some "wss://x"
  /\ send_speak "hi" true true (Returns tt) c2
     = (Returns tt, c2, [SendJson speak_hi; Log DEBUG "Sent: %s"])
  /\ outbound (events_of (send_speak "hi" true true (Returns tt) c2)) = [SendJson speak_hi].
Proof.
  exact (@ready_then_speak strict_pydantic frames_json
           "wss://api.example.com/ws" (Some "test-key") STT_CONFIG TTS_CONFIG None
           1%nat "ready room-1" eq_refl).
Defined.

(** ** Round trip of the outgoing messages *)

Ltac validators :=
  rewrite ?str_validate_str, ?int_validate_int, ?bool_validate_bool, ?float_validate_float.

(** Closes [no_null d] for a dictionary [d] spelled out entry by entry. *)
Ltac no_null_entries :=
  let k := fresh "k" in
  intros k; simpl;
  repeat match goal with
         | |- context [if ?b then _ else _] => destruct b
         end;
  discriminate.

Lemma Pronunciation_roundtrip `{Pydantic} (p : Pronunciation.t) :
  Pronunciation.validate (Pronunciation.model_dump p) = Some p.
Proof.
  destruct p. unfold Pronunciation.validate, Pronunciation.model_dump, required.
  simpl. validators. reflexivity.
Qed.

Lemma pronunciations_roundtrip `{Pydantic} (l : list Pronunciation.t) :
  all_valid (model_validate Pronunciation.validate)
    (map (fun p => JDict (Pronunciation.model_dump p)) l) = Some l.
Proof.
  induction l as [| p l IH]; simpl.
  - reflexivity.
  - rewrite Pronunciation_roundtrip, IH. reflexivity.
Qed.

Lemma strings_roundtrip `{Pydantic} (l : list string) :
  all_valid str_validate (map JStr l) = Some l.
Proof.
  induction l as [| s l IH]; simpl.
  - reflexivity.
  - rewrite str_validate_str, IH. reflexivity.
Qed.

Lemma STTConfig_roundtrip `{Pydantic} (c : STTConfig.t) :
  STTConfig.validate (STTConfig.model_dump c) = Some c.
Proof.
  destruct c. unfold STTConfig.validate, STTConfig.model_dump, required.
  simpl. validators. reflexivity.
Qed.

Lemma TTSConfig_roundtrip `{Pydantic} (c : TTSConfig.t) :
  TTSConfig.validate (TTSConfig.model_dump c) = Some c.
Proof.
  destruct c. unfold TTSConfig.validate, TTSConfig.model_dump, required, defaulted.
  simpl. validators. rewrite pronunciations_roundtrip. reflexivity.
Qed.

(** Reading a room configuration back fills the fields left unset with the
    defaults of the class and keeps the others. *)
Lemma LiveKitConfig_roundtrip `{Pydantic} (c : LiveKitConfig.t) :
  exists c',
    LiveKitConfig.validate (LiveKitConfig.model_dump_exclude_none c) = Some c'
    /\ LiveKitConfig_kept c c'.
Proof.
  destruct c as [rn [er|] [rk|] [pi|] [pn|] [lp|]];
    unfold LiveKitConfig.validate, LiveKitConfig.model_dump_exclude_none, required, optional,
      list_validate;
    simpl; validators; simpl; rewrite ?strings_roundtrip; simpl;
    eexists; (split; [reflexivity |]);
    unfold LiveKitConfig_kept, kept; simpl;
    repeat split; intros; try discriminate; assumption.
Qed.

Lemma LiveKitConfig_unset (c : LiveKitConfig.t) : LiveKitConfig_omits_unset c.
Proof.
  destruct c as [rn [er|] [rk|] [pi|] [pn|] [lp|]];
    unfold LiveKitConfig_omits_unset, unset_absent, LiveKitConfig.model_dump_exclude_none;
    simpl; repeat split; try discriminate; try reflexivity; no_null_entries.
Qed.

Lemma ConfigMessage_roundtrip `{Pydantic} (m : ConfigMessage.t) :
  exists m',
    ConfigMessage.validate (ConfigMessage.model_dump_exclude_none m) = Some m'
    /\ ConfigMessage_kept m m'.
Proof.
  destruct m as [[a|] [s|] [t|] [l|]];
    try (destruct (LiveKitConfig_roundtrip l) as (l' & Hl & Hkept));
    unfold ConfigMessage.validate, ConfigMessage.model_dump_exclude_none, optional, literal;
    cbn [dump_opt app dict_get String.eqb Ascii.eqb Bool.eqb model_validate option_map
         ConfigMessage.audio ConfigMessage.stt_config ConfigMessage.tts_config
         ConfigMessage.livekit];
    rewrite ?bool_validate_bool, ?STTConfig_roundtrip, ?TTSConfig_roundtrip, ?Hl;
    cbn [option_map];
    eexists; (split; [reflexivity |]);
    unfold ConfigMessage_kept, kept; cbn [ConfigMessage.audio ConfigMessage.stt_config
      ConfigMessage.tts_config ConfigMessage.livekit];
    repeat split; intros; try discriminate; try assumption;
    match goal with
    | Heq : Some _ = Some ?lk |- exists _, _ =>
        injection Heq as <-; eexists; split; [reflexivity | assumption]
    end.
Qed.

Lemma ConfigMessage_unset (m : ConfigMessage.t) : ConfigMessage_omits_unset m.
Proof.
  destruct m as [[a|] [s|] [t|] [l|]];
    unfold ConfigMessage_omits_unset, unset_absent, ConfigMessage.model_dump_exclude_none;
    cbn [dump_opt app dict_get String.eqb Ascii.eqb Bool.eqb
         ConfigMessage.audio ConfigMessage.stt_config ConfigMessage.tts_config
         ConfigMessage.livekit];
    refine (conj _ (conj _ (conj _ (conj _ (conj _ _)))));
    try (intros Hn; (discriminate Hn || reflexivity));
    try (intros lk Heq; (discriminate Heq ||
           (injection Heq as <-; split; [reflexivity | apply LiveKitConfig_unset])));
    intros k; cbn [dict_get];
    repeat match goal with
           | |- context [if ?b then _ else _] => destruct b
           end;
    discriminate.
Qed.

Lemma SpeakMessage_roundtrip `{Pydantic} (m : SpeakMessage.t) :
  SpeakMessage.validate (SpeakMessage.model_dump_exclude_none m) = Some m.
Proof.
  destruct m as [tx [f|] [a|]];
    unfold SpeakMessage.validate, SpeakMessage.model_dump_exclude_none, required, optional,
      literal; simpl; validators; reflexivity.
Qed.

Lemma SpeakMessage_unset (m : SpeakMessage.t) : SpeakMessage_omits_unset m.
Proof.
  destruct m as [tx [f|] [a|]];
    unfold SpeakMessage_omits_unset, unset_absent, SpeakMessage.model_dump_exclude_none;
    simpl; repeat split; try discriminate; try reflexivity; no_null_entries.
Qed.

Lemma ClearMessage_roundtrip (m : ClearMessage.t) :
  ClearMessage.validate (ClearMessage.model_dump_exclude_none m) = Some m.
Proof. destruct m. reflexivity. Qed.

Lemma SendMessageMessage_roundtrip `{Pydantic} (m : SendMessageMessage.t) :
  SendMessageMessage.validate (SendMessageMessage.model_dump_exclude_none m) = Some m.
Proof.
  destruct m as [msg r [tp|] [db|]];
    unfold SendMessageMessage.validate, SendMessageMessage.model_dump_exclude_none,
      required, optional, literal; simpl; validators; reflexivity.
Qed.

Lemma SendMessageMessage_unset (m : SendMessageMessage.t) : SendMessageMessage_omits_unset m.
Proof.
  destruct m as [msg r [tp|] [db|]];
    unfold SendMessageMessage_omits_unset, unset_absent,
      SendMessageMessage.model_dump_exclude_none;
    simpl; repeat split; try discriminate; try reflexivity; no_null_entries.
Qed.

(** C8. Each outgoing message, encoded with [model_dump(exclude_none=True)]
    and read back through its class, validates; every field that was set
    comes back with its value, and every field left unset has no key in the
    encoding, which holds no explicit null.  Speak, clear and send-message
    messages come back identical; in a configuration message (and the room
    configuration inside it) a field left unset comes back as the default
    of the class. *)
Theorem outbound_roundtrip `{Pydantic} :
  (forall m : ConfigMessage.t,
      (exists m',
          ConfigMessage.validate (ConfigMessage.model_dump_exclude_none m) = Some m'
          /\ ConfigMessage_kept m m')
      /\ ConfigMessage_omits_unset m)
  /\ (forall m : SpeakMessage.t,
         SpeakMessage.validate (SpeakMessage.model_dump_exclude_none m) = Some m
         /\ SpeakMessage_omits_unset m)
  /\ (forall m : ClearMessage.t,
         ClearMessage.validate (ClearMessage.model_dump_exclude_none m) = Some m
         /\ no_null (ClearMessage.model_dump_exclude_none m))
  /\ (forall m : SendMessageMessage.t,
         SendMessageMessage.validate (SendMessageMessage.model_dump_exclude_none m) = Some m
         /\ SendMessageMessage_omits_unset m).
Proof.
  split; [| split; [| split]]; intros m; split.
  - apply ConfigMessage_roundtrip.
  - apply ConfigMessage_unset.
  - apply SpeakMessage_roundtrip.
  - apply SpeakMessage_unset.
  - apply ClearMessage_roundtrip.
  - unfold ClearMessage.model_dump_exclude_none. no_null_entries.
  - apply SendMessageMessage_roundtrip.
  - apply SendMessageMessage_unset.
Qed.

(** ** The dispatch of one frame *)

(** What [invoke] does, by the slot and by what the callback does. *)
Lemma invoke_result {A : Type} (cb : option (callback A)) (wrap : A -> payload) (a : A)
    (errfmt : string) (c : SaynaClient) :
  invoke cb wrap a errfmt c
  = match cb with
    | None => (Returns tt, c, [])
    | Some f =>
        match f a with
        | Returns _ => (Returns tt, c, [Call (wrap a) (f a)])
        | Raises e =>
            if is_Exception e
            then (Returns tt, c, [Call (wrap a) (f a); Log ERROR errfmt])
            else (Raises e, c, [Call (wrap a) (f a)])
        end
    end.
Proof.
  destruct cb as [f |]; [| reflexivity].
  unfold invoke, try_except, external, except_Exception, emit.
  destruct (f a) as [[] | e]; [reflexivity |].
  destruct (is_Exception e); reflexivity.
Qed.

Ltac dispatch_case :=
  match goal with
  | |- context [json_loads ?d] => destruct (json_loads d) as [[| | | | | | ?]|]
  | |- context [py_eq_str ?a ?b] => destruct (py_eq_str a b)
  | |- context [ReadyMessage.validate ?d] => destruct (ReadyMessage.validate d)
  | |- context [STTResultMessage.validate ?d] => destruct (STTResultMessage.validate d)
  | |- context [MessageMessage.validate ?d] => destruct (MessageMessage.validate d)
  | |- context [ErrorMessage.validate ?d] => destruct (ErrorMessage.validate d)
  | |- context [ParticipantDisconnectedMessage.validate ?d] =>
      destruct (ParticipantDisconnectedMessage.validate d)
  | |- context [TTSPlaybackCompleteMessage.validate ?d] =>
      destruct (TTSPlaybackCompleteMessage.validate d)
  end.

Ltac callback_case :=
  match goal with
  | |- context [match ?x with Some _ => _ | None => _ end] => is_var x; destruct x
  | |- context [match ?f ?a with Returns _ => _ | Raises _ => _ end] =>
      destruct (f a) as [[] | []]
  end.

Lemma handle_text_result `{Pydantic} `{JsonLib} (data : string) (c : SaynaClient) :
  _handle_text_message data c
  = match json_loads data with
    | None => (Returns tt, c, [Log ERROR "Error handling message: %s"])
    | Some (JDict parsed) =>
        let msg_type := dict_get parsed "type" in
        let received := Log DEBUG "Received: %s" in
        let rejected := (Returns tt, c, [received; Log ERROR "Failed to parse message: %s"]) in
        if py_eq_str msg_type "ready" then
          match ReadyMessage.validate parsed with
          | Some m =>
              prepend [received; Log INFO "Ready - LiveKit room: %s"]
                (invoke (_on_ready c) OnReady m "Error in ready callback: %s"
                   (ready_update m c))
          | None => rejected
          end
        else if py_eq_str msg_type "stt_result" then
          match STTResultMessage.validate parsed with
          | Some m =>
              prepend [received]
                (invoke (_on_stt_result c) OnSttResult m "Error in STT result callback: %s" c)
          | None => rejected
          end
        else if py_eq_str msg_type "message" then
          match MessageMessage.validate parsed with
          | Some m =>
              prepend [received]
                (invoke (_on_message c) OnMessage m "Error in message callback: %s" c)
          | None => rejected
          end
        else if py_eq_str msg_type "error" then
          match ErrorMessage.validate parsed with
          | Some m =>
              prepend [received; Log ERROR "Server error: %s"]
                (invoke (_on_error c) OnError m "Error in error callback: %s" c)
          | None => rejected
          end
        else if py_eq_str msg_type "participant_disconnected" then
          match ParticipantDisconnectedMessage.validate parsed with
          | Some m =>
              prepend [received; Log INFO "Participant disconnected: %s"]
                (invoke (_on_participant_disconnected c) OnParticipantDisconnected m
                   "Error in participant disconnected callback: %s" c)
          | None => rejected
          end
        else if py_eq_str msg_type "tts_playback_complete" then
          match TTSPlaybackCompleteMessage.validate parsed with
          | Some m =>
              prepend [received; Log DEBUG "TTS playback complete at timestamp: %d"]
                (invoke (_on_tts_playback_complete c) OnTtsPlaybackComplete m
                   "Error in TTS playback complete callback: %s" c)
          | None => rejected
          end
        else (Returns tt, c, [received; Log WARNING "Unknown message type: %s"])
    | Some _ => (Returns tt, c, [Log ERROR "Error handling message: %s"])
    end.
Proof.
  unfold _handle_text_message. cbv zeta.
  destruct c.
  repeat dispatch_case; try reflexivity.
  all: cbv.
  all: repeat first [reflexivity | callback_case; cbv].
Qed.

Lemma handle_binary_result (data : list byte) (c : SaynaClient) :
  _handle_binary_message data c
  = prepend [Log DEBUG "Received audio data: %d bytes"]
      (invoke (_on_audio c) OnAudio data "Error in audio callback: %s" c).
Proof.
  unfold _handle_binary_message, bind, emit, self, prepend.
  destruct (invoke (_on_audio c) OnAudio data "Error in audio callback: %s" c)
    as [[[[] | e] c'] evs]; reflexivity.
Qed.

(** A callback that raises only [Exception]s never makes [invoke] raise:
    the call returns, the client is untouched, and a raised exception is
    followed by its log entry. *)
Lemma invoke_contained {A : Type} (cb : option (callback A)) (wrap : A -> payload) (a : A)
    (errfmt : string) (c : SaynaClient) :
  raises_only_Exception cb ->
  exists evs,
    invoke cb wrap a errfmt c = (Returns tt, c, evs)
    /\ contained evs = true
    /\ (forall f, cb = Some f -> In (Call (wrap a) (f a)) evs).
Proof.
  intros Hcb. rewrite invoke_result.
  destruct cb as [f |].
  - destruct (f a) as [[] | e] eqn:Hfa.
    + eexists. split; [reflexivity |]. split; [reflexivity |].
      intros g Hg. injection Hg as <-. rewrite Hfa. left. reflexivity.
    + rewrite (Hcb f a e eq_refl Hfa).
      eexists. split; [reflexivity |]. split; [reflexivity |].
      intros g Hg. injection Hg as <-. rewrite Hfa. left. reflexivity.
  - exists []. split; [reflexivity |]. split; [reflexivity |]. discriminate.
Qed.

Lemma registry_ready_update (m : ReadyMessage.t) (c : SaynaClient) :
  registry (ready_update m c) = registry c.
Proof. destruct c. reflexivity. Qed.

(** The loop goes on after a frame whose handling returns. *)
Lemma async_for_next `{Pydantic} `{JsonLib} (m : WSMsg) (rest : list stream_item)
    (c c' : SaynaClient) (evs : list event) :
  loop_body m c = (Returns Next, c', evs) ->
  async_for (Msg m :: rest) c = prepend evs (async_for rest c').
Proof.
  intros Hbody. simpl. unfold bind. rewrite Hbody. reflexivity.
Qed.

Lemma task_receive_next `{Pydantic} `{JsonLib} (m : WSMsg) (c c' : SaynaClient)
    (evs : list event) :
  loop_body m c = (Returns Next, c', evs) ->
  task_receive (Msg m) c = (Returns tt, c', evs).
Proof.
  intros Hbody. unfold task_receive, try_except, bind. rewrite Hbody.
  simpl. rewrite app_nil_r. reflexivity.
Qed.

Lemma loop_body_text `{Pydantic} `{JsonLib} (data : string) (c c' : SaynaClient)
    (evs : list event) :
  _handle_text_message data c = (Returns tt, c', evs) ->
  loop_body (TEXT data) c = (Returns Next, c', evs).
Proof.
  intros Hh. unfold loop_body, bind. rewrite Hh. simpl. rewrite app_nil_r. reflexivity.
Qed.

Lemma loop_body_binary `{Pydantic} `{JsonLib} (data : list byte) (c c' : SaynaClient)
    (evs : list event) :
  _handle_binary_message data c = (Returns tt, c', evs) ->
  loop_body (BINARY data) c = (Returns Next, c', evs).
Proof.
  intros Hh. unfold loop_body, bind. rewrite Hh. simpl. rewrite app_nil_r. reflexivity.
Qed.


Lemma events_of_prepend {A : Type} (evs : list event)
    (x : outcome A * SaynaClient * list event) :
  events_of (prepend evs x) = evs ++ events_of x.
Proof. destruct x as [[r c] evs']. reflexivity. Qed.



Ltac use_invoke_contained :=
  match goal with
  | |- context [invoke ?cb ?w ?m ?fmt ?c'] =>
      let evs := fresh "evs" in
      let Hi := fresh "Hi" in
      let Hc := fresh "Hc" in
      destruct (invoke_contained cb w m fmt c') as (evs & Hi & Hc & _);
      [assumption | rewrite Hi]
  end.

(** With callbacks that raise only [Exception]s, handling a text frame
    returns; it changes the client by the assignments of a ready message
    at most. *)
Lemma handle_text_contained `{Pydantic} `{JsonLib} (data : string) (c : SaynaClient) :
  callbacks_raise_Exception c ->
  exists c' evs,
    _handle_text_message data c = (Returns tt, c', evs)
    /\ contained evs = true
    /\ registry c' = registry c.
Proof.
  intros (Hr & Hs & Hm & He & Hp & Ht & Ha).
  rewrite handle_text_result. cbv zeta.
  repeat dispatch_case;
    try use_invoke_contained;
    do 2 eexists; (split; [reflexivity |]); split;
    solve [reflexivity | assumption | apply registry_ready_update].
Qed.

Lemma handle_binary_contained (data : list byte) (c : SaynaClient) :
  callbacks_raise_Exception c ->
  exists evs,
    _handle_binary_message data c = (Returns tt, c, evs) /\ contained evs = true.
Proof.
  intros (_ & _ & _ & _ & _ & _ & Ha).
  rewrite handle_binary_result.
  use_invoke_contained.
  eexists. split; [reflexivity | assumption].
Qed.

(** ** Isolation of the callbacks *)





Lemma raising_client_callbacks : callbacks_raise_Exception raising_client.
Proof.
  repeat split; intros f a e Hf Hfa; try discriminate Hf;
    injection Hf as <-; injection Hfa as <-; reflexivity.
Qed.



(** The same run, spelled out: both callbacks raise, both exceptions are
    logged, and the loop ends normally with the stream. *)
Example raising_callbacks_run :
  @async_for strict_pydantic frames_json
    [Msg (TEXT "error frame"); Msg (BINARY []); Msg (TEXT "error frame")] raising_client
  = (Returns tt, raising_client,
     [Log DEBUG "Received: %s"; Log ERROR "Server error: %s";
      Call (OnError {| ErrorMessage.message := "boom" |})
        (Raises (OtherException "error handler failed"));
      Log ERROR "Error in error callback: %s";
      Log DEBUG "Received audio data: %d bytes";
      Call (OnAudio []) (Raises (OtherException "audio handler failed"));
      Log ERROR "Error in audio callback: %s";
      Log DEBUG "Received: %s"; Log ERROR "Server error: %s";
      Call (OnError {| ErrorMessage.message := "boom" |})
        (Raises (OtherException "error handler failed"));
      Log ERROR "Error in error callback: %s"]).
Proof. vm_compute. reflexivity. Qed.

(** A callback that raises something that is not an [Exception] is not
    caught: the exception leaves the handler and ends the task. *)
Example base_exception_ends_task :
  @task_receive strict_pydantic frames_json (Msg (BINARY []))
    (set_on_audio (Some (fun _ => Raises (OtherBaseException "SystemExit"))) raising_client)
  = (Returns tt,
     set_receive_task (Some (TaskDone (Some (OtherBaseException "SystemExit"))))
       (set_ready false (set_connected false
          (set_on_audio (Some (fun _ => Raises (OtherBaseException "SystemExit")))
             raising_client))),
     [Log DEBUG "Received audio data: %d bytes";
      Call (OnAudio []) (Raises (OtherBaseException "SystemExit"))]).
Proof. vm_compute. reflexivity. Qed.

(** ** Frames that do not decode *)


Ltac fails_on_missing Hnone :=
  rewrite Hnone;
  repeat match goal with
         | |- match ?x with Some _ => _ | None => _ end = None => destruct x
         end;
  reflexivity.

Lemma ReadyMessage_requires `{Pydantic} (d : pydict) (field : string) :
  In field ["livekit_url"] -> dict_get d field = None -> ReadyMessage.validate d = None.
Proof.
  intros [<- | []] Hnone. unfold ReadyMessage.validate, required.
  fails_on_missing Hnone.
Qed.

Lemma STTResultMessage_requires `{Pydantic} (d : pydict) (field : string) :
  In field ["transcript"; "is_final"; "is_speech_final"; "confidence"] ->
  dict_get d field = None -> STTResultMessage.validate d = None.
Proof.
  intros [<- | [<- | [<- | [<- | []]]]] Hnone; unfold STTResultMessage.validate, required;
    fails_on_missing Hnone.
Qed.

Lemma MessageMessage_requires `{Pydantic} (d : pydict) (field : string) :
  In field ["message"] -> dict_get d field = None -> MessageMessage.validate d = None.
Proof.
  intros [<- | []] Hnone. unfold MessageMessage.validate, required.
  fails_on_missing Hnone.
Qed.

Lemma ErrorMessage_requires `{Pydantic} (d : pydict) (field : string) :
  In field ["message"] -> dict_get d field = None -> ErrorMessage.validate d = None.
Proof.
  intros [<- | []] Hnone. unfold ErrorMessage.validate, required.
  fails_on_missing Hnone.
Qed.

Lemma ParticipantDisconnectedMessage_requires `{Pydantic} (d : pydict) (field : string) :
  In field ["participant"] -> dict_get d field = None ->
  ParticipantDisconnectedMessage.validate d = None.
Proof.
  intros [<- | []] Hnone. unfold ParticipantDisconnectedMessage.validate, required.
  fails_on_missing Hnone.
Qed.

Lemma TTSPlaybackCompleteMessage_requires `{Pydantic} (d : pydict) (field : string) :
  In field ["timestamp"] -> dict_get d field = None ->
  TTSPlaybackCompleteMessage.validate d = None.
Proof.
  intros [<- | []] Hnone. unfold TTSPlaybackCompleteMessage.validate, required.
  fails_on_missing Hnone.
Qed.

(** A dictionary without a required field of the class of its kind is
    rejected by that class. *)
Lemma missing_required_rejected `{Pydantic} (d : pydict) (kind field : string) :
  In field (required_fields kind) -> dict_get d field = None -> schema_rejects kind d.
Proof.
  unfold required_fields, schema_rejects. intros Hin Hnone.
  destruct (String.eqb_spec kind "ready") as [-> | _];
    [left; eauto using ReadyMessage_requires |].
  destruct (String.eqb_spec kind "stt_result") as [-> | _];
    [right; left; eauto using STTResultMessage_requires |].
  destruct (String.eqb_spec kind "message") as [-> | _];
    [do 2 right; left; eauto using MessageMessage_requires |].
  destruct (String.eqb_spec kind "error") as [-> | _];
    [do 3 right; left; eauto using ErrorMessage_requires |].
  destruct (String.eqb_spec kind "participant_disconnected") as [-> | _];
    [do 4 right; left; eauto using ParticipantDisconnectedMessage_requires |].
  destruct (String.eqb_spec kind "tts_playback_complete") as [-> | _];
    [do 5 right; eauto using TTSPlaybackCompleteMessage_requires |].
  destruct Hin.
Qed.

Lemma only_logs_one (l : level) (f : string) : only_logs [Log l f].
Proof. intros ev [<- | []]. eauto. Qed.

Lemma only_logs_two (l1 l2 : level) (f1 f2 : string) : only_logs [Log l1 f1; Log l2 f2].
Proof. intros ev [<- | [<- | []]]; eauto. Qed.

Lemma rejected_handled `{Pydantic} `{JsonLib} (data : string) (c : SaynaClient)
    (d : pydict) (kind : string) :
  json_loads data = Some (JDict d) -> dict_get d "type" = Some (JStr kind) ->
  schema_rejects kind d ->
  exists evs,
    _handle_text_message data c = (Returns tt, c, evs) /\ calls evs = [] /\ only_logs evs.
Proof.
  intros Hj Ht Hrej. rewrite handle_text_result, Hj. cbv zeta. rewrite Ht.
  destruct Hrej as [[-> Hv] | [[-> Hv] | [[-> Hv] | [[-> Hv] | [[-> Hv] | [-> Hv]]]]]];
    simpl py_eq_str; cbv iota; rewrite Hv;
    eexists; (split; [reflexivity |]);
    (split; [reflexivity | apply only_logs_two]).
Qed.

(** The handler's answer to a frame that does not decode: it returns, the
    client is the same, and it made no call but to the logger. *)
Lemma undecodable_handled `{Pydantic} `{JsonLib} (data : string) (c : SaynaClient) :
  undecodable data ->
  exists evs,
    _handle_text_message data c = (Returns tt, c, evs) /\ calls evs = [] /\ only_logs evs.
Proof.
  intros [Hj | v Hj Hv | d Hj Hk | d kind field Hj Ht Hin Hnone | d kind Hj Ht Hr].
  - rewrite handle_text_result, Hj.
    eexists. split; [reflexivity |]. split; [reflexivity | apply only_logs_one].
  - rewrite handle_text_result, Hj.
    destruct v; try (eexists; split; [reflexivity |]; split;
                     [reflexivity | apply only_logs_one]).
    exfalso. eapply Hv. reflexivity.
  - rewrite handle_text_result, Hj. cbv zeta. unfold known_kind in Hk.
    repeat match type of Hk with
           | (_ || _)%bool = false =>
               let H1 := fresh "Hk" in
               apply orb_false_elim in Hk; destruct Hk as [Hk H1]; rewrite H1
           end.
    rewrite Hk.
    eexists. split; [reflexivity |]. split; [reflexivity | apply only_logs_two].
  - apply (rejected_handled data c d kind Hj Ht).
    eapply missing_required_rejected; eassumption.
  - apply (rejected_handled data c d kind Hj Ht Hr).
Qed.

(** C6. A text frame that does not decode (malformed JSON, a value that is
    not an object, a missing required field, any other validation failure)
    or whose discriminator is not one of the six known kinds is dropped:
    the handler returns normally, the client is unchanged, no callback is
    called (the only calls are log entries), the receive task stays in its
    loop, and the loop handles the frames that follow exactly as it would
    have without the dropped frame. *)
Theorem undecodable_frame_dropped `{Pydantic} `{JsonLib} (c : SaynaClient) (data : string)
    (rest : list stream_item) :
  undecodable data ->
  exists evs,
    _handle_text_message data c = (Returns tt, c, evs)
    /\ calls evs = []
    /\ only_logs evs
    /\ task_receive (Msg (TEXT data)) c = (Returns tt, c, evs)
    /\ async_for (Msg (TEXT data) :: rest) c = prepend evs (async_for rest c).
Proof.
  intros Hbad.
  destruct (undecodable_handled data c Hbad) as (evs & Hh & Hcalls & Hlogs).
  pose proof (loop_body_text data c c evs Hh) as Hbody.
  exists evs.
  split; [exact Hh |]. split; [exact Hcalls |]. split; [exact Hlogs |].
  split; [apply task_receive_next | apply async_for_next]; exact Hbody.
Qed.

Lemma undecodable_frame_dropped_witness :
  (exists evs,
      @_handle_text_message strict_pydantic frames_json "unknown kind" raising_client
      = (Returns tt, raising_client, evs)
      /\ calls evs = []
      /\ only_logs evs
      /\ @task_receive strict_pydantic frames_json (Msg (TEXT "unknown kind")) raising_client
         = (Returns tt, raising_client, evs)
      /\ @async_for strict_pydantic frames_json
           [Msg (TEXT "unknown kind"); Msg (TEXT "error frame")] raising_client
         = prepend evs
             (@async_for strict_pydantic frames_json [Msg (TEXT "error frame")]
                raising_client))
  /\ (exists evs,
         @_handle_text_message strict_pydantic frames_json "ready without url" raising_client
         = (Returns tt, raising_client, evs)
         /\ calls evs = []
         /\ only_logs evs
         /\ @task_receive strict_pydantic frames_json (Msg (TEXT "ready without url"))
              raising_client
            = (Returns tt, raising_client, evs)
         /\ @async_for strict_pydantic frames_json
              [Msg (TEXT "ready without url")] raising_client
            = prepend evs (@async_for strict_pydantic frames_json [] raising_client))
  /\ (exists evs,
         @_handle_text_message strict_pydantic frames_json "{not json" raising_client
         = (Returns tt, raising_client, evs)
         /\ calls evs = []
         /\ only_logs evs
         /\ @task_receive strict_pydantic frames_json (Msg (TEXT "{not json")) raising_client
            = (Returns tt, raising_client, evs)
         /\ @async_for strict_pydantic frames_json [Msg (TEXT "{not json")] raising_client
            = prepend evs (@async_for strict_pydantic frames_json [] raising_client)).
Proof.
  split; [| split].
  - apply (@undecodable_frame_dropped strict_pydantic frames_json).
    apply (@unknown_kind strict_pydantic frames_json _ [("type", JStr "unknown_kind")]);
      reflexivity.
  - apply (@undecodable_frame_dropped strict_pydantic frames_json).
    apply (@missing_required strict_pydantic frames_json _ [("type", JStr "ready")]
             "ready" "livekit_url").
    + reflexivity.
    + reflexivity.
    + left. reflexivity.
    + reflexivity.
  - apply (@undecodable_frame_dropped strict_pydantic frames_json).
    apply (@malformed_json strict_pydantic frames_json). reflexivity.
Defined.

(** The loop over a dropped frame and a frame that decodes: the second one
    reaches its callback. *)
Example dropped_then_delivered :
  @async_for strict_pydantic frames_json
    [Msg (TEXT "unknown kind"); Msg (TEXT "a list"); Msg (TEXT "error frame")] raising_client
  = (Returns tt, raising_client,
     [Log DEBUG "Received: %s"; Log WARNING "Unknown message type: %s";
      Log ERROR "Error handling message: %s";
      Log DEBUG "Received: %s"; Log ERROR "Server error: %s";
      Call (OnError {| ErrorMessage.message := "boom" |})
        (Raises (OtherException "error handler failed"));
      Log ERROR "Error in error callback: %s"]).
Proof. vm_compute. reflexivity. Qed.

(** ** The client after each operation *)

Lemma client_of_prepend {A : Type} (evs : list event)
    (x : outcome A * SaynaClient * list event) :
  client_of (prepend evs x) = client_of x.
Proof. destruct x as [[r c] evs']. reflexivity. Qed.

Lemma invoke_client {A : Type} (cb : option (callback A)) (wrap : A -> payload) (a : A)
    (errfmt : string) (c : SaynaClient) :
  client_of (invoke cb wrap a errfmt c) = c.
Proof.
  rewrite invoke_result.
  destruct cb as [f |]; [| reflexivity].
  destruct (f a) as [[] | e]; [| destruct (is_Exception e)]; reflexivity.
Qed.

(** Handling a text frame leaves the client as it is, or, for a ready
    frame that validates, applies the assignments of [_handle_ready]. *)
Lemma handle_text_client `{Pydantic} `{JsonLib} (data : string) (c : SaynaClient) :
  client_of (_handle_text_message data c) = c
  \/ exists d m,
      json_loads data = Some (JDict d)
      /\ py_eq_str (dict_get d "type") "ready" = true
      /\ ReadyMessage.validate d = Some m
      /\ client_of (_handle_text_message data c) = ready_update m c.
Proof.
  rewrite handle_text_result. cbv zeta.
  destruct (json_loads data) as [[| | | | | | d] |] eqn:Hj; try (left; reflexivity).
  destruct (py_eq_str (dict_get d "type") "ready") eqn:Hk.
  - destruct (ReadyMessage.validate d) as [m |] eqn:Hv; [| left; reflexivity].
    right. exists d, m. repeat split; try assumption.
    rewrite client_of_prepend. apply invoke_client.
  - left. repeat dispatch_case; try reflexivity;
      rewrite client_of_prepend; apply invoke_client.
Qed.

Lemma handle_binary_client (data : list byte) (c : SaynaClient) :
  client_of (_handle_binary_message data c) = c.
Proof. rewrite handle_binary_result, client_of_prepend. apply invoke_client. Qed.

(** The loop's [finally] clause clears both flags, however the body
    ended. *)
Lemma receive_guard_client (body : M unit) (c : SaynaClient) :
  client_of (receive_guard body c)
  = set_ready false (set_connected false (client_of (body c))).
Proof.
  unfold receive_guard, try_finally, try_except, except_Exception.
  destruct (body c) as [[[[] | e] c1] evs]; [reflexivity |].
  destruct e; reflexivity.
Qed.

Lemma finish_client (m : M unit) (c : SaynaClient) :
  exists x, client_of (finish m c) = set_receive_task (Some (TaskDone x)) (client_of (m c)).
Proof.
  unfold finish. destruct (m c) as [[[[] | e] c1] evs]; eexists; reflexivity.
Qed.

Lemma finish_guard_client (body : M unit) (c : SaynaClient) :
  ended (client_of (body c)) (client_of (finish (receive_guard body) c)).
Proof.
  destruct (finish_client (receive_guard body) c) as (x & Hx).
  exists x. rewrite Hx, receive_guard_client. reflexivity.
Qed.

Lemma loop_body_client `{Pydantic} `{JsonLib} (m : WSMsg) (c : SaynaClient) :
  client_of (loop_body m c)
  = match m with
    | TEXT data => client_of (_handle_text_message data c)
    | _ => c
    end.
Proof.
  destruct m as [data | data | | |]; try reflexivity.
  - unfold loop_body, bind.
    destruct (_handle_text_message data c) as [[[[] | e] c1] evs]; reflexivity.
  - unfold loop_body, bind. rewrite <- (handle_binary_client data c) at 2.
    destruct (_handle_binary_message data c) as [[[[] | e] c1] evs]; reflexivity.
Qed.

(** The client after the task has received a message, by how the body of
    the loop ended. *)
Lemma task_receive_msg_client `{Pydantic} `{JsonLib} (m : WSMsg) (c : SaynaClient) :
  client_of (task_receive (Msg m) c)
  = match result_of (loop_body m c) with
    | Returns Next => client_of (loop_body m c)
    | Returns Break => client_of (finish (receive_guard (ret tt)) (client_of (loop_body m c)))
    | Raises e => client_of (finish (receive_guard (raise e)) (client_of (loop_body m c)))
    end.
Proof.
  unfold task_receive, try_except, bind.
  destruct (loop_body m c) as [[[[] | e] c1] evs]; cbn [result_of client_of fst snd].
  - reflexivity.
  - unfold finish.
    destruct (receive_guard (ret tt) c1) as [[[[] | e] c2] evs2]; reflexivity.
  - unfold finish.
    destruct (receive_guard (raise e) c1) as [[[[] | e'] c2] evs2]; reflexivity.
Qed.

(** One step of the task: the frame is handled, and then the task either
    stays in its loop or ends. *)
Lemma task_receive_client `{Pydantic} `{JsonLib} (i : stream_item) (c : SaynaClient) :
  exists c1,
    (c1 = c
     \/ exists data d m,
         i = Msg (TEXT data)
         /\ json_loads data = Some (JDict d)
         /\ py_eq_str (dict_get d "type") "ready" = true
         /\ ReadyMessage.validate d = Some m
         /\ c1 = ready_update m c)
    /\ (client_of (task_receive i c) = c1 \/ ended c1 (client_of (task_receive i c))).
Proof.
  destruct i as [m | e].
  - exists (client_of (loop_body m c)). split.
    + rewrite loop_body_client. destruct m as [data | | | |]; try (left; reflexivity).
      destruct (handle_text_client data c) as [Hsame | (d & msg & Hj & Hk & Hv & Hc)].
      * left. exact Hsame.
      * right. exists data, d, msg. auto.
    + unfold task_receive, try_except, bind.
      destruct (loop_body m c) as [[[[] | e] c1] evs].
      * left. reflexivity.
      * right. simpl.
        destruct (finish_guard_client (ret tt) c1) as (x & Hx).
        exists x. unfold client_of in *. simpl in *.
        destruct (finish (receive_guard (ret tt)) c1) as [[r c2] evs2]. exact Hx.
      * right. simpl.
        destruct (finish_guard_client (raise e) c1) as (x & Hx).
        exists x. unfold client_of in *. simpl in *.
        destruct (finish (receive_guard (raise e)) c1) as [[r c2] evs2]. exact Hx.
  - exists c. split; [left; reflexivity |].
    right. apply (finish_guard_client (raise e) c).
Qed.

(** Case analysis on a variable that decides a branch, then evaluation. *)
Ltac case_var :=
  match goal with
  | |- context [match ?x with _ => _ end] => is_var x; destruct x
  end;
  cbv.

Lemma send_client (s : send_call) (sent : outcome unit) (c : SaynaClient) :
  client_of (send s sent c) = c.
Proof.
  destruct c, s; cbv; repeat case_var; reflexivity.
Qed.

(** ** The invariant [ready => connected] *)

Lemma connect_inv (stt : option STTConfig.t) (tts : option TTSConfig.t)
    (lk : option LiveKitConfig.t) (audio : bool) (env : ConnectEnv) (c : SaynaClient) :
  session_inv c -> session_inv (client_of (connect stt tts lk audio env c)).
Proof.
  intros Hinv. destruct c, env as [wr cs].
  cbv -[ConfigMessage.model_dump_exclude_none auth_headers] in Hinv |- *.
  repeat case_var; intuition congruence.
Qed.

Lemma disconnect_inv (env : DisconnectEnv) (c : SaynaClient) :
  session_inv c -> session_inv (client_of (disconnect env c)).
Proof.
  intros Hinv. destruct c, env as [wc wr sc sr hr].
  cbv in Hinv |- *.
  repeat case_var; intuition congruence.
Qed.

Lemma ready_update_inv (m : ReadyMessage.t) (c : SaynaClient) :
  _connected c = true -> session_inv (ready_update m c).
Proof. intros Hc. destruct c. cbv in Hc |- *. subst. auto. Qed.

Lemma ended_inv (c1 c' : SaynaClient) : ended c1 c' -> session_inv c'.
Proof.
  intros (x & ->). destruct c1. cbv. split; discriminate.
Qed.

Lemma task_start_inv `{Pydantic} `{JsonLib} (c : SaynaClient) :
  session_inv c -> enabled TaskStart c = true -> session_inv (client_of (task_start c)).
Proof.
  intros Hinv Hen. unfold task_start, bind, self.
  destruct (_ws c) as [ws |].
  - destruct c. cbv in Hinv, Hen |- *.
    destruct _receive_task0 as [[| |] |]; try discriminate Hen. intuition congruence.
  - pose proof (finish_guard_client (ret tt) c) as Hend.
    apply ended_inv in Hend.
    destruct (finish (receive_guard (ret tt)) c) as [[r c'] evs]. exact Hend.
Qed.

Lemma task_receive_inv `{Pydantic} `{JsonLib} (i : stream_item) (c : SaynaClient) :
  session_inv c -> enabled (TaskReceive i) c = true ->
  session_inv (client_of (task_receive i c)).
Proof.
  intros Hinv Hen.
  assert (Hconn : _connected c = true).
  { apply Hinv. unfold enabled in Hen. unfold task_active.
    destruct (_receive_task c) as [[| |] |]; try discriminate Hen. reflexivity. }
  destruct (task_receive_client i c) as (c1 & Hc1 & [-> | Hend]).
  - destruct Hc1 as [-> | (data & d & m & _ & _ & _ & _ & ->)].
    + exact Hinv.
    + apply ready_update_inv, Hconn.
  - eapply ended_inv, Hend.
Qed.

(** Every operation that is enabled preserves the invariant. *)
Lemma step_inv `{Pydantic} `{JsonLib} (o : op) (c : SaynaClient) :
  session_inv c -> enabled o c = true -> session_inv (client_of (run o c)).
Proof.
  intros Hinv Hen.
  destruct o; simpl run;
    try (destruct c; cbv in Hinv |- *; exact Hinv).
  - apply connect_inv, Hinv.
  - apply disconnect_inv, Hinv.
  - rewrite send_client. exact Hinv.
  - apply task_start_inv; assumption.
  - apply task_receive_inv; assumption.
  - pose proof (finish_guard_client (ret tt) c) as Hend. eapply ended_inv, Hend.
Qed.

Lemma reachable_inv `{Pydantic} `{JsonLib} (c : SaynaClient) :
  reachable c -> session_inv c.
Proof.
  induction 1 as [u k | o c Hreach IH Hen].
  - split; discriminate.
  - apply step_inv; assumption.
Qed.

(** Without a [disconnect] awaited by a callback, every receive loop that
    is alive is the task the client refers to, and the world is a client
    driven by the host and by its task. *)
Lemma steps_without_callback_disconnect `{Pydantic} `{JsonLib} (tr : list step)
    (w0 w : world) :
  w_loops w0 = 0 -> reachable (w_client w0) ->
  steps tr w0 = Some w ->
  forallb no_callback_disconnect tr = true ->
  w_loops w = 0 /\ reachable (w_client w).
Proof.
  revert w0. induction tr as [| s tr IH]; intros w0 Hl Hr Hsteps Hall.
  - injection Hsteps as <-. split; assumption.
  - cbn [steps] in Hsteps. cbn [forallb] in Hall.
    apply andb_prop in Hall as [Hs Hall].
    destruct (step_enabled s w0) eqn:Hen; [| discriminate Hsteps].
    destruct s as [o | env | i |]; try discriminate Hs.
    + apply (IH (step_run (Plain o) w0)); try assumption.
      * cbn [step_run w_loops].
        assert (Hrep : replaces_live_task o (w_client w0) = false).
        { destruct o; try reflexivity. cbn [replaces_live_task].
          destruct (task_active (w_client w0)) eqn:Hact; [| reflexivity].
          rewrite (proj2 (reachable_inv _ Hr) Hact). reflexivity. }
        rewrite Hrep. exact Hl.
      * cbn [step_run w_client]. apply reachable_step; assumption.
    + cbn [step_enabled] in Hen. rewrite Hl in Hen. discriminate Hen.
    + cbn [step_enabled] in Hen. rewrite Hl in Hen. discriminate Hen.
Qed.




(** ** The fields of the ready message *)

Lemma connect_fields (stt : option STTConfig.t) (tts : option TTSConfig.t)
    (lk : option LiveKitConfig.t) (audio : bool) (env : ConnectEnv) (c : SaynaClient) :
  session_fields (client_of (connect stt tts lk audio env c)) = session_fields c.
Proof.
  destruct c, env as [wr cs].
  cbv -[ConfigMessage.model_dump_exclude_none auth_headers].
  repeat case_var; reflexivity.
Qed.

Lemma disconnect_fields (env : DisconnectEnv) (c : SaynaClient) :
  session_fields (client_of (disconnect env c)) = session_fields c.
Proof.
  destruct c, env as [wc wr sc sr hr]. cbv.
  repeat case_var; reflexivity.
Qed.

Lemma ended_fields (c1 c' : SaynaClient) :
  ended c1 c' -> session_fields c' = session_fields c1.
Proof. intros (x & ->). destruct c1. reflexivity. Qed.

Lemma ready_update_fields (m : ReadyMessage.t) (c : SaynaClient) :
  session_fields (ready_update m c)
  = (ReadyMessage.livekit_room_name m, Some (ReadyMessage.livekit_url m),
     ReadyMessage.sayna_participant_identity m, ReadyMessage.sayna_participant_name m).
Proof. destruct c. reflexivity. Qed.

Lemma disconnect_by_fields (who : caller) (env : DisconnectEnv) (c : SaynaClient) :
  session_fields (client_of (disconnect_by who env c)) = session_fields c.
Proof.
  destruct c as [? ? cws cse cconn crdy ctask ? ? ? ? ? ? ? ? ? ? ?],
           env as [wc wr sc sr hr], who; cbv;
    repeat case_var; reflexivity.
Qed.

(** An operation that is not the receipt of a ready frame that validates
    leaves the four fields as they are. *)
Lemma step_fields `{Pydantic} `{JsonLib} (o : op) (c : SaynaClient) :
  is_valid_ready_frame o = false ->
  session_fields (client_of (run o c)) = session_fields c.
Proof.
  intros Hnot.
  destruct o; simpl run; try (destruct c; reflexivity).
  - apply connect_fields.
  - apply disconnect_fields.
  - rewrite send_client. reflexivity.
  - unfold task_start, bind, self. destruct (_ws c) as [ws |].
    + destruct c. reflexivity.
    + pose proof (finish_guard_client (ret tt) c) as Hend.
      apply ended_fields in Hend.
      destruct (finish (receive_guard (ret tt)) c) as [[r c'] evs]. exact Hend.
  - destruct (task_receive_client i c) as (c1 & Hc1 & Hc').
    assert (Hsame : c1 = c).
    { destruct Hc1 as [-> | (data & d & m & -> & Hj & Hk & Hv & _)]; [reflexivity |].
      simpl in Hnot. rewrite Hj, Hk, Hv in Hnot. discriminate Hnot. }
    subst c1. destruct Hc' as [-> | Hend]; [reflexivity | apply ended_fields, Hend].
Qed.

Lemma run_all_fields `{Pydantic} `{JsonLib} (os : list op) (c c' : SaynaClient) :
  forallb (fun o => negb (is_valid_ready_frame o)) os = true ->
  run_all os c = Some c' ->
  session_fields c' = session_fields c.
Proof.
  revert c. induction os as [| o os IH]; intros c Hall Hrun; simpl in Hall, Hrun.
  - injection Hrun as <-. reflexivity.
  - apply andb_prop in Hall. destruct Hall as [Ho Hos].
    apply negb_true_iff in Ho.
    destruct (enabled o c); [| discriminate Hrun].
    rewrite (IH _ Hos Hrun). apply step_fields, Ho.
Qed.

(** The receipt of a ready frame that validates sets the four fields to
    the values of the frame. *)
Lemma ready_frame_fields `{Pydantic} `{JsonLib} (data : string) (d : pydict)
    (m : ReadyMessage.t) (c : SaynaClient) :
  json_loads data = Some (JDict d) ->
  py_eq_str (dict_get d "type") "ready" = true ->
  ReadyMessage.validate d = Some m ->
  session_fields (client_of (task_receive (Msg (TEXT data)) c))
  = (ReadyMessage.livekit_room_name m, Some (ReadyMessage.livekit_url m),
     ReadyMessage.sayna_participant_identity m, ReadyMessage.sayna_participant_name m).
Proof.
  intros Hj Hk Hv.
  assert (Hc1 : client_of (loop_body (TEXT data) c) = ready_update m c).
  { rewrite loop_body_client, handle_text_result, Hj. cbv zeta. rewrite Hk, Hv.
    rewrite client_of_prepend. apply invoke_client. }
  rewrite task_receive_msg_client, Hc1.
  destruct (result_of (loop_body (TEXT data) c)) as [[] | e].
  - apply ready_update_fields.
  - rewrite <- (ready_update_fields m c).
    apply ended_fields. exact (finish_guard_client (ret tt) (ready_update m c)).
  - rewrite <- (ready_update_fields m c).
    apply ended_fields. exact (finish_guard_client (raise e) (ready_update m c)).
Qed.

(** C5, as the code has it.  The four fields are unset in a new client and
    stay unset as long as no ready frame that validates has been received;
    the receipt of a ready frame that validates sets them to the values of
    that frame, the first time and every later time; every other operation
    ([connect], [disconnect] whoever awaits it, the sending methods, the
    registrations, any other step of the receive task, the receipt of a
    ready frame that does not validate and the end of the task included)
    leaves them as they are. *)
Theorem session_fields_lifetime `{Pydantic} `{JsonLib} :
  (forall u k, session_fields (init u k) = unset_fields)
  /\ (forall os u k c,
         forallb (fun o => negb (is_valid_ready_frame o)) os = true ->
         run_all os (init u k) = Some c ->
         session_fields c = unset_fields)
  /\ (forall data d m c,
         json_loads data = Some (JDict d) ->
         py_eq_str (dict_get d "type") "ready" = true ->
         ReadyMessage.validate d = Some m ->
         session_fields (client_of (run (TaskReceive (Msg (TEXT data))) c))
         = (ReadyMessage.livekit_room_name m, Some (ReadyMessage.livekit_url m),
            ReadyMessage.sayna_participant_identity m,
            ReadyMessage.sayna_participant_name m))
  /\ (forall o c,
         is_valid_ready_frame o = false ->
         session_fields (client_of (run o c)) = session_fields c)
  /\ (forall who env c,
         session_fields (client_of (disconnect_by who env c)) = session_fields c).
Proof.
  split; [| split; [| split; [| split]]].
  - reflexivity.
  - intros os u k c Hall Hrun. apply (run_all_fields os (init u k) c Hall Hrun).
  - intros data d m c. apply ready_frame_fields.
  - intros o c. apply step_fields.
  - apply disconnect_by_fields.
Qed.

Lemma session_fields_lifetime_witness :
  session_fields
    (client_of (@run strict_pydantic frames_json (Disconnect disconnect_ok) ready_client))
  = session_fields ready_client
  /\ session_fields
       (client_of (@run strict_pydantic frames_json
                     (TaskReceive (Msg (TEXT "ready without url"))) ready_client))
     = session_fields ready_client
  /\ session_fields
       (client_of (@run strict_pydantic frames_json
                     (TaskReceive (Msg (TEXT "ready room-2"))) ready_client))
     = (Some "room-2", Some "wss://y", None, None).
Proof.
  destruct (@session_fields_lifetime strict_pydantic frames_json)
    as (_ & _ & Hready & Hother & _).
  split; [| split].
  - apply Hother. reflexivity.
  - apply Hother. reflexivity.
  - apply (Hready "ready room-2"
             [("type", JStr "ready"); ("livekit_room_name", JStr "room-2");
              ("livekit_url", JStr "wss://y")]
             {| ReadyMessage.livekit_room_name := Some "room-2";
                ReadyMessage.livekit_url := "wss://y";
                ReadyMessage.sayna_participant_identity := None;
                ReadyMessage.sayna_participant_name := None |});
      reflexivity.
Defined.

(** C5 as stated fails: after the ready frame of room ["room-1"], neither
    [disconnect] nor the end of the receive task on a transport error
    resets the fields, and a second ready frame changes them. *)
Lemma session_fields_not_reset :
  _ready ready_client = true
  /\ session_fields ready_client = (Some "room-1", Some "wss://x", None, None)
  /\ result_of (disconnect disconnect_ok ready_client) = Returns tt
  /\ _connected (client_of (disconnect disconnect_ok ready_client)) = false
  /\ session_fields (client_of (disconnect disconnect_ok ready_client)) <> unset_fields
  /\ session_fields
       (client_of (@task_receive strict_pydantic frames_json (Msg WS_ERROR) ready_client))
     <> unset_fields
  /\ session_fields
       (client_of (@task_receive strict_pydantic frames_json
                     (Msg (TEXT "ready room-2")) ready_client))
     <> session_fields ready_client.
Proof.
  vm_compute. repeat split; discriminate.
Qed.

(** ** The cleanup of [disconnect] *)

Lemma disconnect_not_connected (env : DisconnectEnv) (c : SaynaClient) :
  _connected c = false ->
  disconnect env c = (Returns tt, c, [Log WARNING "Not connected to Sayna WebSocket"]).
Proof.
  intros Hc. unfold disconnect, disconnect_by, bind, self. simpl. rewrite Hc. reflexivity.
Qed.

(** When [disconnect] returns, every step was done. *)
Lemma disconnect_returns (env : DisconnectEnv) (c : SaynaClient) :
  _connected c = true ->
  result_of (disconnect env c) = Returns tt ->
  let c' := client_of (disconnect env c) in
  _ws c' = None /\ _session c' = None /\ _connected c' = false /\ _ready c' = false
  /\ _receive_task c' = None.
Proof.
  intros Hc. destruct c, env as [wc wr sc sr hr].
  cbn [_connected] in Hc. subst. cbv.
  repeat case_var; intros Hres; try discriminate Hres; repeat split.
Qed.

Ltac open_disconnect c env :=
  destruct c as [? ? cws cse cconn crdy ctask ? ? ? ? ? ? ? ? ? ? ?],
           env as [wc wr sc sr [[] | he]];
  simpl in *; subst.

Lemma disconnect_by_not_connected (who : caller) (env : DisconnectEnv) (c : SaynaClient) :
  _connected c = false ->
  disconnect_by who env c = (Returns tt, c, [Log WARNING "Not connected to Sayna WebSocket"]).
Proof.
  intros Hc. unfold disconnect_by, bind, self. simpl. rewrite Hc. reflexivity.
Qed.

Lemma disconnect_by_releases_http (who : caller) (env : DisconnectEnv) (c : SaynaClient) :
  _connected c = true ->
  last (events_of (disconnect_by who env c)) WsClose = HttpClose.
Proof.
  intros Hc. open_disconnect c env; destruct who; cbv; repeat case_var; reflexivity.
Qed.

(** Awaiting the task raises: nothing else is done. *)
Lemma disconnect_task_raises (who : caller) (env : DisconnectEnv) (c : SaynaClient)
    (e : PyExc) :
  _connected c = true ->
  task_failure who c = Some e ->
  disconnect_by who env c
  = (after_http_close (Raises (reraised e)) (http_close_result env), c,
     CancelTask :: failure_events e).
Proof.
  intros Hc He. open_disconnect c env;
    destruct who, ctask as [[| | [x |]] |]; try discriminate He;
    destruct x; try discriminate He; injection He as <-;
    cbv; repeat case_var; reflexivity.
Qed.

(** The close of the socket raises: the session is left as it is. *)
Lemma disconnect_socket_raises (who : caller) (env : DisconnectEnv) (c : SaynaClient)
    (e : PyExc) :
  _connected c = true ->
  task_failure who c = None ->
  close_failure (_ws c) (ws_closed env) (ws_close_result env) = Some e ->
  disconnect_by who env c
  = (after_http_close (Raises (reraised e)) (http_close_result env), task_awaited who c,
     cancel_events who c ++ [WsClose] ++ failure_events e).
Proof.
  intros Hc Ht He. open_disconnect c env;
    destruct cws as [ws |], wc, wr as [[] | e0]; try discriminate He;
    injection He as ->;
    destruct who, ctask as [[| | [x |]] |]; try discriminate Ht;
    try (destruct x; try discriminate Ht);
    destruct e; cbv; repeat case_var; reflexivity.
Qed.

(** The close of the session raises: the flags are not reset. *)
Lemma disconnect_session_raises (who : caller) (env : DisconnectEnv) (c : SaynaClient)
    (e : PyExc) :
  _connected c = true ->
  task_failure who c = None ->
  close_failure (_ws c) (ws_closed env) (ws_close_result env) = None ->
  close_failure (_session c) (session_closed env) (session_close_result env) = Some e ->
  disconnect_by who env c
  = (after_http_close (Raises (reraised e)) (http_close_result env),
     set_ws None (task_awaited who c),
     cancel_events who c ++ close_events (_ws c) (ws_closed env) WsClose
     ++ [SessionClose] ++ failure_events e).
Proof.
  intros Hc Ht Hw He. open_disconnect c env;
    destruct cse as [se |], sc, sr as [[] | e0]; try discriminate He;
    injection He as ->;
    destruct cws as [ws |], wc, wr as [[] | e0]; try discriminate Hw;
    destruct who, ctask as [[| | [x |]] |]; try discriminate Ht;
    try (destruct x; try discriminate Ht);
    destruct e; cbv; repeat case_var; reflexivity.
Qed.

(** No step raises: every step is done. *)
Lemma disconnect_all_steps (who : caller) (env : DisconnectEnv) (c : SaynaClient) :
  _connected c = true ->
  task_failure who c = None ->
  close_failure (_ws c) (ws_closed env) (ws_close_result env) = None ->
  close_failure (_session c) (session_closed env) (session_close_result env) = None ->
  disconnect_by who env c
  = (http_close_result env,
     set_ready false
       (set_connected false (set_session None (set_ws None (task_awaited who c)))),
     cancel_events who c ++ close_events (_ws c) (ws_closed env) WsClose
     ++ close_events (_session c) (session_closed env) SessionClose
     ++ [Log INFO "Disconnected from Sayna WebSocket"; HttpClose]).
Proof.
  intros Hc Ht Hw Hs. open_disconnect c env;
    destruct cse as [se |], sc, sr as [[] | e0]; try discriminate Hs;
    destruct cws as [ws |], wc, wr as [[] | e1]; try discriminate Hw;
    destruct who, ctask as [[| | [x |]] |]; try discriminate Ht;
    try (destruct x; try discriminate Ht);
    cbv; repeat case_var; reflexivity.
Qed.

Lemma disconnect_by_returns (who : caller) (env : DisconnectEnv) (c : SaynaClient) :
  _connected c = true ->
  result_of (disconnect_by who env c) = Returns tt ->
  let c' := client_of (disconnect_by who env c) in
  _ws c' = None /\ _session c' = None /\ _connected c' = false /\ _ready c' = false
  /\ _receive_task c' = None.
Proof.
  intros Hc. open_disconnect c env; destruct who; cbv;
    repeat case_var; intros Hres; try discriminate Hres; repeat split.
Qed.

(** C4, as the code has it.  On a client that is not connected,
    [disconnect] logs a warning and returns.  On a connected client the
    cleanup runs in one guarded block, in this order: the receive task is
    cancelled and awaited, the socket is closed, the session is closed,
    the two flags are reset.  The first of the three fallible steps that
    raises ends the cleanup: what the later steps would have assigned or
    called is left out, an [Exception] is logged and reaches the caller
    inside a connection error, any other exception reaches it as it is.
    [disconnect] returns only if every step was done.  The close of the
    REST helper is the last call in every case, and an exception it raises
    replaces the outcome of the block.  This holds whoever awaits
    [disconnect]. *)
Theorem disconnect_cleanup (who : caller) (env : DisconnectEnv) (c : SaynaClient) :
  (_connected c = false ->
   disconnect_by who env c
   = (Returns tt, c, [Log WARNING "Not connected to Sayna WebSocket"]))
  /\ (_connected c = true ->
      let x := disconnect_by who env c in
      let hr := http_close_result env in
      let ws_failure := close_failure (_ws c) (ws_closed env) (ws_close_result env) in
      let session_failure :=
        close_failure (_session c) (session_closed env) (session_close_result env) in
      let cancel := cancel_events who c in
      let ws_close := close_events (_ws c) (ws_closed env) WsClose in
      let session_close := close_events (_session c) (session_closed env) SessionClose in
      last (events_of x) WsClose = HttpClose
      /\ (result_of x = Returns tt ->
          _ws (client_of x) = None /\ _session (client_of x) = None
          /\ _connected (client_of x) = false /\ _ready (client_of x) = false
          /\ _receive_task (client_of x) = None)
      /\ (forall e,
             task_failure who c = Some e ->
             x = (after_http_close (Raises (reraised e)) hr, c,
                  CancelTask :: failure_events e))
      /\ (forall e,
             task_failure who c = None -> ws_failure = Some e ->
             x = (after_http_close (Raises (reraised e)) hr, task_awaited who c,
                  cancel ++ [WsClose] ++ failure_events e))
      /\ (forall e,
             task_failure who c = None -> ws_failure = None -> session_failure = Some e ->
             x = (after_http_close (Raises (reraised e)) hr,
                  set_ws None (task_awaited who c),
                  cancel ++ ws_close ++ [SessionClose] ++ failure_events e))
      /\ (task_failure who c = None -> ws_failure = None -> session_failure = None ->
          x = (hr,
               set_ready false
                 (set_connected false
                    (set_session None (set_ws None (task_awaited who c)))),
               cancel ++ ws_close ++ session_close
               ++ [Log INFO "Disconnected from Sayna WebSocket"; HttpClose]))).
Proof.
  split.
  - apply disconnect_by_not_connected.
  - intros Hc. cbv zeta.
    split; [apply disconnect_by_releases_http, Hc |].
    split; [apply disconnect_by_returns, Hc |].
    split; [intros e; apply disconnect_task_raises, Hc |].
    split; [intros e; apply disconnect_socket_raises, Hc |].
    split; [intros e; apply disconnect_session_raises, Hc |].
    apply disconnect_all_steps, Hc.
Qed.

Lemma ready_client_connected : _connected ready_client = true.
Proof. vm_compute. reflexivity. Qed.

Lemma disconnect_cleanup_witness :
  last (events_of (disconnect_by OtherTask ws_close_fails ready_client)) WsClose = HttpClose
  /\ disconnect_by OtherTask ws_close_fails ready_client
     = (after_http_close (Raises (reraised (OtherException "close failed"))) (Returns tt),
        task_awaited OtherTask ready_client,
        cancel_events OtherTask ready_client ++ [WsClose]
        ++ failure_events (OtherException "close failed"))
  /\ disconnect_by ReceiveTask disconnect_ok (init "wss://api.example.com/ws" None)
     = (Returns tt, init "wss://api.example.com/ws" None,
        [Log WARNING "Not connected to Sayna WebSocket"]).
Proof.
  destruct (disconnect_cleanup OtherTask ws_close_fails ready_client) as (_ & Hconn).
  destruct (Hconn ready_client_connected) as (Hlast & _ & _ & Hsocket & _).
  split; [exact Hlast |].
  split; [exact (Hsocket (OtherException "close failed") eq_refl eq_refl) |].
  apply (proj1 (disconnect_cleanup ReceiveTask disconnect_ok
                  (init "wss://api.example.com/ws" None))).
  reflexivity.
Defined.

(** C4 as stated fails: when the socket of the ready client fails to
    close, [disconnect] raises to its caller and skips the steps that
    follow (the session stays open, socket and session stay set); and from
    a client that is not connected the REST helper is not closed. *)
Lemma disconnect_not_best_effort :
  result_of (disconnect ws_close_fails ready_client)
  = Raises (SaynaConnectionError "Error during disconnect: " (OtherException "close failed"))
  /\ events_of (disconnect ws_close_fails ready_client)
     = [CancelTask; Log DEBUG "Receive loop cancelled"; WsClose;
        Log ERROR "Error during disconnect: %s"; HttpClose]
  /\ _ws (client_of (disconnect ws_close_fails ready_client)) = Some 1%nat
  /\ _session (client_of (disconnect ws_close_fails ready_client))
     = Some [("Authorization", "Bearer test-key")]
  /\ events_of (disconnect disconnect_ok (init "wss://api.example.com/ws" None))
     = [Log WARNING "Not connected to Sayna WebSocket"].
Proof.
  vm_compute. repeat split.
Qed.

(** ** The receive task and [_receive_loop] *)

(** The handlers do not look at the state of the task. *)
Lemma loop_body_task `{Pydantic} `{JsonLib} (t : option Task) (m : WSMsg) (c : SaynaClient) :
  loop_body m (set_receive_task t c)
  = match loop_body m c with
    | (r, c', evs) => (r, set_receive_task t c', evs)
    end.
Proof.
  destruct c, m as [data | data | | |]; try reflexivity.
  - unfold loop_body, _handle_text_message.
    repeat dispatch_case; try reflexivity.
    all: cbv.
    all: repeat first [reflexivity | callback_case; cbv].
  - cbv. repeat first [reflexivity | callback_case; cbv].
Qed.

(** One turn of [_receive_loop] and one step of the task, by how the body
    of the loop ends. *)
Lemma receive_guard_step `{Pydantic} `{JsonLib} (m : WSMsg) (rest : list stream_item)
    (c : SaynaClient) :
  receive_guard (async_for (Msg m :: rest)) c
  = match loop_body m c with
    | (Returns Next, c1, evs) => prepend evs (receive_guard (async_for rest) c1)
    | (Returns Break, c1, evs) => prepend evs (receive_guard (ret tt) c1)
    | (Raises e, c1, evs) => prepend evs (receive_guard (raise e) c1)
    end.
Proof.
  unfold receive_guard, try_finally, try_except. cbn [async_for]. unfold bind.
  destruct (loop_body m c) as [[[[] | e] c1] evs].
  - destruct (async_for rest c1) as [[[[] | e] c2] evs2]; cbn.
    + rewrite !app_nil_r. reflexivity.
    + destruct e; cbn; rewrite ?app_nil_r, ?app_assoc; reflexivity.
  - cbn. rewrite !app_nil_r. reflexivity.
  - destruct e; cbn; rewrite ?app_nil_r; reflexivity.
Qed.

Lemma task_receive_step `{Pydantic} `{JsonLib} (m : WSMsg) (c : SaynaClient) :
  task_receive (Msg m) c
  = match loop_body m c with
    | (Returns Next, c1, evs) => (Returns tt, c1, evs)
    | (Returns Break, c1, evs) => prepend evs (finish (receive_guard (ret tt)) c1)
    | (Raises e, c1, evs) => prepend evs (finish (receive_guard (raise e)) c1)
    end.
Proof.
  unfold task_receive, try_except, bind.
  destruct (loop_body m c) as [[[[] | e] c1] evs].
  - cbn. rewrite app_nil_r. reflexivity.
  - unfold finish. destruct (receive_guard (ret tt) c1) as [[[[] | e] c2] evs2]; reflexivity.
  - unfold finish. destruct (receive_guard (raise e) c1) as [[[[] | e'] c2] evs2]; reflexivity.
Qed.

(** The receive loop from a point of the stream on: the guard around the
    iteration that remains. *)
Lemma task_feed_guard `{Pydantic} `{JsonLib} (s : list stream_item) (c : SaynaClient) :
  task_feed s (set_receive_task (Some TaskRunning) c)
  = (Returns tt,
     set_receive_task
       (Some (TaskDone (how_ended (result_of (receive_guard (async_for s) c)))))
       (client_of (receive_guard (async_for s) c)),
     events_of (receive_guard (async_for s) c)).
Proof.
  revert c. induction s as [| [m | e] rest IH]; intros c.
  - destruct c. reflexivity.
  - cbn [task_feed]. unfold bind at 1.
    rewrite task_receive_step, receive_guard_step, loop_body_task.
    destruct (loop_body m c) as [[[[] | e] c1] evs].
    + unfold bind, self.
      replace (_receive_task (set_receive_task (Some TaskRunning) c1)) with (Some TaskRunning)
        by (destruct c1; reflexivity).
      rewrite IH.
      destruct (receive_guard (async_for rest) c1) as [[r c2] evs2]. reflexivity.
    + destruct c1. cbv -[app]. rewrite <- ?app_assoc, ?app_nil_r. reflexivity.
    + destruct c1, e; cbv -[app]; rewrite <- ?app_assoc, ?app_nil_r; reflexivity.
  - destruct c, e; cbv; reflexivity.
Qed.

(** The steps of the receive task, taken together, are [_receive_loop]:
    same calls, same client but for the state of the task, which records
    how the loop ended. *)
Lemma task_run_receive_loop `{Pydantic} `{JsonLib} (s : list stream_item) (c : SaynaClient) :
  task_run s c
  = (Returns tt,
     set_receive_task (Some (TaskDone (how_ended (result_of (_receive_loop s c)))))
       (client_of (_receive_loop s c)),
     events_of (_receive_loop s c)).
Proof.
  unfold task_run, task_start, _receive_loop.
  unfold bind at 1 2 3. cbn [self].
  destruct (_ws c) as [ws |] eqn:Hws.
  - cbn [assign].
    replace (_receive_task (set_receive_task (Some TaskRunning) c)) with (Some TaskRunning)
      by (destruct c; reflexivity).
    rewrite task_feed_guard. cbn [app].
    replace (receive_guard
               (c0 <- self;; match _ws c0 with
                             | Some _ => async_for s
                             | None => ret tt
                             end) c)
      with (receive_guard (async_for s) c); [reflexivity |].
    unfold receive_guard, try_finally, try_except, bind at 2, self. rewrite Hws.
    destruct (async_for s c) as [[r c1] evs]. cbn [app]. reflexivity.
  - destruct c. cbn [_ws] in Hws. subst. reflexivity.
Qed.

(** A configuration message whose [audio] is unset is written without the
    key and reads back with the default of the class. *)
Example config_unset_audio_reads_default :
  let m := {| ConfigMessage.audio := None; ConfigMessage.stt_config := None;
              ConfigMessage.tts_config := None; ConfigMessage.livekit := None |} in
  ConfigMessage.model_dump_exclude_none m = [("type", JStr "config")]
  /\ @ConfigMessage.validate strict_pydantic (ConfigMessage.model_dump_exclude_none m)
     = Some {| ConfigMessage.audio := Some true; ConfigMessage.stt_config := None;
               ConfigMessage.tts_config := None; ConfigMessage.livekit := None |}.
Proof. split; reflexivity. Qed.

(** * Further properties *)

(** ** A stronger invariant of the session *)

(** Closes a goal about the flags of a client spelled out field by
    field. *)
Ltac use_flags :=
  repeat match goal with
         | H : _ /\ _ |- _ => destruct H
         | H : ?a = ?a -> _ |- _ => specialize (H eq_refl)
         end.

Ltac split_flags :=
  repeat match goal with
         | H : context [match ?x with _ => _ end] |- _ => is_var x; destruct x
         | H : ?b = true -> _ |- _ => is_var b; destruct b
         end.

Ltac flags :=
  first [ solve [repeat split; intros; use_flags; try discriminate; try congruence; auto]
        | solve [use_flags; split_flags; cbv in *; use_flags;
                 repeat split; intros; use_flags; try discriminate; try congruence; auto] ].

Lemma connect_wf (stt : option STTConfig.t) (tts : option TTSConfig.t)
    (lk : option LiveKitConfig.t) (audio : bool) (env : ConnectEnv) (c : SaynaClient) :
  session_wf c -> session_wf (client_of (connect stt tts lk audio env c)).
Proof.
  intros Hwf. destruct c, env as [wr cs].
  cbv -[ConfigMessage.model_dump_exclude_none auth_headers] in Hwf |- *.
  repeat case_var; flags.
Qed.

Lemma disconnect_wf (env : DisconnectEnv) (c : SaynaClient) :
  session_wf c -> session_wf (client_of (disconnect env c)).
Proof.
  intros Hwf. destruct c, env as [wc wr sc sr hr].
  cbv in Hwf |- *.
  repeat case_var; flags.
Qed.

Lemma ready_update_wf (m : ReadyMessage.t) (c : SaynaClient) :
  _receive_task c = Some TaskRunning -> session_wf c -> session_wf (ready_update m c).
Proof.
  intros Htask Hwf. destruct c. cbv in Htask, Hwf |- *. subst.
  destruct Hwf as [_ Hactive]. split; auto.
Qed.

Lemma ended_wf (c1 c' : SaynaClient) : ended c1 c' -> session_wf c'.
Proof.
  intros (x & ->). destruct c1. cbv. split; discriminate.
Qed.

Lemma task_start_wf `{Pydantic} `{JsonLib} (c : SaynaClient) :
  session_wf c -> enabled TaskStart c = true -> session_wf (client_of (task_start c)).
Proof.
  intros Hwf Hen. unfold task_start, bind, self.
  destruct (_ws c) as [ws |] eqn:Hws.
  - destruct c. cbv in Hwf, Hen, Hws |- *.
    destruct _receive_task0 as [[| |] |]; try discriminate Hen.
    destruct Hwf as [Hready Hactive]. destruct (Hactive eq_refl) as (Hc & _ & Hs).
    subst. repeat split; auto; discriminate.
  - pose proof (finish_guard_client (ret tt) c) as Hend.
    apply ended_wf in Hend.
    destruct (finish (receive_guard (ret tt)) c) as [[r c'] evs]. exact Hend.
Qed.

Lemma task_receive_wf `{Pydantic} `{JsonLib} (i : stream_item) (c : SaynaClient) :
  session_wf c -> enabled (TaskReceive i) c = true ->
  session_wf (client_of (task_receive i c)).
Proof.
  intros Hwf Hen.
  assert (Htask : _receive_task c = Some TaskRunning).
  { unfold enabled in Hen.
    destruct (_receive_task c) as [[| |] |]; try discriminate Hen. reflexivity. }
  destruct (task_receive_client i c) as (c1 & Hc1 & [-> | Hend]).
  - destruct Hc1 as [-> | (data & d & m & _ & _ & _ & _ & ->)].
    + exact Hwf.
    + apply ready_update_wf; assumption.
  - eapply ended_wf, Hend.
Qed.

Lemma step_wf `{Pydantic} `{JsonLib} (o : op) (c : SaynaClient) :
  session_wf c -> enabled o c = true -> session_wf (client_of (run o c)).
Proof.
  intros Hwf Hen.
  destruct o; simpl run;
    try (destruct c; cbv in Hwf |- *; exact Hwf).
  - apply connect_wf, Hwf.
  - apply disconnect_wf, Hwf.
  - rewrite send_client. exact Hwf.
  - apply task_start_wf; assumption.
  - apply task_receive_wf; assumption.
  - pose proof (finish_guard_client (ret tt) c) as Hend. eapply ended_wf, Hend.
Qed.

Lemma reachable_wf `{Pydantic} `{JsonLib} (c : SaynaClient) :
  reachable c -> session_wf c.
Proof.
  induction 1 as [u k | o c Hreach IH Hen].
  - split; discriminate.
  - apply step_wf; assumption.
Qed.

(** X1. In every state the client reaches from its creation through any
    sequence of steps none of which is a [disconnect] awaited by a
    callback of the receive task, a ready client is connected, its receive
    task is in its loop, and it holds a socket and a session. *)
Theorem ready_client_is_live `{Pydantic} `{JsonLib} (tr : list step) (u : string)
    (k : option string) (w : world) :
  steps tr (new_world u k) = Some w ->
  forallb no_callback_disconnect tr = true ->
  _ready (w_client w) = true ->
  _connected (w_client w) = true
  /\ _receive_task (w_client w) = Some TaskRunning
  /\ (exists ws, _ws (w_client w) = Some ws)
  /\ (exists session, _session (w_client w) = Some session)
  /\ w_loops w = 0.
Proof.
  intros Hsteps Hall Hready.
  destruct (steps_without_callback_disconnect tr (new_world u k) w eq_refl
              (reachable_init u k) Hsteps Hall) as [Hl Hreach].
  destruct (reachable_wf _ Hreach) as [Hr Hactive].
  pose proof (Hr Hready) as Htask.
  assert (Hact : task_active (w_client w) = true)
    by (unfold task_active; rewrite Htask; reflexivity).
  destruct (Hactive Hact) as (Hc & Hws & Hs).
  split; [exact Hc |]. split; [exact Htask |].
  split; [destruct (_ws (w_client w)) as [ws |]; [exists ws; reflexivity | contradiction] |].
  split; [destruct (_session (w_client w)) as [se |];
          [exists se; reflexivity | contradiction] |].
  exact Hl.
Qed.

Lemma ready_client_is_live_witness :
  _connected (w_client {| w_client := ready_client; w_loops := 0 |}) = true
  /\ _receive_task (w_client {| w_client := ready_client; w_loops := 0 |})
     = Some TaskRunning
  /\ (exists ws, _ws (w_client {| w_client := ready_client; w_loops := 0 |}) = Some ws)
  /\ (exists session,
         _session (w_client {| w_client := ready_client; w_loops := 0 |}) = Some session)
  /\ w_loops {| w_client := ready_client; w_loops := 0 |} = 0.
Proof.
  apply (@ready_client_is_live strict_pydantic frames_json
           [Plain (Connect (Some STT_CONFIG) (Some TTS_CONFIG) None true connect_ok);
            Plain TaskStart; Plain (TaskReceive (Msg (TEXT "ready room-1")))]
           "wss://api.example.com/ws" (Some "test-key")).
  - vm_compute. reflexivity.
  - reflexivity.
  - vm_compute. reflexivity.
Defined.

(** ** Sending from a ready client *)

(** X2. On a client that is connected and ready and holds a socket, each
    sending method hands exactly one frame to the socket: the dump of its
    message, or the audio bytes as they are.  The method ends as the write
    does, and the client is unchanged.  On a client that is connected and
    ready but holds no socket, the method returns and nothing is
    written. *)
Theorem send_when_ready_writes_frame (c : SaynaClient) (s : send_call)
    (sent : outcome unit) :
  _connected c = true -> _ready c = true ->
  (forall ws,
      _ws c = Some ws ->
      outbound (events_of (send s sent c)) = [frame_of s]
      /\ client_of (send s sent c) = c
      /\ result_of (send s sent c) = sent)
  /\ (_ws c = None -> send s sent c = (Returns tt, c, [])).
Proof.
  intros Hc Hready.
  destruct c as [? ? cws cse cconn crdy ctask ? ? ? ? ? ? ? ? ? ? ?].
  simpl in Hc, Hready. subst. split.
  - intros ws Hws. simpl in Hws. subst.
    destruct s, sent as [[] | e]; repeat split.
  - intros Hws. simpl in Hws. subst. destruct s; reflexivity.
Qed.

Lemma send_when_ready_writes_frame_witness :
  (forall ws,
      _ws ready_client = Some ws ->
      outbound (events_of (send (SendMessage "hello" "user" "messages" None) (Returns tt)
                             ready_client))
      = [frame_of (SendMessage "hello" "user" "messages" None)]
      /\ client_of (send (SendMessage "hello" "user" "messages" None) (Returns tt)
                      ready_client)
         = ready_client
      /\ result_of (send (SendMessage "hello" "user" "messages" None) (Returns tt)
                      ready_client)
         = Returns tt)
  /\ (_ws ready_client = None ->
      send (SendMessage "hello" "user" "messages" None) (Returns tt) ready_client
      = (Returns tt, ready_client, [])).
Proof.
  apply (send_when_ready_writes_frame ready_client); vm_compute; reflexivity.
Defined.

(** X3. On a client that is connected and ready and holds a socket, an
    exception raised by the socket while writing the frame reaches the
    caller of the sending method as it is (it is neither caught nor
    wrapped); nothing is logged after the write and the client is
    unchanged. *)
Theorem send_failure_propagates (c : SaynaClient) (s : send_call) (e : PyExc)
    (ws : ClientWebSocketResponse) :
  _connected c = true -> _ready c = true -> _ws c = Some ws ->
  send s (Raises e) c = (Raises e, c, [frame_of s]).
Proof.
  intros Hc Hready Hws.
  destruct c as [? ? cws cse cconn crdy ctask ? ? ? ? ? ? ? ? ? ? ?].
  simpl in Hc, Hready, Hws. subst.
  destruct s; reflexivity.
Qed.

Lemma send_failure_propagates_witness :
  send (SendAudio []) (Raises (OtherException "ConnectionResetError")) ready_client
  = (Raises (OtherException "ConnectionResetError"), ready_client, [SendBytes []]).
Proof.
  apply (send_failure_propagates ready_client (SendAudio [])
           (OtherException "ConnectionResetError") 1%nat);
    vm_compute; reflexivity.
Defined.

(** ** The paths of [connect] *)

(** X4. On a client that is not connected, with a bundle that passes the
    check and a transport that accepts the connection and the write,
    [connect] returns after these calls, in this order: the session is
    created (with an [Authorization] header exactly when the API key is
    set and not empty), the socket is opened on the client's URL, one
    frame is written, the receive task is created.  The frame is the
    configuration message and reads back as the bundle.  Afterwards the
    client is connected, holds the socket and the session, its receive
    task has not run yet, and its other attributes are as before. *)
Theorem connect_opens_session `{Pydantic} (c : SaynaClient) (stt : option STTConfig.t)
    (tts : option TTSConfig.t) (lk : option LiveKitConfig.t) (audio : bool)
    (ws : ClientWebSocketResponse) :
  _connected c = false -> bundle_ok stt tts audio = true ->
  let env := {| ws_connect_result := Returns ws; config_sent := Returns tt |} in
  let config :=
    ConfigMessage.model_dump_exclude_none
      {| ConfigMessage.audio := Some audio; ConfigMessage.stt_config := stt;
         ConfigMessage.tts_config := tts; ConfigMessage.livekit := lk |} in
  connect stt tts lk audio env c
  = (Returns tt,
     set_receive_task (Some TaskPending)
       (set_connected true
          (set_ws (Some ws) (set_session (Some (auth_headers (api_key c))) c))),
     [NewSession (auth_headers (api_key c)); WsConnect (url c);
      Log INFO "Connected to Sayna WebSocket: %s";
      SendJson config; Log DEBUG "Sent: %s"; CreateTask])
  /\ (auth_headers (api_key c) = [] <-> api_key c = None \/ api_key c = Some "")
  /\ exists m,
      ConfigMessage.validate config = Some m
      /\ ConfigMessage.audio m = Some audio
      /\ ConfigMessage.stt_config m = stt
      /\ ConfigMessage.tts_config m = tts
      /\ (lk = None -> ConfigMessage.livekit m = None)
      /\ (forall l, lk = Some l ->
          exists l', ConfigMessage.livekit m = Some l' /\ LiveKitConfig_kept l l').
Proof.
  intros Hc Hok env config. split; [| split].
  - unfold bundle_ok in Hok. apply negb_true_iff in Hok.
    destruct c. cbn [_connected] in Hc. subst.
    unfold connect, bind at 1, self. cbn [_connected].
    rewrite Hok. reflexivity.
  - destruct (api_key c) as [[| a k] |]; cbn; split; intros Hh;
      try discriminate Hh; auto;
      destruct Hh as [Hh | Hh]; discriminate Hh.
  - destruct (ConfigMessage_roundtrip
                {| ConfigMessage.audio := Some audio; ConfigMessage.stt_config := stt;
                   ConfigMessage.tts_config := tts; ConfigMessage.livekit := lk |})
      as (m & Hm & Ha & Hs & Ht & Hl).
    exists m. split; [exact Hm |].
    cbn [ConfigMessage.audio ConfigMessage.stt_config ConfigMessage.tts_config
         ConfigMessage.livekit] in Ha, Hs, Ht, Hl.
    split; [apply Ha; reflexivity |].
    assert (Hexact : ConfigMessage.stt_config m = stt /\ ConfigMessage.tts_config m = tts
                     /\ (lk = None -> ConfigMessage.livekit m = None)).
    { clear Ha Hs Ht Hl. subst config.
      destruct stt as [s |], tts as [t |], lk as [l |];
        try (destruct (LiveKitConfig_roundtrip l) as (l' & Hl' & _));
        unfold ConfigMessage.validate, ConfigMessage.model_dump_exclude_none, optional,
          literal in Hm;
        cbn [dump_opt app dict_get String.eqb Ascii.eqb Bool.eqb model_validate option_map
             ConfigMessage.audio ConfigMessage.stt_config ConfigMessage.tts_config
             ConfigMessage.livekit] in Hm;
        rewrite ?bool_validate_bool, ?STTConfig_roundtrip, ?TTSConfig_roundtrip, ?Hl' in Hm;
        cbn [option_map] in Hm; injection Hm as <-;
        repeat split; intros; try discriminate; reflexivity. }
    destruct Hexact as (Hs' & Ht' & Hl').
    repeat (split; [assumption |]). exact Hl.
Qed.

Lemma connect_opens_session_witness :
  exists m,
    @ConfigMessage.validate strict_pydantic
      (ConfigMessage.model_dump_exclude_none
         {| ConfigMessage.audio := Some false; ConfigMessage.stt_config := None;
            ConfigMessage.tts_config := None; ConfigMessage.livekit := None |})
    = Some m
    /\ ConfigMessage.audio m = Some false.
Proof.
  destruct (@connect_opens_session strict_pydantic
              (init "wss://api.example.com/ws" (Some "test-key")) None None None false
              1%nat eq_refl eq_refl) as (_ & _ & m & Hm & Ha & _).
  exists m. split; assumption.
Defined.

(** X5. On a client that is not connected, with a bundle that passes the
    check, an [Exception] raised by the transport, while opening the
    socket or while writing the configuration frame, reaches the caller as
    a connection error that carries it, worded by whether it is an aiohttp
    client error.  The client is left not connected and no receive task is
    created; the session that was created is kept and is not closed. *)
Theorem connect_failure_wrapped (c : SaynaClient) (stt : option STTConfig.t)
    (tts : option TTSConfig.t) (lk : option LiveKitConfig.t) (audio : bool)
    (env : ConnectEnv) (e : PyExc) :
  _connected c = false -> bundle_ok stt tts audio = true ->
  is_Exception e = true ->
  ws_connect_result env = Raises e
  \/ (exists ws, ws_connect_result env = Returns ws) /\ config_sent env = Raises e ->
  let x := connect stt tts lk audio env c in
  result_of x
  = Raises (SaynaConnectionError
              (if is_ClientError e then "Failed to connect to WebSocket: "
               else "Unexpected error during connection: ") e)
  /\ _connected (client_of x) = false
  /\ _receive_task (client_of x) = _receive_task c
  /\ ~ In CreateTask (events_of x)
  /\ _session (client_of x) = Some (auth_headers (api_key c))
  /\ ~ In SessionClose (events_of x) /\ ~ In WsClose (events_of x).
Proof.
  intros Hc Hok He Hfail x. subst x.
  unfold bundle_ok in Hok. apply negb_true_iff in Hok.
  destruct c, env as [wr cs]. cbn [_connected ws_connect_result config_sent] in Hc, Hfail.
  subst. unfold connect, bind at 1, self. cbn [_connected]. rewrite Hok.
  cbn [api_key _receive_task].
  destruct Hfail as [-> | [[ws ->] ->]];
    destruct e; try discriminate He;
    cbv -[ConfigMessage.model_dump_exclude_none auth_headers];
    repeat split; try reflexivity; intuition discriminate.
Qed.

Lemma connect_failure_wrapped_witness :
  let x :=
    connect (Some STT_CONFIG) (Some TTS_CONFIG) None true
      {| ws_connect_result := Raises (ClientError "refused"); config_sent := Returns tt |}
      (init "wss://api.example.com/ws" None) in
  result_of x
  = Raises (SaynaConnectionError "Failed to connect to WebSocket: " (ClientError "refused"))
  /\ _connected (client_of x) = false.
Proof.
  destruct (connect_failure_wrapped (init "wss://api.example.com/ws" None)
              (Some STT_CONFIG) (Some TTS_CONFIG) None true
              {| ws_connect_result := Raises (ClientError "refused");
                 config_sent := Returns tt |}
              (ClientError "refused") eq_refl eq_refl eq_refl (or_introl eq_refl))
    as (Hres & Hconn & _).
  split; assumption.
Defined.

(** X6. An exception that is not an [Exception] (a cancellation, for one)
    raised while writing the configuration frame reaches the caller as it
    is, and leaves the client marked connected, with its socket, but with
    no receive task created: no frame will be read, and a later [connect]
    finds the client connected and does nothing. *)
Theorem connect_interrupted (c : SaynaClient) (stt : option STTConfig.t)
    (tts : option TTSConfig.t) (lk : option LiveKitConfig.t) (audio : bool)
    (ws : ClientWebSocketResponse) (e : PyExc) (env' : ConnectEnv) :
  _connected c = false -> bundle_ok stt tts audio = true ->
  is_Exception e = false ->
  let x :=
    connect stt tts lk audio {| ws_connect_result := Returns ws; config_sent := Raises e |} c
  in
  result_of x = Raises e
  /\ _connected (client_of x) = true
  /\ _ws (client_of x) = Some ws
  /\ _receive_task (client_of x) = _receive_task c
  /\ ~ In CreateTask (events_of x)
  /\ connect stt tts lk audio env' (client_of x)
     = (Returns tt, client_of x, [Log WARNING "Already connected to Sayna WebSocket"]).
Proof.
  intros Hc Hok He x.
  unfold bundle_ok in Hok. apply negb_true_iff in Hok.
  assert (Hx : x = (Raises e,
                    set_connected true
                      (set_ws (Some ws) (set_session (Some (auth_headers (api_key c))) c)),
                    [NewSession (auth_headers (api_key c)); WsConnect (url c);
                     Log INFO "Connected to Sayna WebSocket: %s";
                     SendJson
                       (ConfigMessage.model_dump_exclude_none
                          {| ConfigMessage.audio := Some audio;
                             ConfigMessage.stt_config := stt;
                             ConfigMessage.tts_config := tts;
                             ConfigMessage.livekit := lk |})])).
  { subst x. destruct c. cbn [_connected] in Hc. subst.
    unfold connect, bind at 1, self. cbn [_connected]. rewrite Hok.
    destruct e; try discriminate He; reflexivity. }
  rewrite Hx. cbn [result_of client_of events_of fst snd].
  split; [reflexivity |].
  split; [destruct c; reflexivity |].
  split; [destruct c; reflexivity |].
  split; [destruct c; reflexivity |].
  split; [cbn; intuition discriminate |].
  destruct c. unfold connect, bind, self. reflexivity.
Qed.

Lemma connect_interrupted_witness :
  let x :=
    connect (Some STT_CONFIG) (Some TTS_CONFIG) None true
      {| ws_connect_result := Returns 1%nat; config_sent := Raises CancelledError |}
      (init "wss://api.example.com/ws" None) in
  result_of x = Raises CancelledError /\ _connected (client_of x) = true.
Proof.
  destruct (connect_interrupted (init "wss://api.example.com/ws" None)
              (Some STT_CONFIG) (Some TTS_CONFIG) None true 1%nat CancelledError connect_ok
              eq_refl eq_refl eq_refl)
    as (Hres & Hconn & _).
  split; assumption.
Defined.

Lemma connect_ready (stt : option STTConfig.t) (tts : option TTSConfig.t)
    (lk : option LiveKitConfig.t) (audio : bool) (env : ConnectEnv) (c : SaynaClient) :
  _ready (client_of (connect stt tts lk audio env c)) = _ready c.
Proof.
  destruct c, env as [wr cs].
  cbv -[ConfigMessage.model_dump_exclude_none auth_headers].
  repeat case_var; reflexivity.
Qed.

Lemma connect_returns_pending (stt : option STTConfig.t) (tts : option TTSConfig.t)
    (lk : option LiveKitConfig.t) (audio : bool) (env : ConnectEnv) (c : SaynaClient) :
  _connected c = false ->
  result_of (connect stt tts lk audio env c) = Returns tt ->
  _receive_task (client_of (connect stt tts lk audio env c)) = Some TaskPending.
Proof.
  intros Hc. destruct c, env as [wr cs]. cbn [_connected] in Hc. subst.
  cbv -[ConfigMessage.model_dump_exclude_none auth_headers].
  repeat case_var; intros Hres; try discriminate Hres; reflexivity.
Qed.

(** X7. [connect] never assigns [_ready]: the client is as ready when
    [connect] ends as it was before.  When [connect] returns on a client
    that was not connected, the receive task has been created but has not
    run, so no frame has been handled: on a new client, reading [ready]
    right after [connect], as [create_sayna_session] of the example server
    does, gives false. *)
Theorem connect_leaves_not_ready (c : SaynaClient)
    (stt : option STTConfig.t) (tts : option TTSConfig.t) (lk : option LiveKitConfig.t)
    (audio : bool) (env : ConnectEnv) :
  _ready (client_of (connect stt tts lk audio env c)) = _ready c
  /\ (_connected c = false ->
      result_of (connect stt tts lk audio env c) = Returns tt ->
      _receive_task (client_of (connect stt tts lk audio env c)) = Some TaskPending)
  /\ (forall u k, _ready (client_of (connect stt tts lk audio env (init u k))) = false).
Proof.
  split; [apply connect_ready |].
  split; [apply connect_returns_pending |].
  intros u k. rewrite connect_ready. reflexivity.
Qed.

(** ** The paths of [disconnect] *)

(** X8. On a connected client, whoever awaits [disconnect] (the host, or
    a callback inside the receive task), when awaiting the task raises
    nothing and the close calls succeed, [disconnect] makes these calls, in
    this order: the cancellation of the receive task if there is one, the
    close of the socket, the close of the session, the close of the REST
    helper.  The socket and the session are closed only if they are set
    and do not report themselves closed.  A running loop logs its
    cancellation only when another task cancels it: cancelled by its own
    callback it logs nothing, because it is not left.  The client ends
    with no socket, no session and no task, neither connected nor ready,
    and [disconnect] returns what the close of the REST helper returns or
    raises. *)
Theorem disconnect_success (who : caller) (env : DisconnectEnv) (c : SaynaClient) :
  _connected c = true -> task_failure who c = None ->
  ws_close_result env = Returns tt -> session_close_result env = Returns tt ->
  disconnect_by who env c
  = (http_close_result env,
     set_ready false
       (set_connected false
          (set_session None (set_ws None (set_receive_task None c)))),
     cancel_events who c
     ++ close_events (_ws c) (ws_closed env) WsClose
     ++ close_events (_session c) (session_closed env) SessionClose
     ++ [Log INFO "Disconnected from Sayna WebSocket"; HttpClose]).
Proof.
  intros Hc Htask Hwr Hsr. destruct c, env as [wc wr sc sr hr].
  cbn [_connected _receive_task ws_close_result session_close_result] in Hc, Htask, Hwr, Hsr.
  subst.
  destruct who, hr as [[] | he], _receive_task0 as [[| | [[] |]] |];
    try discriminate Htask;
    cbv; repeat case_var; reflexivity.
Qed.

Lemma disconnect_success_witness :
  disconnect_by OtherTask disconnect_ok ready_client
  = (Returns tt,
     set_ready false
       (set_connected false
          (set_session None (set_ws None (set_receive_task None ready_client)))),
     [CancelTask; Log DEBUG "Receive loop cancelled"; WsClose; SessionClose;
      Log INFO "Disconnected from Sayna WebSocket"; HttpClose])
  /\ disconnect_by ReceiveTask disconnect_ok ready_client
     = (Returns tt,
        set_ready false
          (set_connected false
             (set_session None (set_ws None (set_receive_task None ready_client)))),
        [CancelTask; WsClose; SessionClose;
         Log INFO "Disconnected from Sayna WebSocket"; HttpClose]).
Proof.
  split.
  - apply (disconnect_success OtherTask disconnect_ok ready_client); vm_compute; reflexivity.
  - apply (disconnect_success ReceiveTask disconnect_ok ready_client); vm_compute; reflexivity.
Defined.

(** X9. After a [disconnect] that returned, from any state, the client is
    not connected: a further [disconnect] only logs a warning, makes no
    close call and changes nothing, and every sending method raises the
    not-connected error. *)
Theorem disconnect_then_idle (env env' : DisconnectEnv) (c : SaynaClient) (s : send_call)
    (sent : outcome unit) :
  result_of (disconnect env c) = Returns tt ->
  let c' := client_of (disconnect env c) in
  disconnect env' c' = (Returns tt, c', [Log WARNING "Not connected to Sayna WebSocket"])
  /\ send s sent c' = (Raises SaynaNotConnectedError, c', []).
Proof.
  intros Hres c'.
  assert (Hc' : _connected c' = false).
  { subst c'. destruct (_connected c) eqn:Hc.
    - apply (disconnect_returns env c Hc Hres).
    - rewrite (disconnect_not_connected env c Hc). exact Hc. }
  split.
  - apply disconnect_not_connected, Hc'.
  - apply send_check_fails, check_ready_not_connected, Hc'.
Qed.

Lemma disconnect_then_idle_witness :
  let c' := client_of (disconnect disconnect_ok ready_client) in
  disconnect disconnect_ok c'
  = (Returns tt, c', [Log WARNING "Not connected to Sayna WebSocket"])
  /\ send SendClear (Returns tt) c' = (Raises SaynaNotConnectedError, c', []).
Proof.
  apply (disconnect_then_idle disconnect_ok disconnect_ok ready_client).
  vm_compute. reflexivity.
Defined.

(** X10. On a connected client, an exception raised by the close of the
    REST helper is what [disconnect] raises, whatever the cleanup steps
    did: it replaces their exception, and it is raised even when they all
    succeeded. *)
Theorem http_close_failure_masks (env : DisconnectEnv) (c : SaynaClient) (e : PyExc) :
  _connected c = true -> http_close_result env = Raises e ->
  result_of (disconnect env c) = Raises e.
Proof.
  intros Hc Hhr. destruct c, env as [wc wr sc sr hr].
  cbn [_connected http_close_result] in Hc, Hhr. subst. cbv.
  repeat case_var; reflexivity.
Qed.

Lemma http_close_failure_masks_witness :
  result_of (disconnect
               {| ws_closed := false; ws_close_result := Raises (OtherException "close failed");
                  session_closed := false; session_close_result := Returns tt;
                  http_close_result := Raises (OtherException "http close failed") |}
               ready_client)
  = Raises (OtherException "http close failed").
Proof.
  apply http_close_failure_masks.
  - vm_compute. reflexivity.
  - reflexivity.
Defined.

(** ** The receive loop as a whole *)

Lemma same_transport_refl (c : SaynaClient) : same_transport c c.
Proof. repeat split. Qed.

Lemma same_transport_trans (a b c : SaynaClient) :
  same_transport a b -> same_transport b c -> same_transport a c.
Proof.
  unfold same_transport. intros (H1 & H2 & H3 & H4 & H5 & H6 & H7)
                                (G1 & G2 & G3 & G4 & G5 & G6 & G7).
  repeat split; congruence.
Qed.

Lemma ready_update_transport (m : ReadyMessage.t) (c : SaynaClient) :
  same_transport c (ready_update m c).
Proof. destruct c. repeat split. Qed.

Lemma loop_body_transport `{Pydantic} `{JsonLib} (m : WSMsg) (c : SaynaClient) :
  same_transport c (client_of (loop_body m c)).
Proof.
  rewrite loop_body_client. destruct m as [data | | | |]; try apply same_transport_refl.
  destruct (handle_text_client data c) as [-> | (d & msg & _ & _ & _ & ->)].
  - apply same_transport_refl.
  - apply ready_update_transport.
Qed.

(** The handlers of the loop assign nothing but the ready flag and the
    four fields of the ready message. *)
Lemma async_for_transport `{Pydantic} `{JsonLib} (s : list stream_item) (c : SaynaClient) :
  same_transport c (client_of (async_for s c)).
Proof.
  revert c. induction s as [| [m | e] rest IH]; intros c.
  - apply same_transport_refl.
  - pose proof (loop_body_transport m c) as Hm.
    cbn [async_for]. unfold bind.
    destruct (loop_body m c) as [[[[] | e] c1] evs]; cbn [client_of fst snd] in Hm |- *.
    + specialize (IH c1).
      destruct (async_for rest c1) as [[r c2] evs2]. cbn [client_of fst snd] in IH |- *.
      eapply same_transport_trans; eassumption.
    + exact Hm.
    + exact Hm.
  - apply same_transport_refl.
Qed.

Lemma invoke_events {A : Type} (cb : option (callback A)) (wrap : A -> payload) (a : A)
    (errfmt : string) (c : SaynaClient) :
  forallb log_or_call (events_of (invoke cb wrap a errfmt c)) = true.
Proof.
  rewrite invoke_result.
  destruct cb as [f |]; [| reflexivity].
  destruct (f a) as [[] | e]; [| destruct (is_Exception e)]; reflexivity.
Qed.

Lemma loop_body_events `{Pydantic} `{JsonLib} (m : WSMsg) (c : SaynaClient) :
  forallb log_or_call (events_of (loop_body m c)) = true.
Proof.
  destruct m as [data | data | | |]; try reflexivity.
  - assert (Hh : forallb log_or_call (events_of (_handle_text_message data c)) = true).
    { rewrite handle_text_result. cbv zeta.
      repeat dispatch_case; try reflexivity;
        rewrite events_of_prepend, forallb_app, invoke_events; reflexivity. }
    unfold loop_body, bind.
    destruct (_handle_text_message data c) as [[[[] | e] c1] evs];
      cbn [events_of snd ret] in Hh |- *; rewrite ?app_nil_r; exact Hh.
  - assert (Hh : forallb log_or_call (events_of (_handle_binary_message data c)) = true).
    { rewrite handle_binary_result, events_of_prepend, forallb_app, invoke_events.
      reflexivity. }
    unfold loop_body, bind.
    destruct (_handle_binary_message data c) as [[[[] | e] c1] evs];
      cbn [events_of snd ret] in Hh |- *; rewrite ?app_nil_r; exact Hh.
Qed.

Lemma async_for_events `{Pydantic} `{JsonLib} (s : list stream_item) (c : SaynaClient) :
  forallb log_or_call (events_of (async_for s c)) = true.
Proof.
  revert c. induction s as [| [m | e] rest IH]; intros c; try reflexivity.
  pose proof (loop_body_events m c) as Hm.
  cbn [async_for]. unfold bind.
  destruct (loop_body m c) as [[[[] | e] c1] evs]; cbn [events_of snd] in Hm |- *.
  - specialize (IH c1).
    destruct (async_for rest c1) as [[r c2] evs2]. cbn [events_of snd] in IH |- *.
    rewrite forallb_app, Hm, IH. reflexivity.
  - cbn. rewrite app_nil_r. exact Hm.
  - exact Hm.
Qed.

Lemma receive_guard_result (body : M unit) (c : SaynaClient) (e : PyExc) :
  result_of (receive_guard body c) = Raises e ->
  is_Exception e = false /\ e <> CancelledError.
Proof.
  unfold receive_guard, try_finally, try_except, except_Exception.
  destruct (body c) as [[[[] | e0] c1] evs]; [discriminate |].
  destruct e0; cbn; intros Hr; try discriminate Hr; injection Hr as <-;
    split; [reflexivity | discriminate].
Qed.

Lemma receive_guard_events (body : M unit) (c : SaynaClient) :
  forallb log_or_call (events_of (body c)) = true ->
  forallb log_or_call (events_of (receive_guard body c)) = true.
Proof.
  unfold receive_guard, try_finally, try_except, except_Exception.
  destruct (body c) as [[[[] | e0] c1] evs]; cbn [events_of snd]; intros Hb.
  - cbn. rewrite !app_nil_r. exact Hb.
  - destruct e0; cbn; rewrite ?app_nil_r, ?forallb_app, ?Hb; reflexivity.
Qed.

(** The body of [_receive_loop]: the check of the socket, then the
    iteration. *)
Lemma receive_loop_body `{Pydantic} `{JsonLib} (s : list stream_item) (c : SaynaClient) :
  (c0 <- self ;;
   match _ws c0 with
   | None => ret tt
   | Some _ => async_for s
   end) c
  = match _ws c with
    | None => (Returns tt, c, [])
    | Some _ => async_for s c
    end.
Proof.
  unfold bind, self. destruct (_ws c); [| reflexivity].
  destruct (async_for s c) as [[r c1] evs]. reflexivity.
Qed.

Lemma receive_loop_summary `{Pydantic} `{JsonLib} (s : list stream_item)
    (c : SaynaClient) :
  let x := _receive_loop s c in
  _connected (client_of x) = false
  /\ _ready (client_of x) = false
  /\ (_ws (client_of x) = _ws c /\ _session (client_of x) = _session c
      /\ _receive_task (client_of x) = _receive_task c
      /\ registry (client_of x) = registry c)
  /\ forallb log_or_call (events_of x) = true.
Proof.
  cbv zeta.
  assert (Htr : same_transport c
                  (client_of ((c0 <- self ;;
                               match _ws c0 with
                               | None => ret tt
                               | Some _ => async_for s
                               end) c))).
  { rewrite receive_loop_body.
    destruct (_ws c); [apply async_for_transport | apply same_transport_refl]. }
  unfold _receive_loop.
  split; [| split; [| split]].
  - rewrite receive_guard_client. destruct (client_of _). reflexivity.
  - rewrite receive_guard_client. destruct (client_of _). reflexivity.
  - rewrite receive_guard_client.
    destruct Htr as (_ & _ & Hws & Hse & _ & Htk & Hreg).
    destruct (client_of _). cbn in Hws, Hse, Htk, Hreg |- *. auto.
  - apply receive_guard_events. rewrite receive_loop_body.
    destruct (_ws c); [apply async_for_events | reflexivity].
Qed.

(** X11. However the stream of the socket goes and whatever the callbacks
    do, when [_receive_loop] ends the client is neither connected nor
    ready; the loop never ends with an [Exception] nor with a
    cancellation (it logs them and returns; only another exception that
    is not an [Exception] can leave it); and all it did was to log and to
    call callbacks: it wrote nothing to the socket and closed nothing. *)
Theorem receive_loop_ends_closed `{Pydantic} `{JsonLib} (s : list stream_item)
    (c : SaynaClient) :
  let x := _receive_loop s c in
  _connected (client_of x) = false
  /\ _ready (client_of x) = false
  /\ (forall e, result_of x = Raises e -> is_Exception e = false /\ e <> CancelledError)
  /\ forallb log_or_call (events_of x) = true.
Proof.
  cbv zeta.
  destruct (receive_loop_summary s c) as (Hc & Hr & _ & Hev).
  split; [exact Hc |]. split; [exact Hr |]. split; [| exact Hev].
  intros e. unfold _receive_loop. apply receive_guard_result.
Qed.

(** X12. When the receive loop ends by itself (on a close or error
    message, or on an exception raised while waiting for a message), the
    two flags are reset but nothing is closed: the client still holds the
    socket and the session.  Since the client is then not connected, a
    [disconnect] that follows, whoever awaits it, only logs a warning: it
    closes neither of them, nor the REST helper.  The same holds of a
    loop the client does not refer to any more. *)
Theorem loop_end_leaves_transport_open `{Pydantic} `{JsonLib} (i : stream_item)
    (c : SaynaClient) (who : caller) (env : DisconnectEnv) :
  ends_loop i = true ->
  (let x := task_receive i c in
   _ws (client_of x) = _ws c /\ _session (client_of x) = _session c
   /\ _connected (client_of x) = false /\ _ready (client_of x) = false
   /\ ~ In WsClose (events_of x) /\ ~ In SessionClose (events_of x)
   /\ disconnect_by who env (client_of x)
      = (Returns tt, client_of x, [Log WARNING "Not connected to Sayna WebSocket"]))
  /\ (let x := loop_receive i c in
      _ws (client_of x) = _ws c /\ _session (client_of x) = _session c
      /\ _connected (client_of x) = false /\ _ready (client_of x) = false
      /\ ~ In WsClose (events_of x) /\ ~ In SessionClose (events_of x)
      /\ disconnect_by who env (client_of x)
         = (Returns tt, client_of x, [Log WARNING "Not connected to Sayna WebSocket"])).
Proof.
  intros Hi. cbv zeta.
  assert (Hflag : _connected (client_of (task_receive i c)) = false
                  /\ _connected (client_of (loop_receive i c)) = false).
  { destruct i as [[data | data | | |] | e]; try discriminate Hi;
      destruct c as [? ? cws cse cconn crdy ctask ? ? ? ? ? ? ? ? ? ? ?];
      try (destruct e); split; reflexivity. }
  destruct Hflag as [Hf1 Hf2].
  split.
  - repeat (split; [destruct i as [[data | data | | |] | e]; try discriminate Hi;
                    destruct c as [? ? cws cse cconn crdy ctask ? ? ? ? ? ? ? ? ? ? ?];
                    try (destruct e); cbv; intuition discriminate |]).
    apply disconnect_by_not_connected, Hf1.
  - repeat (split; [destruct i as [[data | data | | |] | e]; try discriminate Hi;
                    destruct c as [? ? cws cse cconn crdy ctask ? ? ? ? ? ? ? ? ? ? ?];
                    try (destruct e); cbv; intuition discriminate |]).
    apply disconnect_by_not_connected, Hf2.
Qed.

Lemma loop_end_leaves_transport_open_witness :
  (let x := @task_receive strict_pydantic frames_json (Msg CLOSED) ready_client in
   _ws (client_of x) = _ws ready_client /\ _session (client_of x) = _session ready_client
   /\ _connected (client_of x) = false /\ _ready (client_of x) = false
   /\ ~ In WsClose (events_of x) /\ ~ In SessionClose (events_of x)
   /\ disconnect_by OtherTask disconnect_ok (client_of x)
      = (Returns tt, client_of x, [Log WARNING "Not connected to Sayna WebSocket"]))
  /\ (let x := @loop_receive strict_pydantic frames_json (Msg CLOSED) ready_client in
      _ws (client_of x) = _ws ready_client /\ _session (client_of x) = _session ready_client
      /\ _connected (client_of x) = false /\ _ready (client_of x) = false
      /\ ~ In WsClose (events_of x) /\ ~ In SessionClose (events_of x)
      /\ disconnect_by OtherTask disconnect_ok (client_of x)
         = (Returns tt, client_of x, [Log WARNING "Not connected to Sayna WebSocket"])).
Proof.
  exact (@loop_end_leaves_transport_open strict_pydantic frames_json (Msg CLOSED)
           ready_client OtherTask disconnect_ok eq_refl).
Defined.

(** ** How the loop composes *)

Lemma prepend_prepend {A : Type} (evs evs' : list event)
    (x : outcome A * SaynaClient * list event) :
  prepend evs (prepend evs' x) = prepend (evs ++ evs') x.
Proof. destruct x as [[r c] e]. unfold prepend. rewrite app_assoc. reflexivity. Qed.

Lemma prepend_nil {A : Type} (x : outcome A * SaynaClient * list event) :
  prepend [] x = x.
Proof. destruct x as [[r c] e]. reflexivity. Qed.

Lemma result_of_prepend {A : Type} (evs : list event)
    (x : outcome A * SaynaClient * list event) :
  result_of (prepend evs x) = result_of x.
Proof. destruct x as [[r c] e]. reflexivity. Qed.

Lemma calls_app (evs evs' : list event) :
  calls (evs ++ evs') = calls evs ++ calls evs'.
Proof.
  induction evs as [| [] evs IH]; cbn [app calls]; rewrite ?IH; reflexivity.
Qed.

Lemma callbacks_of_registry (c c' : SaynaClient) :
  registry c' = registry c ->
  callbacks_raise_Exception c -> callbacks_raise_Exception c'.
Proof.
  unfold registry, callbacks_raise_Exception.
  intros Hreg. injection Hreg as -> -> -> -> -> -> ->. exact (fun x => x).
Qed.

(** With contained callbacks the loop goes on after every item it has a
    branch to go on from. *)
Lemma loop_body_contained `{Pydantic} `{JsonLib} (m : WSMsg) (c : SaynaClient) :
  callbacks_raise_Exception c ->
  keeps_looping (Msg m) = true ->
  exists c' evs,
    loop_body m c = (Returns Next, c', evs) /\ registry c' = registry c.
Proof.
  intros Hcb Hk. destruct m as [data | data | | |]; try discriminate Hk.
  - destruct (handle_text_contained data c Hcb) as (c' & evs & Hh & _ & Hreg).
    exists c', evs. split; [apply loop_body_text; exact Hh | exact Hreg].
  - destruct (handle_binary_contained data c Hcb) as (evs & Hh & _).
    exists c, evs. split; [apply loop_body_binary; exact Hh | reflexivity].
  - exists c, []. split; reflexivity.
Qed.

Lemma async_for_app `{Pydantic} `{JsonLib} (s1 s2 : list stream_item) (c : SaynaClient) :
  callbacks_raise_Exception c ->
  forallb keeps_looping s1 = true ->
  result_of (async_for s1 c) = Returns tt
  /\ registry (client_of (async_for s1 c)) = registry c
  /\ async_for (s1 ++ s2) c
     = prepend (events_of (async_for s1 c)) (async_for s2 (client_of (async_for s1 c))).
Proof.
  revert c. induction s1 as [| i s1 IH]; intros c Hcb Hk.
  - cbn. rewrite prepend_nil. auto.
  - cbn [forallb] in Hk. apply andb_prop in Hk as [Hi Hk].
    destruct i as [m | e]; [| discriminate Hi].
    destruct (loop_body_contained m c Hcb Hi) as (c' & evs & Hb & Hreg).
    destruct (IH c' (callbacks_of_registry c c' Hreg Hcb) Hk) as (Hr & Hreg' & Happ).
    cbn [app].
    rewrite (async_for_next m (s1 ++ s2) c c' evs Hb).
    rewrite (async_for_next m s1 c c' evs Hb).
    rewrite result_of_prepend, client_of_prepend, events_of_prepend, Happ, prepend_prepend.
    split; [exact Hr |]. split; [congruence | reflexivity].
Qed.

(** X13. Frames are handled one after the other: as long as the callbacks
    raise [Exception]s at most, reading a run of text, binary and other
    messages and then the rest of the stream is reading the run first and
    the rest from the client the run left. The run itself returns, and the
    callbacks are called in the order of the frames. *)
Theorem receive_in_order `{Pydantic} `{JsonLib} (s1 s2 : list stream_item)
    (c : SaynaClient) :
  callbacks_raise_Exception c ->
  forallb keeps_looping s1 = true ->
  let first := async_for s1 c in
  let then_ := async_for s2 (client_of first) in
  result_of first = Returns tt
  /\ async_for (s1 ++ s2) c = prepend (events_of first) then_
  /\ calls (events_of (async_for (s1 ++ s2) c))
     = calls (events_of first) ++ calls (events_of then_).
Proof.
  intros Hcb Hk. cbv zeta.
  destruct (async_for_app s1 s2 c Hcb Hk) as (Hr & _ & Happ).
  split; [exact Hr |]. split; [exact Happ |].
  rewrite Happ, events_of_prepend, calls_app. reflexivity.
Qed.

Lemma receive_in_order_witness :
  let first :=
    @async_for strict_pydantic frames_json
      [Msg (TEXT "error frame"); Msg (BINARY [])] raising_client in
  let then_ :=
    @async_for strict_pydantic frames_json [Msg (TEXT "ready room-1"); Msg CLOSED]
      (client_of first) in
  result_of first = Returns tt
  /\ @async_for strict_pydantic frames_json
       ([Msg (TEXT "error frame"); Msg (BINARY [])]
        ++ [Msg (TEXT "ready room-1"); Msg CLOSED]) raising_client
     = prepend (events_of first) then_
  /\ calls (events_of
              (@async_for strict_pydantic frames_json
                 ([Msg (TEXT "error frame"); Msg (BINARY [])]
                  ++ [Msg (TEXT "ready room-1"); Msg CLOSED]) raising_client))
     = calls (events_of first) ++ calls (events_of then_).
Proof.
  exact (@receive_in_order strict_pydantic frames_json
           [Msg (TEXT "error frame"); Msg (BINARY [])]
           [Msg (TEXT "ready room-1"); Msg CLOSED] raising_client
           raising_client_callbacks eq_refl).
Defined.

(** The iteration stops at the first item that ends the loop. *)
Lemma async_for_stops `{Pydantic} `{JsonLib} (s1 s2 : list stream_item) (i : stream_item)
    (c : SaynaClient) :
  ends_loop i = true ->
  async_for (s1 ++ i :: s2) c = async_for (s1 ++ [i]) c.
Proof.
  intros Hi. revert c. induction s1 as [| a s1 IH]; intros c.
  - destruct i as [[data | data | | |] | e]; try discriminate Hi; reflexivity.
  - destruct a as [m | e]; [| reflexivity].
    cbn [app async_for]. unfold bind.
    destruct (loop_body m c) as [[[[] | e] c1] evs]; try reflexivity.
    rewrite IH. reflexivity.
Qed.

(** X14. A close message, an error message or an exception raised while
    waiting for the next message ends [_receive_loop]: whatever the socket
    would have yielded after it is never read, so no frame that follows is
    handled and no callback is called for it. *)
Theorem receive_loop_stops `{Pydantic} `{JsonLib} (s1 s2 : list stream_item)
    (i : stream_item) (c : SaynaClient) :
  ends_loop i = true ->
  _receive_loop (s1 ++ i :: s2) c = _receive_loop (s1 ++ [i]) c.
Proof.
  intros Hi. unfold _receive_loop, receive_guard, try_finally, try_except.
  rewrite !receive_loop_body.
  destruct (_ws c); [| reflexivity].
  rewrite (async_for_stops s1 s2 i c Hi). reflexivity.
Qed.

Lemma receive_loop_stops_witness :
  @_receive_loop strict_pydantic frames_json
    ([Msg (BINARY [])] ++ Msg CLOSED :: [Msg (TEXT "error frame")]) raising_client
  = @_receive_loop strict_pydantic frames_json ([Msg (BINARY [])] ++ [Msg CLOSED])
      raising_client.
Proof.
  exact (@receive_loop_stops strict_pydantic frames_json [Msg (BINARY [])]
           [Msg (TEXT "error frame")] (Msg CLOSED) raising_client eq_refl).
Defined.

Lemma async_for_raises `{Pydantic} `{JsonLib} (s : list stream_item) (c : SaynaClient)
    (e : PyExc) :
  callbacks_raise_Exception c ->
  result_of (async_for s c) = Raises e -> In (ReceiveRaises e) s.
Proof.
  revert c. induction s as [| [m | e0] rest IH]; intros c Hcb Hr.
  - discriminate Hr.
  - right. destruct (keeps_looping (Msg m)) eqn:Hk.
    + destruct (loop_body_contained m c Hcb Hk) as (c' & evs & Hb & Hreg).
      rewrite (async_for_next m rest c c' evs Hb), result_of_prepend in Hr.
      exact (IH c' (callbacks_of_registry c c' Hreg Hcb) Hr).
    + destruct m; try discriminate Hk; discriminate Hr.
  - left. cbn in Hr. congruence.
Qed.

Lemma receive_guard_raises (body : M unit) (c : SaynaClient) (e : PyExc) :
  result_of (receive_guard body c) = Raises e ->
  result_of (body c) = Raises e /\ is_Exception e = false /\ e <> CancelledError.
Proof.
  unfold receive_guard, try_finally, try_except, except_Exception.
  destruct (body c) as [[[[] | e0] c1] evs]; [discriminate |].
  destruct e0; cbn; intros Hr; try discriminate Hr; injection Hr as <-;
    split; [reflexivity | split; [reflexivity | discriminate]].
Qed.

(** X15. With callbacks that raise [Exception]s at most, nothing that
    arrives can make [_receive_loop] raise: if it ends with an exception,
    that exception was raised by the socket while the loop waited for the
    next message, and it is neither an [Exception] nor a cancellation
    (those the loop logs, and returns). *)
Theorem loop_raises_only_from_socket `{Pydantic} `{JsonLib} (s : list stream_item)
    (c : SaynaClient) (e : PyExc) :
  callbacks_raise_Exception c ->
  result_of (_receive_loop s c) = Raises e ->
  In (ReceiveRaises e) s /\ is_Exception e = false /\ e <> CancelledError.
Proof.
  intros Hcb Hr. unfold _receive_loop in Hr.
  apply receive_guard_raises in Hr as [Hr He]. split; [| exact He].
  rewrite receive_loop_body in Hr.
  destruct (_ws c); [| discriminate Hr].
  exact (async_for_raises s c e Hcb Hr).
Qed.

Lemma loop_raises_only_from_socket_witness :
  In (ReceiveRaises (OtherBaseException "KeyboardInterrupt"))
    [Msg (TEXT "error frame"); ReceiveRaises (OtherBaseException "KeyboardInterrupt")]
  /\ is_Exception (OtherBaseException "KeyboardInterrupt") = false
  /\ OtherBaseException "KeyboardInterrupt" <> CancelledError.
Proof.
  exact (@loop_raises_only_from_socket strict_pydantic frames_json
           [Msg (TEXT "error frame"); ReceiveRaises (OtherBaseException "KeyboardInterrupt")]
           raising_client (OtherBaseException "KeyboardInterrupt")
           raising_client_callbacks eq_refl).
Defined.

(** ** Registration *)

Lemma loop_body_events_text `{Pydantic} `{JsonLib} (data : string) (c : SaynaClient) :
  events_of (loop_body (TEXT data) c) = events_of (_handle_text_message data c).
Proof.
  unfold loop_body, bind.
  destruct (_handle_text_message data c) as [[[[] | e] c1] evs]; cbn;
    rewrite ?app_nil_r; reflexivity.
Qed.

Lemma loop_body_events_binary `{Pydantic} `{JsonLib} (data : list byte) (c : SaynaClient) :
  events_of (loop_body (BINARY data) c) = events_of (_handle_binary_message data c).
Proof.
  unfold loop_body, bind.
  destruct (_handle_binary_message data c) as [[[[] | e] c1] evs]; cbn;
    rewrite ?app_nil_r; reflexivity.
Qed.

Lemma call_events_invoke {A : Type} (f : callback A) (wrap : A -> payload) (a : A)
    (errfmt : string) (c : SaynaClient) :
  call_events (events_of (invoke (Some f) wrap a errfmt c)) = [Call (wrap a) (f a)].
Proof.
  rewrite invoke_result.
  destruct (f a) as [[] | e]; [| destruct (is_Exception e)]; reflexivity.
Qed.

Lemma py_eq_str_true (v : option json) (s : string) :
  py_eq_str v s = true -> v = Some (JStr s).
Proof.
  destruct v as [[] |]; try discriminate. cbn. intros Hs.
  apply String.eqb_eq in Hs. congruence.
Qed.

(** X16. Registering a callback replaces the one of its kind: whichever
    callbacks the client had, in whatever state, after [register_on_*] a
    frame of that kind makes exactly one call, to the new callback, with
    the payload of the frame. Registering itself never fails and makes no
    call. *)
Theorem register_replaces_callback `{Pydantic} `{JsonLib} (r : registration)
    (c : SaynaClient) (m : WSMsg) (p : payload) (ev : event) :
  carries m p ->
  call_of r p = Some ev ->
  result_of (register r c) = Returns tt
  /\ events_of (register r c) = []
  /\ call_events (events_of (loop_body m (client_of (register r c)))) = [ev].
Proof.
  intros Hm Hev.
  split; [destruct r; reflexivity |]. split; [destruct r; reflexivity |].
  destruct m as [data | data | | |]; try contradiction.
  - destruct Hm as (d & Hj & Hp).
    rewrite loop_body_events_text, handle_text_result, Hj. cbv zeta.
    destruct p as [msg | msg | msg | msg | msg | msg | b]; try contradiction;
      destruct Hp as [Ht Hv]; rewrite Ht; simpl py_eq_str; cbv iota; rewrite Hv;
      destruct r as [cb | cb | cb | cb | cb | cb | cb]; try discriminate Hev;
      injection Hev as <-; destruct c;
      rewrite events_of_prepend; unfold call_events; rewrite filter_app;
      apply (call_events_invoke cb).
  - cbn in Hm. subst p.
    destruct r as [cb | cb | cb | cb | cb | cb | cb]; try discriminate Hev.
    injection Hev as <-. destruct c.
    rewrite loop_body_events_binary, handle_binary_result, events_of_prepend.
    unfold call_events. rewrite filter_app. apply (call_events_invoke cb).
Qed.

Lemma register_replaces_callback_witness :
  @carries strict_pydantic frames_json (TEXT "error frame")
    (OnError {| ErrorMessage.message := "boom" |})
  /\ (result_of (register (ForError (fun _ => Returns tt)) raising_client) = Returns tt
      /\ events_of (register (ForError (fun _ => Returns tt)) raising_client) = []
      /\ call_events
           (events_of
              (@loop_body strict_pydantic frames_json (TEXT "error frame")
                 (client_of (register (ForError (fun _ => Returns tt)) raising_client))))
         = [Call (OnError {| ErrorMessage.message := "boom" |}) (Returns tt)]).
Proof.
  assert (Hc : @carries strict_pydantic frames_json (TEXT "error frame")
                 (OnError {| ErrorMessage.message := "boom" |})).
  { exists [("type", JStr "error"); ("message", JStr "boom")].
    split; [reflexivity | split; reflexivity]. }
  split; [exact Hc |].
  exact (@register_replaces_callback strict_pydantic frames_json
           (ForError (fun _ => Returns tt)) raising_client (TEXT "error frame")
           (OnError {| ErrorMessage.message := "boom" |}) _ Hc eq_refl).
Defined.

Lemma loop_body_result_text `{Pydantic} `{JsonLib} (data : string) (c : SaynaClient) :
  result_of (loop_body (TEXT data) c)
  = match result_of (_handle_text_message data c) with
    | Returns _ => Returns Next
    | Raises e => Raises e
    end.
Proof.
  unfold loop_body, bind.
  destruct (_handle_text_message data c) as [[[[] | e] c1] evs]; reflexivity.
Qed.

Lemma loop_body_result_binary `{Pydantic} `{JsonLib} (data : list byte) (c : SaynaClient) :
  result_of (loop_body (BINARY data) c)
  = match result_of (_handle_binary_message data c) with
    | Returns _ => Returns Next
    | Raises e => Raises e
    end.
Proof.
  unfold loop_body, bind.
  destruct (_handle_binary_message data c) as [[[[] | e] c1] evs]; reflexivity.
Qed.

(** What [invoke] calls and how it ends does not depend on the state of
    the client. *)
Lemma invoke_any_client {A : Type} (cb : option (callback A)) (wrap : A -> payload) (a : A)
    (errfmt : string) (c c' : SaynaClient) (evs : list event) :
  evs ++ events_of (invoke cb wrap a errfmt c') = evs ++ events_of (invoke cb wrap a errfmt c)
  /\ result_of (invoke cb wrap a errfmt c') = result_of (invoke cb wrap a errfmt c).
Proof.
  rewrite !invoke_result.
  destruct cb as [f |]; [| split; reflexivity].
  destruct (f a) as [[] | e]; [| destruct (is_Exception e)]; split; reflexivity.
Qed.

Ltac same_slot c :=
  match goal with
  | |- context [?slot (client_of (register ?r c))] =>
      replace (slot (client_of (register r c))) with (slot c) by (destruct c; reflexivity)
  end.

Ltac same_kind_carried Hother d Hj :=
  exfalso;
  match goal with
  | Ht : dict_get d "type" = Some _, Hv : _ = Some ?msg |- _ =>
      first
        [ specialize (Hother (OnReady msg) (ex_intro _ d (conj Hj (conj Ht Hv))))
        | specialize (Hother (OnSttResult msg) (ex_intro _ d (conj Hj (conj Ht Hv))))
        | specialize (Hother (OnMessage msg) (ex_intro _ d (conj Hj (conj Ht Hv))))
        | specialize (Hother (OnError msg) (ex_intro _ d (conj Hj (conj Ht Hv))))
        | specialize (Hother (OnParticipantDisconnected msg)
                        (ex_intro _ d (conj Hj (conj Ht Hv))))
        | specialize (Hother (OnTtsPlaybackComplete msg)
                        (ex_intro _ d (conj Hj (conj Ht Hv)))) ];
      discriminate Hother
  end.

(** X17. A registration concerns its own kind only: a message that does
    not carry a payload of the kind registered is handled exactly as it
    was before the registration. *)
Theorem register_leaves_other_kinds `{Pydantic} `{JsonLib} (r : registration)
    (c : SaynaClient) (m : WSMsg) :
  (forall p, carries m p -> call_of r p = None) ->
  events_of (loop_body m (client_of (register r c))) = events_of (loop_body m c)
  /\ result_of (loop_body m (client_of (register r c))) = result_of (loop_body m c).
Proof.
  intros Hother.
  destruct m as [data | data | | |]; try (split; reflexivity).
  - rewrite !loop_body_events_text, !loop_body_result_text.
    assert (Hh : events_of (_handle_text_message data (client_of (register r c)))
                 = events_of (_handle_text_message data c)
                 /\ result_of (_handle_text_message data (client_of (register r c)))
                    = result_of (_handle_text_message data c)).
    { rewrite !handle_text_result. cbv zeta.
      destruct (json_loads data) as [[| | | | | | d] |] eqn:Hj; try (split; reflexivity).
      repeat match goal with
             | |- context [py_eq_str ?a ?b] =>
                 let Ht := fresh "Ht" in
                 destruct (py_eq_str a b) eqn:Ht; [apply py_eq_str_true in Ht |]
             end;
        try (split; reflexivity);
        match goal with
        | |- context [match ?v with Some _ => _ | None => _ end] =>
            let Hv := fresh "Hv" in
            destruct v as [msg |] eqn:Hv; [| split; reflexivity]
        end;
        rewrite !events_of_prepend, !result_of_prepend;
        destruct r as [cb | cb | cb | cb | cb | cb | cb];
        first [ solve [same_slot c; apply invoke_any_client]
              | same_kind_carried Hother d Hj ]. }
    destruct Hh as [-> ->]. split; reflexivity.
  - rewrite !loop_body_events_binary, !loop_body_result_binary.
    assert (Hh : events_of (_handle_binary_message data (client_of (register r c)))
                 = events_of (_handle_binary_message data c)
                 /\ result_of (_handle_binary_message data (client_of (register r c)))
                    = result_of (_handle_binary_message data c)).
    { rewrite !handle_binary_result, !events_of_prepend, !result_of_prepend.
      destruct r as [cb | cb | cb | cb | cb | cb | cb];
        try solve [same_slot c; apply invoke_any_client].
      specialize (Hother (OnAudio data) eq_refl). discriminate Hother. }
    destruct Hh as [-> ->]. split; reflexivity.
Qed.

Lemma register_leaves_other_kinds_witness :
  events_of (@loop_body strict_pydantic frames_json (BINARY [])
               (client_of (register (ForError (fun _ => Returns tt)) raising_client)))
  = events_of (@loop_body strict_pydantic frames_json (BINARY []) raising_client)
  /\ result_of (@loop_body strict_pydantic frames_json (BINARY [])
                  (client_of (register (ForError (fun _ => Returns tt)) raising_client)))
     = result_of (@loop_body strict_pydantic frames_json (BINARY []) raising_client).
Proof.
  apply (@register_leaves_other_kinds strict_pydantic frames_json
           (ForError (fun _ => Returns tt)) raising_client (BINARY [])).
  intros p Hp. cbn in Hp. subst p. reflexivity.
Defined.

(** ** The REST base URL *)

Lemma replace_absent (old new s : string) :
  occurs old s = false -> replace_from 0 old new s = s.
Proof.
  induction s as [| ch rest IH]; [reflexivity |].
  cbn [occurs replace_from]. intros Ho.
  apply orb_false_iff in Ho as [Hp Hr].
  rewrite Hp, (IH Hr). reflexivity.
Qed.

Lemma length_app (a b : string) :
  String.length (a ++ b)%string = (String.length a + String.length b)%nat.
Proof. induction a as [| ch a IH]; cbn; [| rewrite IH]; reflexivity. Qed.

Lemma substring_whole (s : string) : substring 0 (String.length s) s = s.
Proof. induction s as [| ch s IH]; cbn; [| rewrite IH]; reflexivity. Qed.

Lemma substring_suffix (a suf : string) :
  substring (String.length a) (String.length suf) (a ++ suf)%string = suf.
Proof. induction a as [| ch a IH]; cbn; [apply substring_whole | exact IH]. Qed.

Lemma substring_prefix (a suf : string) :
  substring 0 (String.length a) (a ++ suf)%string = a.
Proof.
  induction a as [| ch a IH]; cbn; [destruct suf; reflexivity | rewrite IH; reflexivity].
Qed.

Lemma endswith_app (a suf : string) : endswith (a ++ suf)%string suf = true.
Proof.
  unfold endswith. rewrite length_app, Nat.add_sub, substring_suffix, String.eqb_refl.
  rewrite andb_true_r. apply Nat.leb_le. apply Nat.le_add_l.
Qed.

Lemma drop_last_app (a suf : string) :
  drop_last (String.length suf) (a ++ suf)%string = a.
Proof.
  unfold drop_last. rewrite length_app, Nat.add_sub. apply substring_prefix.
Qed.

(** A prefix does not change how a string ends, if the string is at least
    as long as the ending. *)
Lemma endswith_longer (p s suf : string) :
  (String.length suf <= String.length s)%nat ->
  endswith (p ++ s)%string suf = endswith s suf.
Proof.
  intros Hle. induction p as [| ch p IH]; [reflexivity |].
  rewrite <- IH. unfold endswith. cbn [append String.length].
  assert (Hlen : (String.length suf <= String.length (p ++ s)%string)%nat)
    by (rewrite length_app; apply Nat.le_trans with (1 := Hle), Nat.le_add_l).
  rewrite (Nat.sub_succ_l _ _ Hlen).
  cbn [substring].
  replace (String.length suf <=? S (String.length (p ++ s)%string))%nat with true
    by (symmetry; apply Nat.leb_le; apply Nat.le_le_succ_r; exact Hlen).
  replace (String.length suf <=? String.length (p ++ s)%string)%nat with true
    by (symmetry; apply Nat.leb_le; exact Hlen).
  reflexivity.
Qed.

Lemma prefix_empty (s : string) : String.prefix "" s = true.
Proof. destruct s; reflexivity. Qed.

Lemma replaced_wss (rest : string) :
  occurs "ws://" rest = false -> occurs "wss://" rest = false ->
  replace "ws://" "http://" (replace "wss://" "https://" ("wss://" ++ rest))
  = ("https://" ++ rest)%string.
Proof.
  intros Hws Hwss. unfold replace. cbn.
  rewrite prefix_empty, (replace_absent "wss://" "https://" rest Hwss). cbn.
  rewrite (replace_absent "ws://" "http://" rest Hws). reflexivity.
Qed.

Lemma replaced_ws (rest : string) :
  occurs "ws://" rest = false -> occurs "wss://" rest = false ->
  replace "ws://" "http://" (replace "wss://" "https://" ("ws://" ++ rest))
  = ("http://" ++ rest)%string.
Proof.
  intros Hws Hwss. unfold replace. cbn.
  rewrite (replace_absent "wss://" "https://" rest Hwss). cbn.
  rewrite prefix_empty, (replace_absent "ws://" "http://" rest Hws). reflexivity.
Qed.

Lemma starts_wss (rest : string) :
  startswith ("wss://" ++ rest) "ws://" || startswith ("wss://" ++ rest) "wss://" = true.
Proof. unfold startswith. cbn. apply prefix_empty. Qed.

Lemma starts_ws (rest : string) :
  startswith ("ws://" ++ rest) "ws://" || startswith ("ws://" ++ rest) "wss://" = true.
Proof. unfold startswith. cbn. rewrite prefix_empty. reflexivity. Qed.

(** Behind the new scheme a string ends in ["/ws"] when it does so by
    itself, and in one more case: the string ["ws"], which follows the
    ["/"] of the scheme. *)
Lemma endswith_behind_scheme (scheme rest : string) :
  scheme = "https://" \/ scheme = "http://" ->
  endswith rest "/ws" = false -> rest <> "ws" ->
  endswith (scheme ++ rest)%string "/ws" = false.
Proof.
  intros Hs Hr Hne.
  destruct rest as [| a [| b [| c r]]].
  - destruct Hs as [-> | ->]; reflexivity.
  - destruct Hs as [-> | ->]; reflexivity.
  - destruct (Ascii.eqb_spec a "w") as [-> | Ha], (Ascii.eqb_spec b "s") as [-> | Hb];
      try (exfalso; apply Hne; reflexivity);
      destruct Hs as [-> | ->]; unfold endswith; cbn;
      rewrite ?Ascii.eqb_refl;
      repeat match goal with
             | Hx : ?x <> ?y |- context [Ascii.eqb ?x ?y] =>
                 rewrite (proj2 (Ascii.eqb_neq x y) Hx)
             end;
      reflexivity.
  - rewrite endswith_longer; [exact Hr |].
    cbn. repeat apply le_n_S. apply Nat.le_0_l.
Qed.

(** X18. The REST base URL that [__init__] derives from a WebSocket URL:
    the scheme [wss://] becomes [https://] and [ws://] becomes [http://],
    and one ["/ws"] at the end is dropped. The two [replace] calls act on
    every occurrence, so the part behind the scheme is kept as it is only
    if neither scheme occurs in it; and since the ending is looked for
    after the scheme was replaced, the string ["ws"] alone behind the
    scheme is not kept either. *)
Theorem base_url_of_ws_url (rest : string) :
  occurs "ws://" rest = false ->
  occurs "wss://" rest = false ->
  (forall host, rest = (host ++ "/ws")%string ->
     base_url ("wss://" ++ rest) = ("https://" ++ host)%string
     /\ base_url ("ws://" ++ rest) = ("http://" ++ host)%string)
  /\ (endswith rest "/ws" = false -> rest <> "ws" ->
      base_url ("wss://" ++ rest) = ("https://" ++ rest)%string
      /\ base_url ("ws://" ++ rest) = ("http://" ++ rest)%string).
Proof.
  intros Hws Hwss.
  assert (Hb : forall scheme new, 
             (scheme = "wss://" /\ new = "https://") \/ (scheme = "ws://" /\ new = "http://") ->
             base_url (scheme ++ rest)
             = if endswith (new ++ rest) "/ws" then drop_last 3 (new ++ rest)
               else (new ++ rest)%string).
  { intros scheme new [[-> ->] | [-> ->]]; unfold base_url.
    - rewrite starts_wss. cbv zeta. rewrite (replaced_wss rest Hws Hwss). reflexivity.
    - rewrite starts_ws. cbv zeta. rewrite (replaced_ws rest Hws Hwss). reflexivity. }
  split.
  - intros host ->.
    rewrite (Hb "wss://" "https://"), (Hb "ws://" "http://") by auto.
    change ("https://" ++ host ++ "/ws")%string with (("https://" ++ host) ++ "/ws")%string.
    change ("http://" ++ host ++ "/ws")%string with (("http://" ++ host) ++ "/ws")%string.
    rewrite !endswith_app.
    split; apply (drop_last_app _ "/ws").
  - intros Hend Hne.
    rewrite (Hb "wss://" "https://"), (Hb "ws://" "http://") by auto.
    rewrite !endswith_behind_scheme by auto.
    split; reflexivity.
Qed.

Lemma base_url_of_ws_url_witness :
  (forall host, "localhost:3000/ws" = (host ++ "/ws")%string ->
     base_url ("wss://" ++ "localhost:3000/ws") = ("https://" ++ host)%string
     /\ base_url ("ws://" ++ "localhost:3000/ws") = ("http://" ++ host)%string)
  /\ (endswith "localhost:3000/ws" "/ws" = false -> "localhost:3000/ws" <> "ws" ->
      base_url ("wss://" ++ "localhost:3000/ws") = ("https://" ++ "localhost:3000/ws")%string
      /\ base_url ("ws://" ++ "localhost:3000/ws")
         = ("http://" ++ "localhost:3000/ws")%string).
Proof.
  exact (base_url_of_ws_url "localhost:3000/ws" eq_refl eq_refl).
Defined.

(** The URLs of the tests of the client. *)
Example base_url_of_test_urls :
  base_url "wss://api.example.com/ws" = "https://api.example.com"
  /\ base_url "ws://localhost:3000/ws" = "http://localhost:3000"
  /\ base_url "wss://api.example.com" = "https://api.example.com"
  /\ base_url "https://api.example.com/ws" = "https://api.example.com/ws"
  /\ base_url "wss://ws" = "https:/".
Proof. repeat split; reflexivity. Qed.

(** ** The client as a context manager *)

(** X19. Used as a context manager the client is not connected on entry:
    a sending method called in the block of a client that was not
    connected before raises the not-connected error, and the exit then has
    nothing to close. The exit never hides an exception of the block: the
    statement returns only if the block returned, with the value of the
    block, and the client is then not connected. *)
Theorem context_manager_exit {A : Type} (env : DisconnectEnv) (body : M A) (c : SaynaClient) :
  (forall s sent,
      _connected c = false ->
      async_with env (send s sent) c
      = (Raises SaynaNotConnectedError, c, [Log WARNING "Not connected to Sayna WebSocket"]))
  /\ (forall a,
         result_of (async_with env body c) = Returns a ->
         result_of (body c) = Returns a
         /\ _connected (client_of (async_with env body c)) = false).
Proof.
  split.
  - intros s sent Hc.
    unfold async_with, __aenter__, __aexit__, bind, ret, try_finally.
    rewrite (send_check_fails s sent c SaynaNotConnectedError)
      by (apply check_ready_not_connected, Hc).
    rewrite (disconnect_not_connected env c Hc). reflexivity.
  - intros a.
    unfold async_with, __aenter__, __aexit__, bind, ret, try_finally.
    destruct (body c) as [[r c1] evs].
    destruct (_connected c1) eqn:Hc1.
    + pose proof (disconnect_returns env c1 Hc1) as Hd.
      destruct (disconnect env c1) as [[[[] | e] c2] evs2]; cbn; intros Hr;
        [| discriminate Hr].
      split; [exact Hr |]. apply (Hd eq_refl).
    + rewrite (disconnect_not_connected env c1 Hc1). cbn. intros Hr.
      split; [exact Hr | exact Hc1].
Qed.

(** ** The session of the example server *)

(** X20. [create_sayna_session] of the example server never returns a
    client. [connect] returns before the receive task has run, so the
    [ready] attribute read right after it is false whatever the server
    would send: the function disconnects and raises (its own
    [RuntimeError] when the transport works, the error of [connect] or of
    [disconnect] otherwise), it calls none of the callbacks it registered,
    and when the transport works the client it leaves is disconnected and
    holds neither a socket, a session nor a task. *)
Theorem create_sayna_session_never_returns
    (sayna_url room_name participant_identity : string)
    (on_stt_result : callback STTResultMessage.t)
    (on_participant_disconnected : callback ParticipantDisconnectedMessage.t)
    (on_tts_playback_complete : callback TTSPlaybackCompleteMessage.t)
    (on_error : callback ErrorMessage.t)
    (cenv : ConnectEnv) (denv : DisconnectEnv) :
  let x :=
    create_sayna_session sayna_url room_name participant_identity on_stt_result
      on_participant_disconnected on_tts_playback_complete on_error cenv denv in
  (exists e, result_of x = Raises e)
  /\ calls (events_of x) = []
  /\ ((exists ws, ws_connect_result cenv = Returns ws) ->
      config_sent cenv = Returns tt ->
      ws_close_result denv = Returns tt ->
      session_close_result denv = Returns tt ->
      http_close_result denv = Returns tt ->
      result_of x
      = Raises (OtherException "RuntimeError: Sayna connection failed to become ready")
      /\ In CreateTask (events_of x) /\ In CancelTask (events_of x)
      /\ _connected (client_of x) = false /\ _ws (client_of x) = None
      /\ _session (client_of x) = None /\ _receive_task (client_of x) = None).
Proof.
  destruct cenv as [wr cs], denv as [wc wcr sc scr hr].
  cbv zeta. unfold create_sayna_session.
  split; [| split].
  - cbv -[ConfigMessage.model_dump_exclude_none auth_headers].
    repeat case_var; eexists; reflexivity.
  - cbv -[ConfigMessage.model_dump_exclude_none auth_headers].
    repeat case_var; reflexivity.
  - cbn [ws_connect_result config_sent ws_close_result session_close_result
           http_close_result].
    intros [ws ->] -> -> -> ->.
    cbv -[ConfigMessage.model_dump_exclude_none auth_headers].
    repeat case_var; repeat split; auto 10.
Qed.
